(** * videogen-api: the account and authentication service

    A shallow embedding of [AuthService] (services/auth.service.ts)
    together with the parts of the [User] model (models/User.ts), of the
    e-mail service (utils/email.service.ts), of the token helpers
    (utils/jwt.ts) and of [AppError] (middleware/errorHandler.ts) it
    relies on.

    Conventions of the embedding.
    - A [Date] is its [getTime()] value, milliseconds as an integer.
    - An [ObjectId] is a number; [toString()] on it is its rendering.
      The ids handed to the service are well-formed ids.
    - A string is the sequence of its UTF-16 code units, one character
      per unit, so that [length] and [trim] are those of JavaScript;
      code units above 255 are outside the model.
    - The [User] collection is the list of its documents in natural
      order; [findOne] returns the first match, [save] rewrites the
      first document carrying the [_id] of the in-memory copy.
    - One call of the service observes one instant: every [new Date()]
      and [Date.now()] inside a call reads the same [clock].
    - The schema of [User] acts where the service assigns a path: the
      [trim] setter of [name], and the validators of [name], [email]
      and [password], on which [save] and [create] throw a
      [ValidationError] before anything is written. A value read back
      from the collection passed its validators when it was written.
    - E-mail addresses are in the lower-cased, trimmed form of the
      schema, on which its [lowercase] and [trim] setters and the
      casting of a query value are the identity.
    - bcrypt and jsonwebtoken are capabilities ([Bcrypt], [Jwt]); the
      SMTP transport is an oracle held by the [World], and so is the
      number [Math.floor(100000 + Math.random() * 900000)], the result
      of a computation in floating point, at each draw.
    - [updatedAt], written by the store on its own and never read by
      the service, is left out of the record. *)

From Stdlib Require Import ZArith NArith List String Ascii Bool Lia.
From Stdlib Require Import Decimal DecimalString.
Import ListNotations.

Local Open Scope string_scope.
Local Open Scope Z_scope.

(** ** Strings and regular expressions *)

(** The code units below 256 that [trim()] strips: TAB, LF, VT, FF, CR,
    space and NBSP. *)
Definition isWhiteSpaceChar (c : ascii) : bool :=
  let n := N_of_ascii c in
  ((9 <=? n) && (n <=? 13) || (n =? 32) || (n =? 160))%N.

Fixpoint stringTrimStart (s : string) : string :=
  match s with
  | EmptyString => EmptyString
  | String c r => if isWhiteSpaceChar c then stringTrimStart r else s
  end.

Fixpoint stringTrimEnd (s : string) : string :=
  match s with
  | EmptyString => EmptyString
  | String c r =>
      match stringTrimEnd r with
      | EmptyString => if isWhiteSpaceChar c then EmptyString else String c EmptyString
      | String d r' => String c (String d r')
      end
  end.

(** [s.trim()]. *)
Definition stringTrim (s : string) : string := stringTrimEnd (stringTrimStart s).

(** Regular expressions over code units, without back-references and
    look-around: enough for the pattern of the schema. *)
Inductive RegExp :=
| Nothing
| Epsilon
| Class (p : ascii -> bool)
| Seq (r s : RegExp)
| Alt (r s : RegExp)
| Star (r : RegExp).

(** Whether an expression matches the empty string. *)
Fixpoint nullable (r : RegExp) : bool :=
  match r with
  | Nothing => false
  | Epsilon => true
  | Class _ => false
  | Seq r s => nullable r && nullable s
  | Alt r s => nullable r || nullable s
  | Star _ => true
  end.

(** What is left of an expression once [c] has been read. *)
Fixpoint derivative (c : ascii) (r : RegExp) : RegExp :=
  match r with
  | Nothing => Nothing
  | Epsilon => Nothing
  | Class p => if p c then Epsilon else Nothing
  | Seq r s =>
      if nullable r
      then Alt (Seq (derivative c r) s) (derivative c s)
      else Seq (derivative c r) s
  | Alt r s => Alt (derivative c r) (derivative c s)
  | Star r => Seq (derivative c r) (Star r)
  end.

(** [/^r$/.test(s)]. *)
Fixpoint regexTest (r : RegExp) (s : string) : bool :=
  match s with
  | EmptyString => nullable r
  | String c s' => regexTest (derivative c r) s'
  end.

(** The strings an expression stands for. *)
Inductive Matches : RegExp -> string -> Prop :=
| MatchesEpsilon : Matches Epsilon ""
| MatchesClass (p : ascii -> bool) (c : ascii) :
    p c = true -> Matches (Class p) (String c "")
| MatchesSeq (r s : RegExp) (x y : string) :
    Matches r x -> Matches s y -> Matches (Seq r s) (x ++ y)
| MatchesAltL (r s : RegExp) (x : string) : Matches r x -> Matches (Alt r s) x
| MatchesAltR (r s : RegExp) (x : string) : Matches s x -> Matches (Alt r s) x
| MatchesStarNil (r : RegExp) : Matches (Star r) ""
| MatchesStarCons (r : RegExp) (x y : string) :
    Matches r x -> Matches (Star r) y -> Matches (Star r) (x ++ y).

(** [r+], [r?] and a single character. *)
Definition Plus (r : RegExp) : RegExp := Seq r (Star r).
Definition Opt (r : RegExp) : RegExp := Alt Epsilon r.
Definition Char (c : ascii) : RegExp := Class (Ascii.eqb c).

(** [\w]: [[A-Za-z0-9_]]. *)
Definition isWordChar (c : ascii) : bool :=
  let n := N_of_ascii c in
  ((48 <=? n) && (n <=? 57) || (65 <=? n) && (n <=? 90)
   || (97 <=? n) && (n <=? 122) || (n =? 95))%N.

(** [[.-]]. *)
Definition isDotOrHyphen (c : ascii) : bool :=
  let n := N_of_ascii c in ((n =? 46) || (n =? 45))%N.

(** ** Data model (types/index.ts, models/User.ts) *)

Definition Date := Z.
Definition ObjectId := N.

Inductive Plan := free | pro | premium.
Inductive Platform := youtube | instagram | tiktok | facebook.

Record User := mkUser {
  _id : ObjectId;
  name : string;
  email : string;
  password : string;
  plan : Plan;
  isAdmin : bool;
  isEmailVerified : bool;
  emailVerificationCode : option string;
  emailVerificationExpires : option Date;
  passwordResetCode : option string;
  passwordResetExpires : option Date;
  connectedPlatforms : list Platform;
  videosGenerated : N;
  lastLogin : option Date;
  createdAt : Date
}.

(** Field assignments [user.f = v] on an in-memory document. On [name]
    the [trim] setter of the schema is applied to the assigned value. *)

Definition with_name (v : string) (u : User) : User :=
  mkUser (_id u) (stringTrim v) (email u) (password u) (plan u) (isAdmin u)
    (isEmailVerified u) (emailVerificationCode u) (emailVerificationExpires u)
    (passwordResetCode u) (passwordResetExpires u) (connectedPlatforms u)
    (videosGenerated u) (lastLogin u) (createdAt u).

Definition with_password (v : string) (u : User) : User :=
  mkUser (_id u) (name u) (email u) v (plan u) (isAdmin u)
    (isEmailVerified u) (emailVerificationCode u) (emailVerificationExpires u)
    (passwordResetCode u) (passwordResetExpires u) (connectedPlatforms u)
    (videosGenerated u) (lastLogin u) (createdAt u).

Definition with_isEmailVerified (v : bool) (u : User) : User :=
  mkUser (_id u) (name u) (email u) (password u) (plan u) (isAdmin u)
    v (emailVerificationCode u) (emailVerificationExpires u)
    (passwordResetCode u) (passwordResetExpires u) (connectedPlatforms u)
    (videosGenerated u) (lastLogin u) (createdAt u).

Definition with_emailVerificationCode (v : option string) (u : User) : User :=
  mkUser (_id u) (name u) (email u) (password u) (plan u) (isAdmin u)
    (isEmailVerified u) v (emailVerificationExpires u)
    (passwordResetCode u) (passwordResetExpires u) (connectedPlatforms u)
    (videosGenerated u) (lastLogin u) (createdAt u).

Definition with_emailVerificationExpires (v : option Date) (u : User) : User :=
  mkUser (_id u) (name u) (email u) (password u) (plan u) (isAdmin u)
    (isEmailVerified u) (emailVerificationCode u) v
    (passwordResetCode u) (passwordResetExpires u) (connectedPlatforms u)
    (videosGenerated u) (lastLogin u) (createdAt u).

Definition with_passwordResetCode (v : option string) (u : User) : User :=
  mkUser (_id u) (name u) (email u) (password u) (plan u) (isAdmin u)
    (isEmailVerified u) (emailVerificationCode u) (emailVerificationExpires u)
    v (passwordResetExpires u) (connectedPlatforms u)
    (videosGenerated u) (lastLogin u) (createdAt u).

Definition with_passwordResetExpires (v : option Date) (u : User) : User :=
  mkUser (_id u) (name u) (email u) (password u) (plan u) (isAdmin u)
    (isEmailVerified u) (emailVerificationCode u) (emailVerificationExpires u)
    (passwordResetCode u) v (connectedPlatforms u)
    (videosGenerated u) (lastLogin u) (createdAt u).

Definition with_lastLogin (v : option Date) (u : User) : User :=
  mkUser (_id u) (name u) (email u) (password u) (plan u) (isAdmin u)
    (isEmailVerified u) (emailVerificationCode u) (emailVerificationExpires u)
    (passwordResetCode u) (passwordResetExpires u) (connectedPlatforms u)
    (videosGenerated u) v (createdAt u).

(** [JWTPayload], as [createJWTPayload] fills it. *)
Record JWTPayload := mkPayload {
  userId : ObjectId;
  id : ObjectId;
  payload_email : string;
  payload_plan : Plan;
  payload_isAdmin : bool
}.

(** The [user] part of [AuthResponse]. *)
Record UserView := mkUserView {
  view_id : ObjectId;
  view_name : string;
  view_email : string;
  view_plan : Plan;
  view_isAdmin : bool;
  view_connectedPlatforms : list Platform;
  view_videosGenerated : N
}.

Record AuthResponse := mkAuthResponse {
  user : UserView;
  token : string;
  refreshToken_ : string
}.

(** What [getProfile] and [updateProfile] return. *)
Record Profile := mkProfile {
  profile_user : UserView;
  profile_lastLogin : option Date;
  profile_createdAt : Date
}.

(** ** Errors (middleware/errorHandler.ts) *)

(** [new AppError(message, statusCode)]; [isOperational] is always true. *)
Record AppError := mkAppError {
  message : string;
  statusCode : Z
}.

(** What a validator of the schema reports: the path and the message. *)
Record ValidatorError := mkValidatorError {
  path : string;
  validator_message : string
}.

(** What a call can throw: an [AppError], a plain [Error] raised by a
    helper ([verifyRefreshToken]), or the [ValidationError] of mongoose
    with the paths that failed, in the order of the schema. *)
Inductive Thrown :=
| ThrownApp (e : AppError)
| ThrownError (msg : string)
| ThrownValidation (errors : list ValidatorError).

Inductive Outcome (A : Type) :=
| Returned (a : A)
| Raised (e : Thrown).
Arguments Returned {A} a.
Arguments Raised {A} e.

(** The status the error carries into the handler:
    [err.statusCode || 500]. *)
Definition status_of {A} (o : Outcome A) : option Z :=
  match o with
  | Returned _ => None
  | Raised (ThrownApp e) => Some (statusCode e)
  | Raised (ThrownError _) => Some 500
  | Raised (ThrownValidation _) => Some 500
  end.

(** ** Collaborators *)

(** bcryptjs: [bcrypt.hash(plain, rounds)] and [bcrypt.compare]. *)
Class Bcrypt := {
  bcrypt_hash : string -> string;
  bcrypt_compare : string -> string -> bool
}.

Inductive JwtVerdict :=
| JwtValid (p : JWTPayload)
| TokenExpiredError
| JsonWebTokenError
| JwtOtherError.

(** jsonwebtoken with the secrets, lifetimes, issuer and audience of
    utils/jwt.ts fixed: signing with the access and refresh secret at a
    given instant, and [jwt.verify] with the refresh secret. *)
Class Jwt := {
  sign_access : JWTPayload -> Date -> string;
  sign_refresh : JWTPayload -> Date -> string;
  verify_refresh : string -> Date -> JwtVerdict
}.

(** The three messages the e-mail service builds (templates elided). *)
Inductive Mail :=
| VerificationCodeMail (to_ name_ code : string)
| PasswordResetCodeMail (to_ name_ code : string)
| WelcomeMail (to_ name_ : string).

(** ** The world a call runs in *)

Record World := mkWorld {
  users : list User;             (* the User collection *)
  nextId : ObjectId;             (* next ObjectId the driver hands out *)
  clock : Date;                  (* Date.now() *)
  mathRandom : nat -> N;         (* k-th draw: the number
                                    Math.floor(100000 + Math.random() * 900000) *)
  draws : nat;                   (* draws consumed so far *)
  transporter : option (Mail -> bool);
                                 (* nodemailer transport, if set up, and
                                    whether sendMail resolves on a message *)
  outbox : list Mail             (* messages handed over successfully *)
}.

Definition with_users (l : list User) (w : World) : World :=
  mkWorld l (nextId w) (clock w) (mathRandom w) (draws w) (transporter w) (outbox w).

Definition with_clock (t : Date) (w : World) : World :=
  mkWorld (users w) (nextId w) t (mathRandom w) (draws w) (transporter w) (outbox w).

Definition with_transporter (tr : option (Mail -> bool)) (w : World) : World :=
  mkWorld (users w) (nextId w) (clock w) (mathRandom w) (draws w) tr (outbox w).

(** ** Calls: state passing with exceptions

    A throw keeps the world as it is at that point: nothing is undone. *)

Definition M (A : Type) : Type := World -> Outcome A * World.

Definition ret {A} (a : A) : M A := fun w => (Returned a, w).

Definition bind {A B} (m : M A) (k : A -> M B) : M B :=
  fun w => match m w with
           | (Returned a, w') => k a w'
           | (Raised e, w') => (Raised e, w')
           end.

Definition throw {A} (e : Thrown) : M A := fun w => (Raised e, w).

Definition throwAppError {A} (msg : string) (status : Z) : M A :=
  throw (ThrownApp (mkAppError msg status)).

Notation "x <- c ;; k" := (bind c (fun x => k))
  (at level 61, c at next level, right associativity).
Notation "c ;;; k" := (bind c (fun _ => k))
  (at level 61, right associativity).

(** ** The User collection (mongoose, models/User.ts) *)

Definition dateNow : M Date := fun w => (Returned (clock w), w).

(** [User.findOne(filter)]: the first document the filter accepts. *)
Definition findOne (filter : User -> bool) : M (option User) :=
  fun w => (Returned (find filter (users w)), w).

Definition has_id (i : ObjectId) (u : User) : bool := N.eqb (_id u) i.
Definition has_email (e : string) (u : User) : bool := String.eqb (email u) e.

(** [User.findById(id)]. *)
Definition findById (i : ObjectId) : M (option User) := findOne (has_id i).

(** The write behind [doc.save()]: the first document with the [_id] of
    [u] is replaced by [u]. *)
Fixpoint updateOne (u : User) (l : list User) : list User :=
  match l with
  | [] => []
  | v :: r => if has_id (_id u) v then u :: r else v :: updateOne u r
  end.

(** [User.findByIdAndDelete(id)]: the first document with that [_id] goes. *)
Fixpoint deleteOne (i : ObjectId) (l : list User) : list User :=
  match l with
  | [] => []
  | v :: r => if has_id i v then r else v :: deleteOne i r
  end.

(** [Document.set] on the [password] path. The path counts as modified
    unless the document was loaded with the password selected and the
    assigned string is the loaded one. *)
Definition assign_password (selected : bool) (v : string) (u : User)
  : User * bool :=
  (with_password v u, negb (selected && String.eqb (password u) v)).

(** The pattern of the [match] validator of [email]:
    [/^\w+([.-]?\w+)*@\w+([.-]?\w+)*(\.\w{2,3})+$/]. *)
Definition emailPattern : RegExp :=
  let word := Class isWordChar in
  let words := Seq (Plus word) (Star (Seq (Opt (Class isDotOrHyphen)) (Plus word))) in
  Seq words
    (Seq (Char "@")
       (Seq words
          (Plus (Seq (Char ".") (Seq word (Seq word (Opt word))))))).

(** The paths of the schema that carry validators. *)
Inductive Path := path_name | path_email | path_password.

(** The validators of a path on the value the document holds, the
    first that fails reporting: [required] and [maxlength] on [name],
    [required] and [match] on [email], [required] and [minlength] on
    [password]. *)
Definition validatePath (p : Path) (u : User) : list ValidatorError :=
  match p with
  | path_name =>
      if String.eqb (name u) ""
      then [mkValidatorError "name" "Name is required"]
      else if (50 <? String.length (name u))%nat
      then [mkValidatorError "name" "Name cannot be more than 50 characters"]
      else []
  | path_email =>
      if String.eqb (email u) ""
      then [mkValidatorError "email" "Email is required"]
      else if negb (regexTest emailPattern (email u))
      then [mkValidatorError "email" "Please provide a valid email address"]
      else []
  | path_password =>
      if String.eqb (password u) ""
      then [mkValidatorError "password" "Password is required"]
      else if (String.length (password u) <? 6)%nat
      then [mkValidatorError "password" "Password must be at least 6 characters"]
      else []
  end.

(** [doc.validate()] before a save, on the paths the call assigned. *)
Fixpoint validate (modified : list Path) (u : User) : list ValidatorError :=
  match modified with
  | [] => []
  | p :: rest => validatePath p u ++ validate rest u
  end.

(** JavaScript truthiness of an optional string and of an optional Date. *)
Definition truthy_string (s : option string) : bool :=
  match s with
  | Some c => negb (String.eqb c "")
  | None => false
  end.

Definition truthy_date (d : option Date) : bool :=
  match d with
  | Some _ => true
  | None => false
  end.

(** [Number.prototype.toString()] on a non-negative integer. *)
Definition toString (n : N) : string := NilZero.string_of_uint (N.to_uint n).

(** The validity window of a code: [10 * 60 * 1000] milliseconds. *)
Definition codeWindow : Z := 10 * 60 * 1000.

(** ** The e-mail service (utils/email.service.ts) *)

(** [generateVerificationCode]:
    [Math.floor(100000 + Math.random() * 900000).toString()], the
    rendering of the next draw; [nextCode] is the string the next call
    returns. *)
Definition nextCode (w : World) : string := toString (mathRandom w (draws w)).

Definition generateVerificationCode : M string :=
  fun w =>
    (Returned (nextCode w),
     mkWorld (users w) (nextId w) (clock w) (mathRandom w) (S (draws w))
       (transporter w) (outbox w)).

(** [sendEmail]: never throws. With a transport, [true] when [sendMail]
    resolves and [false] when it rejects (the catch branch); without
    one, the console fallback, [true]. *)
Definition sendEmail (m : Mail) : M bool :=
  fun w =>
    match transporter w with
    | Some sendMail =>
        if sendMail m
        then (Returned true,
              mkWorld (users w) (nextId w) (clock w) (mathRandom w) (draws w)
                (transporter w) (outbox w ++ [m]))
        else (Returned false, w)
    | None => (Returned true, w)
    end.

Definition sendVerificationCode (to_ name_ code : string) : M bool :=
  sendEmail (VerificationCodeMail to_ name_ code).

Definition sendPasswordResetCode (to_ name_ code : string) : M bool :=
  sendEmail (PasswordResetCodeMail to_ name_ code).

Definition sendWelcomeEmail (to_ name_ : string) : M bool :=
  sendEmail (WelcomeMail to_ name_).

(** ** Token helpers (utils/jwt.ts) *)

Definition createJWTPayload (u : User) : JWTPayload :=
  mkPayload (_id u) (_id u) (email u) (plan u) (isAdmin u).

Definition userView (u : User) : UserView :=
  mkUserView (_id u) (name u) (email u) (plan u) (isAdmin u)
    (connectedPlatforms u) (videosGenerated u).

Definition userProfile (u : User) : Profile :=
  mkProfile (userView u) (lastLogin u) (createdAt u).

Section AuthService.

Context {hasher : Bcrypt} {signer : Jwt}.

(** [generateTokens]: the access and the refresh token of a payload. *)
Definition generateTokens (p : JWTPayload) : M (string * string) :=
  fun w => (Returned (sign_access p (clock w), sign_refresh p (clock w)), w).

(** [verifyRefreshToken]: the payload, or a plain [Error]. *)
Definition verifyRefreshToken (tok : string) : M JWTPayload :=
  fun w =>
    match verify_refresh tok (clock w) with
    | JwtValid p => (Returned p, w)
    | TokenExpiredError => (Raised (ThrownError "Refresh token expired"), w)
    | JsonWebTokenError => (Raised (ThrownError "Invalid refresh token"), w)
    | JwtOtherError => (Raised (ThrownError "Error verifying refresh token"), w)
    end.

(** [doc.save()] on a loaded document whose paths [modified] (those
    among [name], [email] and [password]) the call has assigned. The
    validators run first, on the assigned values, and a failure throws
    before anything is written. Then the first pre-save hook hashes the
    password when that path is modified; the second one only acts on
    new documents. The in-memory copy, as saved, is returned. *)
Definition save (modified : list Path) (u : User) : M User :=
  fun w =>
    match validate modified u with
    | [] =>
        let u' := if existsb (fun p => match p with
                                       | path_password => true
                                       | _ => false
                                       end) modified
                  then with_password (bcrypt_hash (password u)) u
                  else u in
        (Returned u', with_users (updateOne u' (users w)) w)
    | e :: errors => (Raised (ThrownValidation (e :: errors)), w)
    end.

(** [User.create({name, email, password, plan: 'free', isAdmin: false,
    isEmailVerified: false, emailVerificationCode,
    emailVerificationExpires})]: the setters act on the given values,
    schema defaults fill the rest, the validators run, and then the
    pre-save hooks hash the password and stamp [lastLogin]. [register]
    gets here only after [findOne] found no holder of the address, so
    the unique index on [email] has nothing to reject. *)
Definition create (name_ email_ password_ : string)
    (code : string) (expires : Date) : M User :=
  fun w =>
    let doc := mkUser (nextId w) (stringTrim name_) email_ password_
                 free false false (Some code) (Some expires) None None
                 [] 0%N (Some (clock w)) (clock w) in
    match validate [path_name; path_email; path_password] doc with
    | [] =>
        let u := with_password (bcrypt_hash password_) doc in
        (Returned u,
         mkWorld (users w ++ [u]) (N.succ (nextId w)) (clock w) (mathRandom w)
           (draws w) (transporter w) (outbox w))
    | e :: errors => (Raised (ThrownValidation (e :: errors)), w)
    end.

(** [user.comparePassword(candidate)]. *)
Definition comparePassword (u : User) (candidate : string) : bool :=
  bcrypt_compare candidate (password u).

Definition findByIdAndDelete (i : ObjectId) : M unit :=
  fun w => (Returned tt, with_users (deleteOne i (users w)) w).

(** ** AuthService (services/auth.service.ts) *)

Definition authResponse (u : User) (tokens : string * string) : AuthResponse :=
  mkAuthResponse (userView u) (fst tokens) (snd tokens).

(** [register(name, email, password)]: the message and [tempUserId]. *)
Definition register (name_ email_ password_ : string) : M (string * ObjectId) :=
  existingUser <- findOne (has_email email_) ;;
  if match existingUser with
     | Some existing => isEmailVerified existing
     | None => false
     end
  then throwAppError "User with this email already exists" 400
  else
    verificationCode <- generateVerificationCode ;;
    now <- dateNow ;;
    let verificationExpires := now + codeWindow in
    saved <-
      match existingUser with
      | Some existing =>
          if negb (isEmailVerified existing)
          then
            let (u1, modified) :=
              assign_password false password_ (with_name name_ existing) in
            save (path_name :: if modified then [path_password] else [])
              (with_emailVerificationExpires (Some verificationExpires)
                 (with_emailVerificationCode (Some verificationCode) u1))
          else create name_ email_ password_ verificationCode verificationExpires
      | None => create name_ email_ password_ verificationCode verificationExpires
      end ;;
    sendVerificationCode email_ name_ verificationCode ;;;
    ret ("Verification code sent to your email", _id saved).

(** [verifyEmail(userId, code)]. *)
Definition verifyEmail (userId_ : ObjectId) (code : string) : M AuthResponse :=
  found <- findById userId_ ;;
  match found with
  | None => throwAppError "User not found" 404
  | Some u =>
      if isEmailVerified u
      then throwAppError "Email already verified" 400
      else if negb (truthy_string (emailVerificationCode u))
              || negb (truthy_date (emailVerificationExpires u))
      then throwAppError "No verification code found. Please request a new one." 400
      else
        now <- dateNow ;;
        if match emailVerificationExpires u with
           | Some expires => expires <? now
           | None => false
           end
        then throwAppError "Verification code has expired. Please request a new one." 400
        else if negb match emailVerificationCode u with
                     | Some stored => String.eqb stored code
                     | None => false
                     end
        then throwAppError "Invalid verification code" 400
        else
          stamp <- dateNow ;;
          let u' := with_lastLogin (Some stamp)
                      (with_emailVerificationExpires None
                        (with_emailVerificationCode None
                          (with_isEmailVerified true u))) in
          saved <- save [] u' ;;
          tokens <- generateTokens (createJWTPayload saved) ;;
          sendWelcomeEmail (email saved) (name saved) ;;;
          ret (authResponse saved tokens)
  end.

(** [resendVerificationCode(userId)]. *)
Definition resendVerificationCode (userId_ : ObjectId) : M string :=
  found <- findById userId_ ;;
  match found with
  | None => throwAppError "User not found" 404
  | Some u =>
      if isEmailVerified u
      then throwAppError "Email already verified" 400
      else
        verificationCode <- generateVerificationCode ;;
        now <- dateNow ;;
        let verificationExpires := now + codeWindow in
        let u' := with_emailVerificationExpires (Some verificationExpires)
                    (with_emailVerificationCode (Some verificationCode) u) in
        saved <- save [] u' ;;
        sendVerificationCode (email saved) (name saved) verificationCode ;;;
        ret "Verification code sent to your email"
  end.

(** [login(email, password)]. *)
Definition login (email_ password_ : string) : M AuthResponse :=
  found <- findOne (has_email email_) ;;
  match found with
  | None => throwAppError "Invalid email or password" 401
  | Some u =>
      if negb (isEmailVerified u)
      then throwAppError
             "Please verify your email before logging in. Check your email for verification code."
             401
      else if negb (comparePassword u password_)
      then throwAppError "Invalid email or password" 401
      else
        now <- dateNow ;;
        saved <- save [] (with_lastLogin (Some now) u) ;;
        tokens <- generateTokens (createJWTPayload saved) ;;
        ret (authResponse saved tokens)
  end.

(** [getProfile(userId)]. *)
Definition getProfile (userId_ : ObjectId) : M Profile :=
  found <- findById userId_ ;;
  match found with
  | None => throwAppError "User not found" 404
  | Some u => ret (userProfile u)
  end.

(** [refreshToken(refreshToken)]. *)
Definition refreshToken (tok : string) : M (string * string) :=
  decoded <- verifyRefreshToken tok ;;
  found <- findById (userId decoded) ;;
  match found with
  | None => throwAppError "Invalid refresh token" 401
  | Some u => generateTokens (createJWTPayload u)
  end.

Definition forgotPasswordMessage : string :=
  "If an account with that email exists, a password reset code has been sent".

(** [forgotPassword(email)]. *)
Definition forgotPassword (email_ : string) : M string :=
  found <- findOne (has_email email_) ;;
  match found with
  | None => ret forgotPasswordMessage
  | Some u =>
      if negb (isEmailVerified u)
      then throwAppError "Please verify your email first before resetting password" 400
      else
        resetCode <- generateVerificationCode ;;
        now <- dateNow ;;
        let resetExpires := now + codeWindow in
        let u' := with_passwordResetExpires (Some resetExpires)
                    (with_passwordResetCode (Some resetCode) u) in
        saved <- save [] u' ;;
        sendPasswordResetCode (email saved) (name saved) resetCode ;;;
        ret forgotPasswordMessage
  end.

(** The query of [verifyResetCode] and [resetPassword]:
    [{ email, passwordResetCode: code, passwordResetExpires: { $gt: now } }]. *)
Definition resetFilter (email_ code : string) (now : Date) (u : User) : bool :=
  has_email email_ u
  && match passwordResetCode u with
     | Some stored => String.eqb stored code
     | None => false
     end
  && match passwordResetExpires u with
     | Some expires => now <? expires
     | None => false
     end.

(** [verifyResetCode(email, code)]. *)
Definition verifyResetCode (email_ code : string) : M string :=
  now <- dateNow ;;
  found <- findOne (resetFilter email_ code now) ;;
  match found with
  | None => throwAppError "Invalid or expired reset code" 400
  | Some _ => ret "Reset code verified successfully"
  end.

(** [resetPassword(email, code, newPassword)]. *)
Definition resetPassword (email_ code newPassword : string) : M AuthResponse :=
  now <- dateNow ;;
  found <- findOne (resetFilter email_ code now) ;;
  match found with
  | None => throwAppError "Invalid or expired reset code" 400
  | Some u =>
      let (u1, modified) := assign_password false newPassword u in
      stamp <- dateNow ;;
      let u2 := with_lastLogin (Some stamp)
                  (with_passwordResetExpires None
                    (with_passwordResetCode None u1)) in
      saved <- save (if modified then [path_password] else []) u2 ;;
      tokens <- generateTokens (createJWTPayload saved) ;;
      ret (authResponse saved tokens)
  end.

(** [updateProfile(userId, name)]. *)
Definition updateProfile (userId_ : ObjectId) (name_ : string) : M Profile :=
  found <- findById userId_ ;;
  match found with
  | None => throwAppError "User not found" 404
  | Some u =>
      saved <- save [path_name] (with_name name_ u) ;;
      ret (userProfile saved)
  end.

(** [changePassword(userId, currentPassword, newPassword)]. *)
Definition changePassword (userId_ : ObjectId)
    (currentPassword newPassword : string) : M unit :=
  found <- findById userId_ ;;
  match found with
  | None => throwAppError "User not found" 404
  | Some u =>
      if negb (comparePassword u currentPassword)
      then throwAppError "Current password is incorrect" 400
      else
        let (u', modified) := assign_password true newPassword u in
        save (if modified then [path_password] else []) u' ;;;
        ret tt
  end.

(** [deleteAccount(userId, password)]. *)
Definition deleteAccount (userId_ : ObjectId) (password_ : string) : M unit :=
  found <- findById userId_ ;;
  match found with
  | None => throwAppError "User not found" 404
  | Some u =>
      if negb (comparePassword u password_)
      then throwAppError "Password is incorrect" 400
      else findByIdAndDelete userId_
  end.

(** ** The service as a labelled transition system *)

Inductive Request :=
| Register (name_ email_ password_ : string)
| VerifyEmail (userId_ : ObjectId) (code : string)
| ResendVerificationCode (userId_ : ObjectId)
| Login (email_ password_ : string)
| GetProfile (userId_ : ObjectId)
| RefreshToken (tok : string)
| ForgotPassword (email_ : string)
| VerifyResetCode (email_ code : string)
| ResetPassword (email_ code newPassword : string)
| UpdateProfile (userId_ : ObjectId) (name_ : string)
| ChangePassword (userId_ : ObjectId) (currentPassword newPassword : string)
| DeleteAccount (userId_ : ObjectId) (password_ : string).

(** The world after serving a request, whatever was answered. *)
Definition serve (r : Request) (w : World) : World :=
  match r with
  | Register n e p => snd (register n e p w)
  | VerifyEmail i c => snd (verifyEmail i c w)
  | ResendVerificationCode i => snd (resendVerificationCode i w)
  | Login e p => snd (login e p w)
  | GetProfile i => snd (getProfile i w)
  | RefreshToken t => snd (refreshToken t w)
  | ForgotPassword e => snd (forgotPassword e w)
  | VerifyResetCode e c => snd (verifyResetCode e c w)
  | ResetPassword e c p => snd (resetPassword e c p w)
  | UpdateProfile i n => snd (updateProfile i n w)
  | ChangePassword i c n => snd (changePassword i c n w)
  | DeleteAccount i p => snd (deleteAccount i p w)
  end.

(** Between two requests time passes; the transport may come and go. *)
Inductive Event :=
| Call (r : Request)
| Tick (t : Date)
| Transport (tr : option (Mail -> bool)).

Definition step (ev : Event) (w : World) : World :=
  match ev with
  | Call r => serve r w
  | Tick t => with_clock t w
  | Transport tr => with_transporter tr w
  end.

Definition run (evs : list Event) (w : World) : World :=
  fold_left (fun w ev => step ev w) evs w.

(** ** Records the calls write *)

(** The world [verifyEmail] leaves behind when it succeeds. *)
Definition verified_user (t : Date) (u : User) : User :=
  with_lastLogin (Some t)
    (with_emailVerificationExpires None
      (with_emailVerificationCode None (with_isEmailVerified true u))).

(** The record [register] writes over an unverified one. *)
Definition reregistered (w : World) (name_ password_ : string) (u : User) : User :=
  with_password (bcrypt_hash password_)
    (with_emailVerificationExpires (Some (clock w + codeWindow))
      (with_emailVerificationCode (Some (nextCode w)) (with_name name_ u))).

(** The record [register] creates for an unknown address. *)
Definition registered (w : World) (name_ email_ password_ : string) : User :=
  mkUser (nextId w) (stringTrim name_) email_ (bcrypt_hash password_) free false false
    (Some (nextCode w)) (Some (clock w + codeWindow)) None None
    [] 0%N (Some (clock w)) (clock w).

Definition registerMessage : string := "Verification code sent to your email".

(** The record [resetPassword] writes. *)
Definition reset_user (w : World) (newPassword : string) (u : User) : User :=
  with_password (bcrypt_hash newPassword)
    (with_lastLogin (Some (clock w))
      (with_passwordResetExpires None (with_passwordResetCode None u))).

(** The record [forgotPassword] writes: the reset pair is set. *)
Definition reset_requested (w : World) (u : User) : User :=
  with_passwordResetExpires (Some (clock w + codeWindow))
    (with_passwordResetCode (Some (nextCode w)) u).

(** The record [resendVerificationCode] writes. *)
Definition code_resent (w : World) (u : User) : User :=
  with_emailVerificationExpires (Some (clock w + codeWindow))
    (with_emailVerificationCode (Some (nextCode w)) u).

End AuthService.

(** ** Predicates on records and stores *)

(** What the validators of the schema let through: a name that is not
    empty once trimmed and has at most fifty code units then, a
    password of at least six code units, an address that matches the
    pattern. *)
Definition schemaAcceptsName (name_ : string) : Prop :=
  stringTrim name_ <> "" /\ (String.length (stringTrim name_) <= 50)%nat.

Definition schemaAcceptsPassword (password_ : string) : Prop :=
  (6 <= String.length password_)%nat.

Definition schemaAcceptsEmail (email_ : string) : Prop :=
  regexTest emailPattern email_ = true.

(** A code and its expiry are present together or absent together. *)
Definition paired (u : User) : Prop :=
  (emailVerificationCode u = None <-> emailVerificationExpires u = None)
  /\ (passwordResetCode u = None <-> passwordResetExpires u = None).

Definition pairing_invariant (w : World) : Prop := Forall paired (users w).

(** Every stored code is a non-empty string. *)
Definition codes_nonempty (u : User) : Prop :=
  emailVerificationCode u <> Some "" /\ passwordResetCode u <> Some "".

(** The shape of a collection the driver and the unique index on
    [email] maintain: distinct ids, all below the next id to hand out,
    and distinct addresses. *)
Definition wf_store (l : list User) (n : ObjectId) : Prop :=
  NoDup (map _id l) /\ NoDup (map email l) /\ Forall (fun u => (_id u < n)%N) l.

Definition wf_world (w : World) : Prop := wf_store (users w) (nextId w).

(** A world with an empty collection. *)
Definition emptyWorld (t : Date) (rnd : nat -> N)
    (tr : option (Mail -> bool)) : World :=
  mkWorld [] 1%N t rnd 0%nat tr [].

(** ** Sample capabilities and worlds, used to run the service *)

Definition demoBcrypt : Bcrypt :=
  {| bcrypt_hash := fun plain => "$2a$10$" ++ plain;
     bcrypt_compare := fun candidate hash => String.eqb hash ("$2a$10$" ++ candidate) |}.

Definition demoJwt : Jwt :=
  {| sign_access := fun p _ => "access." ++ payload_email p;
     sign_refresh := fun p _ => "refresh." ++ payload_email p;
     verify_refresh := fun _ _ => JsonWebTokenError |}.

(** Ann has registered at instant 0 and holds code 123456 until 600000. *)
Definition annPending : User :=
  mkUser 1%N "Ann" "ann@x.com" "$2a$10$Passw0rd" free false false
    (Some "123456") (Some 600000) None None [] 0%N (Some 0) 0.

(** Ann after verification at instant 1000. *)
Definition annVerified : User :=
  mkUser 1%N "Ann" "ann@x.com" "$2a$10$Passw0rd" free false true
    None None None None [] 0%N (Some 1000) 0.

(** Ann, verified, holding reset code 654321 until 700000. *)
Definition annResetting : User :=
  mkUser 1%N "Ann" "ann@x.com" "$2a$10$Passw0rd" free false true
    None None (Some "654321") (Some 700000) [] 0%N (Some 1000) 0.

(** A transport on which every [sendMail] rejects. *)
Definition smtpDown : option (Mail -> bool) := Some (fun _ => false).

Definition demoWorld (l : list User) (t : Date)
    (tr : option (Mail -> bool)) : World :=
  mkWorld l 2%N t (fun _ => 123456%N) 0%nat tr [].

(** ** Outcomes and the evolution of the collection *)

Section Outcomes.

Context {hasher : Bcrypt} {signer : Jwt}.

(** What a call threw, if it threw. *)
Definition thrown {A} (r : Outcome A * World) : option Thrown :=
  match fst r with
  | Returned _ => None
  | Raised e => Some e
  end.

(** What serving a request throws, if anything. *)
Definition failure (r : Request) (w : World) : option Thrown :=
  match r with
  | Register n e p => thrown (register n e p w)
  | VerifyEmail i c => thrown (verifyEmail i c w)
  | ResendVerificationCode i => thrown (resendVerificationCode i w)
  | Login e p => thrown (login e p w)
  | GetProfile i => thrown (getProfile i w)
  | RefreshToken t => thrown (refreshToken t w)
  | ForgotPassword e => thrown (forgotPassword e w)
  | VerifyResetCode e c => thrown (verifyResetCode e c w)
  | ResetPassword e c p => thrown (resetPassword e c p w)
  | UpdateProfile i n => thrown (updateProfile i n w)
  | ChangePassword i c n => thrown (changePassword i c n w)
  | DeleteAccount i p => thrown (deleteAccount i p w)
  end.

End Outcomes.

(** What a stored record keeps through every call: its id, address,
    plan, admin flag, platforms, counter and creation date; and once
    verified it stays verified. *)
Definition same_identity (u v : User) : Prop :=
  _id v = _id u
  /\ email v = email u
  /\ plan v = plan u
  /\ isAdmin v = isAdmin u
  /\ connectedPlatforms v = connectedPlatforms u
  /\ videosGenerated v = videosGenerated u
  /\ createdAt v = createdAt u
  /\ (isEmailVerified u = true -> isEmailVerified v = true).

(** How one call changes the collection: not at all, by saving a
    successor of a record it found, by appending a new unverified
    record under the next id, or by deleting by id. *)
Inductive StoreChange (w : World) (l : list User) (n : ObjectId) : Prop :=
| Unchanged :
    l = users w -> n = nextId w -> StoreChange w l n
| Saved (f : User -> bool) (u0 u' : User) :
    find f (users w) = Some u0 -> same_identity u0 u' ->
    l = updateOne u' (users w) -> n = nextId w -> StoreChange w l n
| Inserted (u : User) :
    find (has_email (email u)) (users w) = None ->
    _id u = nextId w -> isEmailVerified u = false ->
    l = (users w ++ [u])%list -> n = N.succ (nextId w) -> StoreChange w l n
| Deleted (i : ObjectId) :
    l = deleteOne i (users w) -> n = nextId w -> StoreChange w l n.

(** The two code pairs follow the state of the account: a verified
    record holds no verification code, an unverified one no reset
    code. *)
Definition lifecycle_ok (u : User) : Prop :=
  (isEmailVerified u = true ->
   emailVerificationCode u = None /\ emailVerificationExpires u = None)
  /\ (isEmailVerified u = false ->
      passwordResetCode u = None /\ passwordResetExpires u = None).

(** ** Request authentication (utils/jwt.ts, middleware/auth.ts) *)

(** [extractTokenFromHeader(authHeader)]: [null] for a missing or empty
    header, the rest after a leading ["Bearer "], the header itself
    otherwise. *)
Definition extractTokenFromHeader (authHeader : option string) : option string :=
  match authHeader with
  | None => None
  | Some h =>
      if String.eqb h "" then None
      else if String.prefix "Bearer " h
      then Some (String.substring 7 (String.length h - 7) h)
      else Some h
  end.

(** [jwt.verify] with the access secret, issuer and audience. *)
Class AccessVerifier := {
  verify_access : string -> Date -> JwtVerdict
}.

(** What a middleware does with a request: hand it on, with or without
    a user attached, or answer it. *)
Inductive Gate :=
| Pass (attached : option User)
| Reject (status : Z) (msg : string) (code : option string).

(** [Array.prototype.join] on strings. *)
Fixpoint join (sep : string) (l : list string) : string :=
  match l with
  | [] => ""
  | [x] => x
  | x :: rest => x ++ sep ++ join sep rest
  end.

(** The [message] of what was thrown; mongoose builds that of its
    [ValidationError] from the model name and the failing paths. *)
Definition thrown_message (e : Thrown) : string :=
  match e with
  | ThrownApp a => message a
  | ThrownError m => m
  | ThrownValidation errors =>
      "User validation failed: "
      ++ join ", " (map (fun v => path v ++ ": " ++ validator_message v) errors)
  end.

(** Levels of [planHierarchy]: [{ free: 0, pro: 1, premium: 2 }]. *)
Definition planHierarchy (p : Plan) : Z :=
  match p with
  | free => 0
  | pro => 1
  | premium => 2
  end.

Definition planName (p : Plan) : string :=
  match p with
  | free => "free"
  | pro => "pro"
  | premium => "premium"
  end.

Section Middleware.

Context {verifier : AccessVerifier}.

(** [verifyAccessToken]: the payload, or a plain [Error]. *)
Definition verifyAccessToken (tok : string) : M JWTPayload :=
  fun w =>
    match verify_access tok (clock w) with
    | JwtValid p => (Returned p, w)
    | TokenExpiredError => (Raised (ThrownError "Access token expired"), w)
    | JsonWebTokenError => (Raised (ThrownError "Invalid access token"), w)
    | JwtOtherError => (Raised (ThrownError "Error verifying access token"), w)
    end.

(** [protect], on the [Authorization] header of the request. *)
Definition protect (authorization : option string) (w : World) : Gate :=
  match extractTokenFromHeader authorization with
  | None => Reject 401 "Access denied. No token provided." None
  | Some tok =>
      if String.eqb tok ""
      then Reject 401 "Access denied. No token provided." None
      else
        match verifyAccessToken tok w with
        | (Returned decoded, _) =>
            match find (has_id (id decoded)) (users w) with
            | Some u => Pass (Some u)
            | None => Reject 401 "Access denied. User not found." None
            end
        | (Raised e, _) =>
            if String.eqb (thrown_message e) "Access token expired"
            then Reject 401 "Access token expired. Please refresh your token."
                   (Some "TOKEN_EXPIRED")
            else if String.eqb (thrown_message e) "Invalid access token"
            then Reject 401 "Invalid access token." (Some "INVALID_TOKEN")
            else Reject 401 "Access denied. Invalid token." None
        end
  end.

(** [optionalAuth]: never answers the request itself. *)
Definition optionalAuth (authorization : option string) (w : World) : Gate :=
  match extractTokenFromHeader authorization with
  | None => Pass None
  | Some tok =>
      if String.eqb tok "" then Pass None
      else
        match verifyAccessToken tok w with
        | (Returned decoded, _) => Pass (find (has_id (id decoded)) (users w))
        | (Raised _, _) => Pass None
        end
  end.

End Middleware.

(** [adminOnly], on [req.user]. *)
Definition adminOnly (reqUser : option User) : Gate :=
  match reqUser with
  | None => Reject 401 "Access denied. Authentication required." None
  | Some u =>
      if negb (isAdmin u)
      then Reject 403 "Access denied. Admin privileges required." None
      else Pass (Some u)
  end.

(** [requirePlan(requiredPlan)], on [req.user]. *)
Definition requirePlan (requiredPlan : Plan) (reqUser : option User) : Gate :=
  match reqUser with
  | None => Reject 401 "Access denied. Authentication required." None
  | Some u =>
      if planHierarchy (plan u) <? planHierarchy requiredPlan
      then Reject 403
             ("Access denied. " ++ planName requiredPlan ++ " plan or higher required.")
             None
      else Pass (Some u)
  end.

(** [requireConnectedPlatforms], on [req.user]. *)
Definition requireConnectedPlatforms (reqUser : option User) : Gate :=
  match reqUser with
  | None => Reject 401 "Access denied. Authentication required." None
  | Some u =>
      match connectedPlatforms u with
      | [] => Reject 400
                "Please connect at least one social media platform before proceeding."
                None
      | _ :: _ => Pass (Some u)
      end
  end.

(** A verifier that knows Ann's access token. *)
Definition demoAccess : AccessVerifier :=
  {| verify_access := fun tok _ =>
       if String.eqb tok "access.ann@x.com"
       then JwtValid (mkPayload 1%N 1%N "ann@x.com" free false)
       else JsonWebTokenError |}.

(** Every id that names a record of [l] names a record of [l']. *)
Definition keeps_ids (l l' : list User) : Prop :=
  forall i u, find (has_id i) l = Some u ->
              exists u', find (has_id i) l' = Some u'.

(** ** Controllers and the error handler
    (controllers/auth.controller.ts, middleware/errorHandler.ts) *)

(** The [data] of a response. *)
Inductive Payload :=
| DataRegistered (msg : string) (tempUserId : ObjectId)
| DataAuth (a : AuthResponse)
| DataMessage (msg : string)
| DataUser (p : Profile)
| DataTokens (tokens : string * string).

(** [res.status(s).json({ success, message, data })]. The [error] and
    [stack] fields that [sendErrorDev] adds are left out. *)
Record HttpResponse := mkHttp {
  http_status : Z;
  http_success : bool;
  http_message : string;
  http_data : option Payload
}.

Definition sendErrorDev (status : Z) (msg : string) : HttpResponse :=
  mkHttp status false msg None.

Definition sendErrorProd (isOperational : bool) (status : Z) (msg : string)
  : HttpResponse :=
  if isOperational
  then mkHttp status false msg None
  else mkHttp 500 false "Something went wrong!" None.

(** [handleValidationError]: an operational error with status 400 whose
    message lists the messages of the validators. *)
Definition handleValidationError (errors : list ValidatorError) : AppError :=
  mkAppError ("Invalid input data: " ++ join ". " (map validator_message errors)) 400.

(** [globalErrorHandler], by [NODE_ENV === 'development']. An
    [AppError] and a plain [Error] have the name ["Error"] and no
    [code], so of the rewritings by name (CastError, ValidationError,
    the JWT errors) or by code 11000 only that of the [ValidationError]
    applies to what the service throws, and only in production. *)
Definition globalErrorHandler (development : bool) (err : Thrown) : HttpResponse :=
  let status :=
    match err with
    | ThrownApp e => if statusCode e =? 0 then 500 else statusCode e
    | ThrownError _ => 500
    | ThrownValidation _ => 500
    end in
  if development
  then sendErrorDev status (thrown_message err)
  else
    match err with
    | ThrownApp _ => sendErrorProd true status (thrown_message err)
    | ThrownError _ => sendErrorProd false status (thrown_message err)
    | ThrownValidation errors =>
        let error := handleValidationError errors in
        sendErrorProd true (statusCode error) (message error)
    end.

(** The routes of the router: the eleven that call the service, with
    the user id that [protect] attached where the controller reads
    [req.user.id], and [logout]. *)
Inductive Route :=
| Api (r : Request)
| Logout.

Section Controllers.

Context {hasher : Bcrypt} {signer : Jwt}.

(** The controller of a route: the call of the service and the
    response built from its result. *)
Definition controller (rt : Route) : M HttpResponse :=
  match rt with
  | Api (Register n e p) =>
      result <- register n e p ;;
      ret (mkHttp 201 true (fst result)
             (Some (DataRegistered (fst result) (snd result))))
  | Api (VerifyEmail i c) =>
      authResponse_ <- verifyEmail i c ;;
      ret (mkHttp 200 true "Email verified successfully. Welcome!"
             (Some (DataAuth authResponse_)))
  | Api (ResendVerificationCode i) =>
      result <- resendVerificationCode i ;;
      ret (mkHttp 200 true result (Some (DataMessage result)))
  | Api (Login e p) =>
      authResponse_ <- login e p ;;
      ret (mkHttp 200 true "Login successful" (Some (DataAuth authResponse_)))
  | Api (GetProfile i) =>
      user_ <- getProfile i ;;
      ret (mkHttp 200 true "User profile retrieved successfully"
             (Some (DataUser user_)))
  | Api (RefreshToken t) =>
      tokens <- refreshToken t ;;
      ret (mkHttp 200 true "Token refreshed successfully" (Some (DataTokens tokens)))
  | Api (ForgotPassword e) =>
      result <- forgotPassword e ;;
      ret (mkHttp 200 true result (Some (DataMessage result)))
  | Api (VerifyResetCode e c) =>
      result <- verifyResetCode e c ;;
      ret (mkHttp 200 true result (Some (DataMessage result)))
  | Api (ResetPassword e c p) =>
      authResponse_ <- resetPassword e c p ;;
      ret (mkHttp 200 true "Password reset successful" (Some (DataAuth authResponse_)))
  | Api (UpdateProfile i n) =>
      user_ <- updateProfile i n ;;
      ret (mkHttp 200 true "Profile updated successfully" (Some (DataUser user_)))
  | Api (ChangePassword i c n) =>
      changePassword i c n ;;;
      ret (mkHttp 200 true "Password changed successfully" None)
  | Api (DeleteAccount i p) =>
      deleteAccount i p ;;;
      ret (mkHttp 200 true "Account deleted successfully" None)
  | Logout => ret (mkHttp 200 true "Logout successful" None)
  end.

(** The controller under [asyncHandler], with [globalErrorHandler]
    behind it: what the client is answered and the world afterwards. *)
Definition respond (development : bool) (rt : Route) (w : World)
  : HttpResponse * World :=
  match controller rt w with
  | (Returned r, w') => (r, w')
  | (Raised e, w') => (globalErrorHandler development e, w')
  end.

End Controllers.

(** ** Request validation (utils/validation.ts)

    Here a JavaScript string is the list of its UTF-16 code units, so
    that [length], [substring] and the character classes of the regular
    expressions are those of the source. *)

Definition JsString := list N.

Module ValidationError.

(** [{ field, message }]. *)
Record t := make { field : string; message : string }.

End ValidationError.

(** The code units [trim()] strips and [\s] matches: TAB, LF, VT, FF,
    CR, space, NBSP, U+1680, U+2000 to U+200A, LS, PS, U+202F, U+205F,
    U+3000 and U+FEFF. *)
Definition isWhiteSpace (c : N) : bool :=
  ((9 <=? c) && (c <=? 13) || (c =? 32) || (c =? 160) || (c =? 5760)
   || (8192 <=? c) && (c <=? 8202) || (c =? 8232) || (c =? 8233)
   || (c =? 8239) || (c =? 8287) || (c =? 12288) || (c =? 65279))%N.

Fixpoint trimStart (s : JsString) : JsString :=
  match s with
  | [] => []
  | c :: r => if isWhiteSpace c then trimStart r else s
  end.

Definition trimEnd (s : JsString) : JsString := List.rev (trimStart (List.rev s)).

(** [s.trim()]. *)
Definition trim (s : JsString) : JsString := trimEnd (trimStart s).

(** The code units of a string of the service. *)
Definition codeUnits (s : string) : JsString :=
  map N_of_ascii (list_ascii_of_string s).

(** [[a-zA-Z]] and [\d]. *)
Definition isLetter (c : N) : bool :=
  ((65 <=? c) && (c <=? 90) || (97 <=? c) && (c <=? 122))%N.

Definition isDigit (c : N) : bool := ((48 <=? c) && (c <=? 57))%N.

(** [[a-zA-Z\s'-]]. *)
Definition isNameChar (c : N) : bool :=
  (isLetter c || isWhiteSpace c || (c =? 39) || (c =? 45))%N.

(** [isValidEmail(email)]: the test of the pattern that the schema
    uses as well. *)
Definition isValidEmail (email_ : string) : bool := regexTest emailPattern email_.

(** [validatePassword(password)]. *)
Definition validatePassword (password_ : JsString) : list ValidationError.t :=
  match password_ with
  | [] => [ValidationError.make "password" "Password is required"]
  | _ :: _ =>
      (if (List.length password_ <? 6)%nat
       then [ValidationError.make "password"
               "Password must be at least 6 characters long"]
       else [])
      ++ (if (128 <? List.length password_)%nat
          then [ValidationError.make "password"
                  "Password cannot be more than 128 characters long"]
          else [])
      ++ (let hasLetter := existsb isLetter password_ in
          let hasNumber := existsb isDigit password_ in
          if negb hasLetter || negb hasNumber
          then [ValidationError.make "password"
                  "Password should contain at least one letter and one number"]
          else [])
  end%list.

(** [validateName(name)]. *)
Definition validateName (name_ : JsString) : list ValidationError.t :=
  match name_ with
  | [] => [ValidationError.make "name" "Name is required"]
  | _ :: _ =>
      if (List.length (trim name_) =? 0)%nat
      then [ValidationError.make "name" "Name is required"]
      else
        let trimmedName := trim name_ in
        ((if (List.length trimmedName <? 2)%nat
          then [ValidationError.make "name"
                  "Name must be at least 2 characters long"]
          else [])
         ++ (if (50 <? List.length trimmedName)%nat
             then [ValidationError.make "name"
                     "Name cannot be more than 50 characters long"]
             else [])
         ++ (if negb (forallb isNameChar trimmedName
                      && negb (List.length trimmedName =? 0)%nat)
             then [ValidationError.make "name"
                     "Name can only contain letters, spaces, hyphens, and apostrophes"]
             else []))%list
  end.

(** [sanitizeString(input)]: trimmed, without [<] and [>], cut to 1000
    code units. *)
Definition sanitizeString (input : JsString) : JsString :=
  match input with
  | [] => []
  | _ :: _ =>
      firstn 1000
        (filter (fun c => negb ((c =? 60) || (c =? 62))%N) (trim input))
  end.

(** [isValidPlan(plan)]: membership in [['free', 'pro', 'premium']]. *)
Definition isValidPlan (plan_ : string) : bool :=
  existsb (String.eqb plan_) ["free"; "pro"; "premium"].

Definition platformName (p : Platform) : string :=
  match p with
  | youtube => "youtube"
  | instagram => "instagram"
  | tiktok => "tiktok"
  | facebook => "facebook"
  end.

(** [isValidPlatform(platform)]. *)
Definition isValidPlatform (platform_ : string) : bool :=
  existsb (String.eqb platform_) ["youtube"; "instagram"; "tiktok"; "facebook"].

(** ** Lemmas on the collection *)

Lemma has_id_true (i : ObjectId) (u : User) : has_id i u = true <-> _id u = i.
Proof. unfold has_id. apply N.eqb_eq. Qed.

Lemma has_email_true (e : string) (u : User) : has_email e u = true <-> email u = e.
Proof. unfold has_email. apply String.eqb_eq. Qed.

Lemma find_updateOne_id (i : ObjectId) (u u' : User) (l : list User) :
  find (has_id i) l = Some u -> _id u' = i ->
  find (has_id i) (updateOne u' l) = Some u'.
Proof.
  intros Hfind Hid. induction l as [|v r IH]; simpl in *.
  - discriminate.
  - rewrite Hid. destruct (has_id i v) eqn:Ev.
    + simpl. assert (has_id i u' = true) as -> by (now apply has_id_true).
      reflexivity.
    + simpl. rewrite Ev. apply IH, Hfind.
Qed.

Lemma Forall_updateOne (P : User -> Prop) (u : User) (l : list User) :
  Forall P l -> P u -> Forall P (updateOne u l).
Proof.
  intros Hl Hu. induction Hl as [|v r Hv Hr IH]; simpl.
  - constructor.
  - destruct (has_id (_id u) v); constructor; assumption.
Qed.

Lemma Forall_deleteOne (P : User -> Prop) (i : ObjectId) (l : list User) :
  Forall P l -> Forall P (deleteOne i l).
Proof.
  intros Hl. induction Hl as [|v r Hv Hr IH]; simpl.
  - constructor.
  - destruct (has_id i v); [assumption | constructor; assumption].
Qed.

Lemma map_id_updateOne (u : User) (l : list User) :
  map _id (updateOne u l) = map _id l.
Proof.
  induction l as [|v r IH]; simpl; [reflexivity|].
  destruct (has_id (_id u) v) eqn:Ev; simpl.
  - apply has_id_true in Ev. now rewrite Ev.
  - now rewrite IH.
Qed.

(** With distinct ids, saving a copy of a stored document that keeps
    its address leaves the column of addresses as it is. *)
Lemma map_email_updateOne (u u' : User) (l : list User) :
  NoDup (map _id l) -> In u l -> _id u' = _id u -> email u' = email u ->
  map email (updateOne u' l) = map email l.
Proof.
  intros Hnd Hin Hid Hem. induction l as [|v r IH]; simpl in *; [reflexivity|].
  inversion Hnd as [|? ? Hnotin Hnd']; subst.
  destruct (has_id (_id u') v) eqn:Ev; simpl.
  - apply has_id_true in Ev. destruct Hin as [->|Hin].
    + now rewrite Hem.
    + exfalso. apply Hnotin. rewrite Ev, Hid. now apply in_map.
  - destruct Hin as [->|Hin].
    + exfalso. rewrite Hid in Ev.
      assert (has_id (_id u) u = true) by (now apply has_id_true). congruence.
    + f_equal. now apply IH.
Qed.

(** With distinct addresses, the query by address finds the holder. *)
Lemma find_by_email_unique (u : User) (l : list User) :
  NoDup (map email l) -> In u l -> find (has_email (email u)) l = Some u.
Proof.
  intros Hnd Hin. induction l as [|v r IH]; simpl in *; [contradiction|].
  inversion Hnd as [|? ? Hnotin Hnd']; subst.
  destruct Hin as [->|Hin].
  - assert (has_email (email u) u = true) as -> by (now apply has_email_true).
    reflexivity.
  - destruct (has_email (email u) v) eqn:Ev.
    + apply has_email_true in Ev. exfalso. apply Hnotin. rewrite Ev.
      now apply in_map.
    + now apply IH.
Qed.

Lemma find_none_not_in (e : string) (l : list User) :
  find (has_email e) l = None -> ~ In e (map email l).
Proof.
  intros Hfind Hin. apply in_map_iff in Hin as (v & Hv & Hin).
  apply (find_none _ _ Hfind) in Hin.
  assert (has_email e v = true) by (now apply has_email_true). congruence.
Qed.

(** [toString] never yields the empty string. *)
Lemma toString_nonempty (n : N) : toString n <> "".
Proof.
  unfold toString, NilZero.string_of_uint.
  destruct (N.to_uint n); simpl; discriminate.
Qed.

Lemma nextCode_nonempty (w : World) : nextCode w <> "".
Proof. unfold nextCode. apply toString_nonempty. Qed.

(** *** The matcher of regular expressions *)

Lemma append_empty (x y : string) : x ++ y = "" -> x = "" /\ y = "".
Proof. destruct x; simpl; [auto|discriminate]. Qed.

Lemma nullable_Matches (r : RegExp) : nullable r = true <-> Matches r "".
Proof.
  induction r as [| |p|r IHr s IHs|r IHr s IHs|r IHr]; simpl.
  - split; [discriminate|]. intros H. inversion H.
  - split; [constructor|reflexivity].
  - split; [discriminate|]. intros H. inversion H.
  - rewrite andb_true_iff, IHr, IHs. split.
    + intros [Hr Hs]. exact (MatchesSeq r s "" "" Hr Hs).
    + intros H. inversion H as [| |r' s' x y Hx Hy Heq| | | |]; subst.
      match goal with E : _ ++ _ = "" |- _ => apply append_empty in E as [-> ->] end.
      now split.
  - rewrite orb_true_iff, IHr, IHs. split.
    + intros [H|H]; [now apply MatchesAltL|now apply MatchesAltR].
    + intros H. inversion H; subst; auto.
  - split; [constructor|reflexivity].
Qed.

Lemma Matches_Star_cons (r : RegExp) (c : ascii) (s : string) :
  Matches (Star r) (String c s) ->
  exists x y, s = x ++ y /\ Matches r (String c x) /\ Matches (Star r) y.
Proof.
  intros H. remember (Star r) as q eqn:Hq. remember (String c s) as t eqn:Ht.
  revert s Ht. induction H as [| | | | | |r' x y Hx _ Hy IHy]; intros s0 Ht;
    try discriminate.
  injection Hq as ->. destruct x as [|d x]; simpl in Ht.
  - apply IHy; auto.
  - injection Ht as Hd Hs. subst d s0. eauto.
Qed.

Lemma derivative_Matches (r : RegExp) (c : ascii) (s : string) :
  Matches (derivative c r) s <-> Matches r (String c s).
Proof.
  revert s. induction r as [| |p|r IHr q IHq|r IHr q IHq|r IHr]; intros s; simpl.
  - split; intros H; inversion H.
  - split; intros H; inversion H.
  - destruct (p c) eqn:Hp.
    + split; intros H; inversion H; subst; [now constructor|constructor].
    + split; intros H; inversion H; subst. congruence.
  - assert (Matches (Seq (derivative c r) q) s
            <-> exists x y, s = x ++ y /\ Matches r (String c x) /\ Matches q y) as Hseq.
    { split.
      - intros H. inversion H as [| |r' s' x y Hx Hy| | | |]; subst.
        exists x, y. rewrite <- IHr. auto.
      - intros (x & y & -> & Hx & Hy). constructor; [now apply IHr|assumption]. }
    assert (Matches (Seq r q) (String c s)
            <-> (exists x y, s = x ++ y /\ Matches r (String c x) /\ Matches q y)
                \/ (Matches r "" /\ Matches q (String c s))) as Hcons.
    { split.
      - intros H. inversion H as [| |r' s' x y Hx Hy Heq| | | |]; subst.
        destruct x as [|d x]; simpl in *.
        + right. subst. now split.
        + match goal with
          | E : String _ _ = String _ _ |- _ => injection E as Hd Hs
          end.
          subst d s. left. eauto.
      - intros [(x & y & -> & Hx & Hy) | [Hr Hq]].
        + exact (MatchesSeq r q (String c x) y Hx Hy).
        + exact (MatchesSeq r q "" (String c s) Hr Hq). }
    rewrite Hcons. destruct (nullable r) eqn:Hnull.
    + apply nullable_Matches in Hnull. split.
      * intros H. inversion H; subst; [left; now apply Hseq|right].
        split; [assumption|now apply IHq].
      * intros [H|[_ H]]; [apply MatchesAltL; now apply Hseq|].
        apply MatchesAltR. now apply IHq.
    + rewrite Hseq. split; [auto|]. intros [H|[H _]]; [assumption|].
      apply nullable_Matches in H. congruence.
  - split.
    + intros H. inversion H; subst;
        [apply MatchesAltL; now apply IHr|apply MatchesAltR; now apply IHq].
    + intros H. inversion H; subst;
        [apply MatchesAltL; now apply IHr|apply MatchesAltR; now apply IHq].
  - split.
    + intros H. inversion H as [| |r' s' x y Hx Hy| | | |]; subst.
      apply IHr in Hx. exact (MatchesStarCons r (String c x) y Hx Hy).
    + intros H. apply Matches_Star_cons in H as (x & y & -> & Hx & Hy).
      constructor; [now apply IHr|assumption].
Qed.

(** [regexTest] decides whether the whole string matches. *)
Lemma regexTest_Matches (r : RegExp) (s : string) :
  regexTest r s = true <-> Matches r s.
Proof.
  revert r. induction s as [|c s IH]; intros r; simpl.
  - apply nullable_Matches.
  - rewrite IH. apply derivative_Matches.
Qed.

(** *** The validators of the schema *)

(** The pattern on sample addresses: a last label of two or three
    characters is asked for, and separators do not repeat. *)
Lemma emailPattern_samples :
  regexTest emailPattern "ann@x.com" = true
  /\ regexTest emailPattern "first.last@mail-host.co.uk" = true
  /\ regexTest emailPattern "" = false
  /\ regexTest emailPattern "ann@x" = false
  /\ regexTest emailPattern "ann@x.c" = false
  /\ regexTest emailPattern "ann@x.info" = false
  /\ regexTest emailPattern "ann..b@x.com" = false
  /\ regexTest emailPattern "Ann B@x.com" = false.
Proof. repeat split. Qed.

Lemma validatePath_name (u : User) :
  validatePath path_name u = []
  <-> name u <> "" /\ (String.length (name u) <= 50)%nat.
Proof.
  unfold validatePath.
  destruct (String.eqb_spec (name u) "") as [Hempty|Hfull].
  - split; [discriminate|]. intros [H _]. contradiction.
  - destruct (Nat.ltb_spec 50 (String.length (name u))) as [Hlong|Hshort].
    + split; [discriminate|]. intros [_ H]. lia.
    + split; [split; assumption|reflexivity].
Qed.

Lemma validatePath_password (u : User) :
  validatePath path_password u = [] <-> (6 <= String.length (password u))%nat.
Proof.
  unfold validatePath.
  destruct (String.eqb_spec (password u) "") as [Hempty|Hfull].
  - rewrite Hempty. simpl. split; [discriminate|lia].
  - destruct (Nat.ltb_spec (String.length (password u)) 6) as [Hshort|Hlong].
    + split; [discriminate|lia].
    + split; [intros _; exact Hlong|reflexivity].
Qed.

Lemma validatePath_email (u : User) :
  validatePath path_email u = [] <-> regexTest emailPattern (email u) = true.
Proof.
  unfold validatePath.
  destruct (String.eqb_spec (email u) "") as [Hempty|Hfull].
  - rewrite Hempty. split; discriminate.
  - destruct (regexTest emailPattern (email u)); simpl; split;
      first [reflexivity | discriminate].
Qed.

(** A password of fewer than six code units fails its validator. *)
Lemma validatePath_password_short (u : User) :
  (String.length (password u) < 6)%nat ->
  exists e, validatePath path_password u = [e] /\ path e = "password".
Proof.
  intros Hshort. unfold validatePath.
  destruct (String.eqb (password u) ""); [eexists; split; reflexivity|].
  apply Nat.ltb_lt in Hshort. rewrite Hshort. eexists; split; reflexivity.
Qed.

(** A name that is empty once trimmed, or longer than fifty code units,
    fails its validator. *)
Lemma validatePath_name_refused (u : User) :
  name u = "" \/ (50 < String.length (name u))%nat ->
  exists e, validatePath path_name u = [e] /\ path e = "name".
Proof.
  intros Hbad. unfold validatePath.
  destruct (String.eqb_spec (name u) "") as [Hempty|Hfull];
    [eexists; split; reflexivity|].
  destruct Hbad as [Hbad|Hbad]; [contradiction|].
  apply Nat.ltb_lt in Hbad. rewrite Hbad. eexists; split; reflexivity.
Qed.

Lemma truthy_string_some (c : string) :
  c <> "" -> truthy_string (Some c) = true.
Proof.
  intros Hc. simpl. destruct (String.eqb c "") eqn:E; [|reflexivity].
  apply String.eqb_eq in E. contradiction.
Qed.

Lemma NoDup_map_eq {A B} (f : A -> B) (l : list A) (x y : A) :
  NoDup (map f l) -> In x l -> In y l -> f x = f y -> x = y.
Proof.
  intros Hnd Hx Hy Hf. induction l as [|v r IH]; simpl in *; [contradiction|].
  inversion Hnd as [|? ? Hnotin Hnd']; subst.
  destruct Hx as [->|Hx], Hy as [->|Hy]; auto.
  - exfalso. apply Hnotin. rewrite Hf. now apply in_map.
  - exfalso. apply Hnotin. rewrite <- Hf. now apply in_map.
Qed.

(** What a collection holds after a save. *)
Lemma in_updateOne (u x : User) (l : list User) :
  NoDup (map _id l) -> In x (updateOne u l) ->
  x = u \/ (In x l /\ _id x <> _id u).
Proof.
  intros Hnd Hin. induction l as [|v r IH]; simpl in *; [contradiction|].
  inversion Hnd as [|? ? Hnotin Hnd']; subst.
  destruct (has_id (_id u) v) eqn:Ev.
  - apply has_id_true in Ev. destruct Hin as [Hu|Hin]; [now left|].
    right. split; [now right|]. intros Heq. apply Hnotin.
    rewrite Ev, <- Heq. now apply in_map.
  - destruct Hin as [Hv|Hin].
    + subst x. right. split; [now left|]. intros Heq.
      assert (has_id (_id u) v = true) by (now apply has_id_true). congruence.
    + destruct (IH Hnd' Hin) as [->|[Hx Hneq]]; [now left|].
      right. split; [now right|assumption].
Qed.

Lemma in_updateOne_self (u v : User) (l : list User) :
  In v l -> _id u = _id v -> In u (updateOne u l).
Proof.
  intros Hin Hid. induction l as [|x r IH]; simpl in *; [contradiction|].
  destruct (has_id (_id u) x) eqn:Ex; [now left|].
  destruct Hin as [->|Hin].
  - assert (has_id (_id u) v = true) by (now apply has_id_true). congruence.
  - right. now apply IH.
Qed.

Lemma deleteOne_incl (i : ObjectId) (l : list User) (x : User) :
  In x (deleteOne i l) -> In x l.
Proof.
  induction l as [|v r IH]; simpl; [auto|].
  destruct (has_id i v); simpl; intuition.
Qed.

Lemma NoDup_map_deleteOne {B} (f : User -> B) (i : ObjectId) (l : list User) :
  NoDup (map f l) -> NoDup (map f (deleteOne i l)).
Proof.
  induction l as [|v r IH]; simpl; intros Hnd; [constructor|].
  inversion Hnd as [|? ? Hnotin Hnd']; subst.
  destruct (has_id i v); simpl; [assumption|].
  constructor; [|now apply IH].
  intros Hin. apply Hnotin. apply in_map_iff in Hin as (x & Hx & Hin).
  apply in_map_iff. exists x. split; [assumption|]. now apply (deleteOne_incl i).
Qed.

Lemma wf_store_update (f : User -> bool) (l : list User) (n : ObjectId) (u u' : User) :
  wf_store l n -> find f l = Some u -> _id u' = _id u -> email u' = email u ->
  wf_store (updateOne u' l) n.
Proof.
  intros (Hids & Hemails & Hbelow) Hfind Hid Hmail.
  apply find_some in Hfind as [Hin _]. repeat split.
  - now rewrite map_id_updateOne.
  - now rewrite (map_email_updateOne u).
  - apply Forall_updateOne; [assumption|]. rewrite Hid.
    rewrite Forall_forall in Hbelow. now apply Hbelow.
Qed.

Lemma wf_store_append (l : list User) (n : ObjectId) (u : User) :
  wf_store l n -> find (has_email (email u)) l = None -> _id u = n ->
  wf_store (l ++ [u]) (N.succ n).
Proof.
  intros (Hids & Hemails & Hbelow) Hfind Hid. repeat split.
  - rewrite map_app. simpl. apply NoDup_app; [assumption|repeat constructor; auto|].
    intros x Hx [<-|[]]. apply in_map_iff in Hx as (v & Hv & Hin).
    rewrite Forall_forall in Hbelow. apply Hbelow in Hin. lia.
  - rewrite map_app. simpl. apply NoDup_app; [assumption|repeat constructor; auto|].
    intros x Hx [<-|[]]. now apply (find_none_not_in _ _ Hfind).
  - apply Forall_app. split.
    + eapply Forall_impl; [|exact Hbelow]. simpl. intros. lia.
    + constructor; [lia|constructor].
Qed.

Lemma wf_store_delete (i : ObjectId) (l : list User) (n : ObjectId) :
  wf_store l n -> wf_store (deleteOne i l) n.
Proof.
  intros (Hids & Hemails & Hbelow). repeat split.
  - now apply NoDup_map_deleteOne.
  - now apply NoDup_map_deleteOne.
  - now apply Forall_deleteOne.
Qed.

(** ** Properties of the service *)

Arguments nextCode : simpl never.
Arguments toString : simpl never.
Arguments validatePath : simpl never.
Arguments stringTrim : simpl never.
Arguments regexTest : simpl never.

Create HintDb auth_ops.
#[global] Hint Unfold bind ret throw throwAppError dateNow findOne findById
  save create findByIdAndDelete generateTokens verifyRefreshToken
  sendVerificationCode sendPasswordResetCode sendWelcomeEmail
  assign_password comparePassword : auth_ops.

Ltac run_call := autounfold with auth_ops; simpl.

(** Discharges the validators of the paths assigned in the goal from
    the hypotheses. *)
Ltac accept_paths :=
  repeat match goal with
         | |- context [validatePath path_name ?u] =>
             rewrite (proj2 (validatePath_name u)) by (simpl; assumption)
         | |- context [validatePath path_email ?u] =>
             rewrite (proj2 (validatePath_email u)) by (simpl; assumption)
         | |- context [validatePath path_password ?u] =>
             rewrite (proj2 (validatePath_password u)) by (simpl; assumption)
         end;
  simpl.

Section Properties.

Context {hasher : Bcrypt} {signer : Jwt}.

(** *** Order of the checks in [verifyEmail] *)

Lemma verifyEmail_user_missing (w : World) (i : ObjectId) (code : string) :
  find (has_id i) (users w) = None ->
  verifyEmail i code w
  = (Raised (ThrownApp (mkAppError "User not found" 404)), w).
Proof. intros Hfind. unfold verifyEmail. run_call. now rewrite Hfind. Qed.

Lemma verifyEmail_already_verified (w : World) (i : ObjectId) (u : User)
    (code : string) :
  find (has_id i) (users w) = Some u ->
  isEmailVerified u = true ->
  verifyEmail i code w
  = (Raised (ThrownApp (mkAppError "Email already verified" 400)), w).
Proof.
  intros Hfind Hver. unfold verifyEmail. run_call. now rewrite Hfind, Hver.
Qed.

Lemma verifyEmail_code_missing (w : World) (i : ObjectId) (u : User)
    (code : string) :
  find (has_id i) (users w) = Some u ->
  isEmailVerified u = false ->
  truthy_string (emailVerificationCode u) = false
  \/ emailVerificationExpires u = None ->
  verifyEmail i code w
  = (Raised (ThrownApp
       (mkAppError "No verification code found. Please request a new one." 400)), w).
Proof.
  intros Hfind Hver Habs. unfold verifyEmail. run_call. rewrite Hfind, Hver.
  destruct Habs as [-> | ->]; simpl; [reflexivity|].
  now rewrite orb_true_r.
Qed.



Lemma verifyEmail_success (w : World) (i : ObjectId) (u : User)
    (code : string) (expires : Date) :
  find (has_id i) (users w) = Some u ->
  isEmailVerified u = false ->
  emailVerificationCode u = Some code ->
  code <> "" ->
  emailVerificationExpires u = Some expires ->
  clock w <= expires ->
  exists w',
    verifyEmail i code w
    = (Returned (authResponse (verified_user (clock w) u)
                   (sign_access (createJWTPayload u) (clock w),
                    sign_refresh (createJWTPayload u) (clock w))), w')
    /\ users w' = updateOne (verified_user (clock w) u) (users w)
    /\ clock w' = clock w /\ nextId w' = nextId w.
Proof.
  intros Hfind Hver Hcode Hne Hexp Hle. unfold verifyEmail. run_call.
  rewrite Hfind, Hver, Hcode, Hexp. rewrite (truthy_string_some _ Hne). simpl.
  assert ((expires <? clock w) = false) as -> by (apply Z.ltb_ge; lia).
  rewrite String.eqb_refl. simpl.
  unfold sendEmail. simpl.
  destruct (transporter w) as [sendMail|]; simpl.
  - destruct (sendMail _); simpl; eexists; repeat split; reflexivity.
  - eexists; repeat split; reflexivity.
Qed.

(** *** Login *)

(** C4. A record with [isEmailVerified = false] cannot log in: [login]
    with its address answers 401 for every password, the right one
    included, and writes nothing. *)
Theorem login_unverified_rejected (w : World) (u : User) (password_ : string) :
  NoDup (map email (users w)) ->
  In u (users w) ->
  isEmailVerified u = false ->
  login (email u) password_ w
  = (Raised (ThrownApp (mkAppError
       "Please verify your email before logging in. Check your email for verification code."
       401)), w).
Proof.
  intros Hnd Hin Hver. unfold login. run_call.
  rewrite (find_by_email_unique u _ Hnd Hin). now rewrite Hver.
Qed.

(** *** Change of password *)

(** C8, as the code has it. [changePassword] with a wrong current
    password throws "Current password is incorrect" with status 400 and
    leaves the world, hence the stored hash and every other field, as
    it was: whatever authenticated before still does. *)
Theorem changePassword_wrong_current_unchanged
    (w : World) (i : ObjectId) (u : User) (currentPassword newPassword : string) :
  find (has_id i) (users w) = Some u ->
  comparePassword u currentPassword = false ->
  changePassword i currentPassword newPassword w
  = (Raised (ThrownApp (mkAppError "Current password is incorrect" 400)), w)
  /\ forall email_ password_,
       login email_ password_
         (snd (changePassword i currentPassword newPassword w))
       = login email_ password_ w.
Proof.
  intros Hfind Hcmp.
  assert (changePassword i currentPassword newPassword w
          = (Raised (ThrownApp (mkAppError "Current password is incorrect" 400)), w))
    as Hrun.
  { unfold changePassword. run_call. rewrite Hfind.
    unfold comparePassword in Hcmp. now rewrite Hcmp. }
  split; [exact Hrun|]. intros. now rewrite Hrun.
Qed.


(** *** The pairing of codes and expiries *)

Lemma find_Forall (P : User -> Prop) (f : User -> bool) (l : list User) (u : User) :
  find f l = Some u -> Forall P l -> P u.
Proof.
  intros Hfind Hall. apply find_some in Hfind as [Hin _].
  rewrite Forall_forall in Hall. now apply Hall.
Qed.

(** Case analysis on every test a call makes. *)
Ltac split_call :=
  repeat match goal with
         | |- context [match find ?f ?l with _ => _ end] =>
             let E := fresh "Efind" in destruct (find f l) eqn:E; simpl
         | |- context [validatePath ?p ?u] =>
             let E := fresh "Evalid" in destruct (validatePath p u) eqn:E; simpl
         | |- context [match transporter ?w with _ => _ end] =>
             destruct (transporter w); simpl
         | |- context [match verify_refresh ?t ?c with _ => _ end] =>
             destruct (verify_refresh t c); simpl
         | |- context [if ?b then _ else _] =>
             let E := fresh "Etest" in destruct b eqn:E; simpl
         end.

(** Unfolding of whichever call the goal is about, down to the tests
    it makes and the world it builds. *)
Ltac open_call :=
  unfold register, verifyEmail, resendVerificationCode, login, getProfile,
    refreshToken, forgotPassword, verifyResetCode, resetPassword,
    updateProfile, changePassword, deleteAccount,
    sendVerificationCode, sendPasswordResetCode, sendWelcomeEmail, sendEmail,
    generateVerificationCode;
  run_call.

Ltac paired_record :=
  match goal with
  | Hf : find _ _ = Some ?u, Hall : Forall paired _ |- _ =>
      let Hu := fresh "Hu" in
      pose proof (find_Forall _ _ _ _ Hf Hall) as Hu;
      destruct Hu as [[? ?] [? ?]];
      unfold paired; simpl; repeat split; intros; auto; discriminate
  end.

(** The collection after a call is the old one, the old one with a
    record saved or deleted, or the old one with a record appended. *)
Ltac pairing_after_call :=
  first
    [ assumption
    | apply Forall_deleteOne; assumption
    | apply Forall_updateOne; [assumption | paired_record]
    | apply Forall_app; split; [assumption|];
      constructor; [|constructor];
      unfold paired; simpl; repeat split; intros; discriminate ].

(** *** Registration *)

Lemma register_conflict (w : World) (name_ email_ password_ : string) (u : User) :
  find (has_email email_) (users w) = Some u ->
  isEmailVerified u = true ->
  register name_ email_ password_ w
  = (Raised (ThrownApp (mkAppError "User with this email already exists" 400)), w).
Proof.
  intros Hfind Hver. unfold register. run_call. now rewrite Hfind, Hver.
Qed.

Lemma register_retry (w : World) (name_ email_ password_ : string) (u : User) :
  find (has_email email_) (users w) = Some u ->
  isEmailVerified u = false ->
  schemaAcceptsName name_ ->
  schemaAcceptsPassword password_ ->
  exists w',
    register name_ email_ password_ w = (Returned (registerMessage, _id u), w')
    /\ users w' = updateOne (reregistered w name_ password_ u) (users w)
    /\ nextId w' = nextId w /\ clock w' = clock w.
Proof.
  intros Hfind Hver Hname Hpassword.
  unfold schemaAcceptsName, schemaAcceptsPassword in *.
  unfold register, generateVerificationCode. run_call.
  rewrite Hfind, Hver. simpl. accept_paths. unfold sendEmail. simpl.
  destruct (transporter w) as [sendMail|]; simpl.
  - destruct (sendMail _); simpl; eexists; repeat split; reflexivity.
  - eexists; repeat split; reflexivity.
Qed.

Lemma register_fresh (w : World) (name_ email_ password_ : string) :
  find (has_email email_) (users w) = None ->
  schemaAcceptsName name_ ->
  schemaAcceptsEmail email_ ->
  schemaAcceptsPassword password_ ->
  exists w',
    register name_ email_ password_ w = (Returned (registerMessage, nextId w), w')
    /\ users w' = (users w ++ [registered w name_ email_ password_])%list
    /\ nextId w' = N.succ (nextId w) /\ clock w' = clock w.
Proof.
  intros Hfind Hname Hemail Hpassword.
  unfold schemaAcceptsName, schemaAcceptsEmail, schemaAcceptsPassword in *.
  unfold register, generateVerificationCode. run_call.
  rewrite Hfind. simpl. accept_paths. unfold sendEmail. simpl.
  destruct (transporter w) as [sendMail|]; simpl.
  - destruct (sendMail _); simpl; eexists; repeat split; reflexivity.
  - eexists; repeat split; reflexivity.
Qed.

(** A [register] that returns has rewritten the unverified holder of
    the address or appended a record under the next id, with a name
    and a password (and, for a new record, an address) that the
    validators accepted. *)
Lemma register_returned_inv (w w1 : World) (name_ email_ password_ msg : string)
    (newId : ObjectId) :
  register name_ email_ password_ w = (Returned (msg, newId), w1) ->
  msg = registerMessage
  /\ schemaAcceptsName name_
  /\ schemaAcceptsPassword password_
  /\ ((exists u,
         find (has_email email_) (users w) = Some u
         /\ isEmailVerified u = false
         /\ newId = _id u
         /\ users w1 = updateOne (reregistered w name_ password_ u) (users w))
      \/ (find (has_email email_) (users w) = None
          /\ schemaAcceptsEmail email_
          /\ newId = nextId w
          /\ users w1 = (users w ++ [registered w name_ email_ password_])%list)).
Proof.
  unfold schemaAcceptsName, schemaAcceptsEmail, schemaAcceptsPassword.
  unfold register, generateVerificationCode. run_call.
  destruct (find (has_email email_) (users w)) as [u|] eqn:Hfind; simpl.
  - destruct (isEmailVerified u) eqn:Hver; simpl; [discriminate|].
    match goal with
    | |- context [validatePath path_name ?d] =>
        destruct (validatePath path_name d) eqn:Hname; simpl; [|discriminate];
        apply validatePath_name in Hname; simpl in Hname
    end.
    match goal with
    | |- context [validatePath path_password ?d] =>
        destruct (validatePath path_password d) eqn:Hpassword; simpl; [|discriminate];
        apply validatePath_password in Hpassword; simpl in Hpassword
    end.
    intros Hrun.
    assert (msg = registerMessage /\ newId = _id u
            /\ users w1 = updateOne (reregistered w name_ password_ u) (users w))
      as (Hmsg & Hid & Husers).
    { unfold sendEmail in Hrun. simpl in Hrun.
      destruct (transporter w) as [sendMail|]; simpl in Hrun;
        [destruct (sendMail _); simpl in Hrun|];
        injection Hrun as <- <- <-; repeat split. }
    repeat (split; [assumption|]). left. exists u. repeat split; assumption.
  - match goal with
    | |- context [validatePath path_name ?d] =>
        destruct (validatePath path_name d) eqn:Hname; simpl; [|discriminate];
        apply validatePath_name in Hname; simpl in Hname
    end.
    match goal with
    | |- context [validatePath path_email ?d] =>
        destruct (validatePath path_email d) eqn:Hemail; simpl; [|discriminate];
        apply validatePath_email in Hemail; simpl in Hemail
    end.
    match goal with
    | |- context [validatePath path_password ?d] =>
        destruct (validatePath path_password d) eqn:Hpassword; simpl; [|discriminate];
        apply validatePath_password in Hpassword; simpl in Hpassword
    end.
    intros Hrun.
    assert (msg = registerMessage /\ newId = nextId w
            /\ users w1 = (users w ++ [registered w name_ email_ password_])%list)
      as (Hmsg & Hid & Husers).
    { unfold sendEmail in Hrun. simpl in Hrun.
      destruct (transporter w) as [sendMail|]; simpl in Hrun;
        [destruct (sendMail _); simpl in Hrun|];
        injection Hrun as <- <- <-; repeat split. }
    repeat (split; [assumption|]). right. repeat split; assumption.
Qed.

Lemma find_id_of_member (u : User) (l : list User) :
  In u l -> exists v, find (has_id (_id u)) l = Some v.
Proof.
  intros Hin. destruct (find (has_id (_id u)) l) as [v|] eqn:E.
  - now exists v.
  - apply (find_none _ _ E) in Hin.
    assert (has_id (_id u) u = true) by (now apply has_id_true). congruence.
Qed.

Lemma find_id_appended (u : User) (l : list User) :
  Forall (fun v => (_id v < _id u)%N) l ->
  find (has_id (_id u)) (l ++ [u]) = Some u.
Proof.
  intros Hall. induction Hall as [|v r Hv Hr IH]; simpl.
  - assert (has_id (_id u) u = true) as -> by (now apply has_id_true).
    reflexivity.
  - destruct (has_id (_id u) v) eqn:Ev.
    + apply has_id_true in Ev. lia.
    + exact IH.
Qed.

(** After a successful [register] the returned id names an unverified
    record that holds a fresh, non-empty code valid for ten minutes. *)
Lemma register_leaves_pending (w w1 : World) (name_ email_ password_ msg : string)
    (newId : ObjectId) :
  wf_world w ->
  register name_ email_ password_ w = (Returned (msg, newId), w1) ->
  exists u,
    find (has_id newId) (users w1) = Some u
    /\ _id u = newId
    /\ email u = email_
    /\ isEmailVerified u = false
    /\ emailVerificationCode u = Some (nextCode w)
    /\ emailVerificationExpires u = Some (clock w + codeWindow).
Proof.
  intros (Hids & Hemails & Hbelow) Hreg.
  destruct (register_returned_inv _ _ _ _ _ _ _ Hreg)
    as (_ & _ & _ & [(existing & Hfind & Hver & -> & Husers)
                    | (Hfind & _ & -> & Husers)]).
  - apply find_some in Hfind as [Hin Hmail]. apply has_email_true in Hmail.
    destruct (find_id_of_member _ _ Hin) as (v & Hv).
    exists (reregistered w name_ password_ existing). rewrite Husers.
    split; [|repeat split; simpl; auto].
    now apply (find_updateOne_id _ v).
  - exists (registered w name_ email_ password_). rewrite Husers.
    split; [|repeat split; reflexivity].
    apply (find_id_appended (registered w name_ email_ password_)). exact Hbelow.
Qed.

(** C1. After any successful [register], [verifyEmail] with the stored
    code, at any instant before the expiry, verifies the account:
    [isEmailVerified] becomes true, the code and its expiry go,
    [lastLogin] is the instant of the call and an access and a refresh
    token come back. From then on the same call is refused with
    "Email already verified" and writes nothing. *)
Theorem register_then_verifyEmail (w w1 : World)
    (name_ email_ password_ msg : string) (newId : ObjectId) :
  wf_world w ->
  register name_ email_ password_ w = (Returned (msg, newId), w1) ->
  exists u code,
    find (has_id newId) (users w1) = Some u
    /\ isEmailVerified u = false
    /\ emailVerificationCode u = Some code
    /\ emailVerificationExpires u = Some (clock w + codeWindow)
    /\ forall w2,
         users w2 = users w1 ->
         clock w2 < clock w + codeWindow ->
         exists resp w3 v,
           verifyEmail newId code w2 = (Returned resp, w3)
           /\ token resp = sign_access (createJWTPayload u) (clock w2)
           /\ refreshToken_ resp = sign_refresh (createJWTPayload u) (clock w2)
           /\ view_email (user resp) = email_
           /\ find (has_id newId) (users w3) = Some v
           /\ isEmailVerified v = true
           /\ lastLogin v = Some (clock w2)
           /\ emailVerificationCode v = None
           /\ emailVerificationExpires v = None
           /\ forall w4,
                users w4 = users w3 ->
                verifyEmail newId code w4
                = (Raised (ThrownApp (mkAppError "Email already verified" 400)), w4).
Proof.
  intros Hwf Hreg.
  destruct (register_leaves_pending _ _ _ _ _ _ _ Hwf Hreg)
    as (u & Hfind & Hid & Hmail & Hver & Hcode & Hexp).
  exists u, (nextCode w). repeat (split; [assumption|]).
  intros w2 Husers Hbefore.
  assert (find (has_id newId) (users w2) = Some u) as Hfind2 by (now rewrite Husers).
  destruct (verifyEmail_success w2 newId u (nextCode w) (clock w + codeWindow)
              Hfind2 Hver Hcode (nextCode_nonempty w) Hexp ltac:(lia))
    as (w3 & Hrun & Husers3 & _).
  exists (authResponse (verified_user (clock w2) u)
            (sign_access (createJWTPayload u) (clock w2),
             sign_refresh (createJWTPayload u) (clock w2))),
    w3, (verified_user (clock w2) u).
  assert (find (has_id newId) (users w3) = Some (verified_user (clock w2) u)) as Hfind3.
  { rewrite Husers3. now apply (find_updateOne_id _ u). }
  repeat (split; [first [assumption | reflexivity]|]).
  intros w4 Husers4.
  apply (verifyEmail_already_verified w4 newId (verified_user (clock w2) u)).
  - now rewrite Husers4.
  - reflexivity.
Qed.


(** A [register] that gets past the conflict check with a name or a
    password that the schema refuses throws the [ValidationError] of
    the save, and the collection stays as it was. *)
Lemma register_refused_by_schema (w : World) (name_ email_ password_ : string) :
  (forall u, find (has_email email_) (users w) = Some u -> isEmailVerified u = false) ->
  ~ schemaAcceptsName name_ \/ ~ schemaAcceptsPassword password_ ->
  exists errors w',
    register name_ email_ password_ w = (Raised (ThrownValidation errors), w')
    /\ users w' = users w /\ nextId w' = nextId w /\ outbox w' = outbox w.
Proof.
  intros Hholder Hbad.
  unfold schemaAcceptsName, schemaAcceptsPassword in Hbad.
  unfold register, generateVerificationCode. run_call.
  destruct (find (has_email email_) (users w)) as [u|] eqn:Hfind; simpl.
  - rewrite (Hholder u eq_refl). simpl.
    match goal with
    | |- context [validatePath path_name ?d] =>
        destruct (validatePath path_name d) eqn:Hname; simpl;
        [apply validatePath_name in Hname; simpl in Hname
        |eexists _, _; repeat split; reflexivity]
    end.
    match goal with
    | |- context [validatePath path_password ?d] =>
        destruct (validatePath path_password d) eqn:Hpassword; simpl;
        [apply validatePath_password in Hpassword; simpl in Hpassword
        |eexists _, _; repeat split; reflexivity]
    end.
    exfalso. destruct Hbad as [Hbad|Hbad]; now apply Hbad.
  - match goal with
    | |- context [validatePath path_name ?d] =>
        destruct (validatePath path_name d) eqn:Hname; simpl;
        [apply validatePath_name in Hname; simpl in Hname
        |eexists _, _; repeat split; reflexivity]
    end.
    match goal with
    | |- context [validatePath path_password ?d] =>
        destruct (validatePath path_password d) eqn:Hpassword; simpl;
        [apply validatePath_password in Hpassword; simpl in Hpassword
        |destruct (validatePath path_email _); simpl;
         eexists _, _; repeat split; reflexivity]
    end.
    exfalso. destruct Hbad as [Hbad|Hbad]; now apply Hbad.
Qed.

(** C5, as the code has it. [register] on an address held by a verified
    record throws "User with this email already exists" with status 400
    and writes nothing. On an address held by an unverified record,
    with a name and a password that the validators of the schema
    accept, it succeeds with that record's id and rewrites, in place,
    its name (trimmed), password hash, verification code and expiry. On
    an unknown address, with a name, an address and a password that the
    validators accept, it appends a fresh unverified record under the
    next id. With a name or a password that the schema refuses, the
    last two cases throw a [ValidationError] and write nothing. *)
Theorem register_by_holder (w : World) (name_ email_ password_ : string) :
  (forall u,
     find (has_email email_) (users w) = Some u ->
     isEmailVerified u = true ->
     register name_ email_ password_ w
     = (Raised (ThrownApp (mkAppError "User with this email already exists" 400)), w))
  /\ (forall u,
        find (has_email email_) (users w) = Some u ->
        isEmailVerified u = false ->
        schemaAcceptsName name_ ->
        schemaAcceptsPassword password_ ->
        exists w',
          register name_ email_ password_ w
          = (Returned (registerMessage, _id u), w')
          /\ users w'
             = updateOne
                 (mkUser (_id u) (stringTrim name_) (email u) (bcrypt_hash password_)
                    (plan u) (isAdmin u) false
                    (Some (nextCode w)) (Some (clock w + codeWindow))
                    (passwordResetCode u) (passwordResetExpires u)
                    (connectedPlatforms u) (videosGenerated u)
                    (lastLogin u) (createdAt u))
                 (users w))
  /\ (find (has_email email_) (users w) = None ->
      schemaAcceptsName name_ ->
      schemaAcceptsEmail email_ ->
      schemaAcceptsPassword password_ ->
      exists w',
        register name_ email_ password_ w
        = (Returned (registerMessage, nextId w), w')
        /\ users w'
           = (users w
              ++ [mkUser (nextId w) (stringTrim name_) email_ (bcrypt_hash password_)
                    free false false
                    (Some (nextCode w)) (Some (clock w + codeWindow)) None None
                    [] 0%N (Some (clock w)) (clock w)])%list)
  /\ ((forall u,
         find (has_email email_) (users w) = Some u -> isEmailVerified u = false) ->
      ~ schemaAcceptsName name_ \/ ~ schemaAcceptsPassword password_ ->
      exists errors w',
        register name_ email_ password_ w = (Raised (ThrownValidation errors), w')
        /\ users w' = users w).
Proof.
  split; [|split; [|split]].
  - intros u Hfind Hver. now apply (register_conflict _ _ _ _ u).
  - intros u Hfind Hver Hname Hpassword.
    destruct (register_retry w name_ email_ password_ u Hfind Hver Hname Hpassword)
      as (w' & Hrun & Husers & _).
    exists w'. split; [exact Hrun|]. rewrite Husers.
    unfold reregistered, with_password, with_emailVerificationExpires,
      with_emailVerificationCode, with_name. simpl. now rewrite Hver.
  - intros Hfind Hname Hemail Hpassword.
    destruct (register_fresh w name_ email_ password_ Hfind Hname Hemail Hpassword)
      as (w' & Hrun & Husers & _).
    exists w'. split; [exact Hrun|exact Husers].
  - intros Hholder Hbad.
    destruct (register_refused_by_schema w name_ email_ password_ Hholder Hbad)
      as (errors & w' & Hrun & Husers & _).
    eauto.
Qed.

(** *** Consuming a code *)

Lemma verifyEmail_returned_inv (w w' : World) (i : ObjectId) (code : string)
    (resp : AuthResponse) :
  verifyEmail i code w = (Returned resp, w') ->
  exists u expires,
    find (has_id i) (users w) = Some u
    /\ isEmailVerified u = false
    /\ emailVerificationCode u = Some code
    /\ code <> ""
    /\ emailVerificationExpires u = Some expires
    /\ clock w <= expires.
Proof.
  unfold verifyEmail. run_call.
  destruct (find (has_id i) (users w)) as [u|] eqn:Hfind; [|discriminate].
  destruct (isEmailVerified u) eqn:Hver; [discriminate|].
  destruct (emailVerificationCode u) as [stored|] eqn:Hcode; simpl; [|discriminate].
  destruct (String.eqb stored "") eqn:Hempty; simpl; [discriminate|].
  destruct (emailVerificationExpires u) as [expires|] eqn:Hexp; simpl; [|discriminate].
  destruct (expires <? clock w) eqn:Hlt; [discriminate|].
  destruct (String.eqb stored code) eqn:Heq; simpl; [|discriminate].
  intros _. apply String.eqb_eq in Heq. subst stored.
  exists u, expires. repeat split; auto.
  - intros ->. discriminate.
  - now apply Z.ltb_ge.
Qed.

Lemma resetPassword_returned_inv (w w' : World) (email_ code newPassword : string)
    (resp : AuthResponse) :
  resetPassword email_ code newPassword w = (Returned resp, w') ->
  exists u,
    find (resetFilter email_ code (clock w)) (users w) = Some u
    /\ users w' = updateOne (reset_user w newPassword u) (users w).
Proof.
  unfold resetPassword. run_call.
  destruct (find (resetFilter email_ code (clock w)) (users w)) as [u|] eqn:Hfind;
    [|discriminate].
  destruct (validatePath path_password _); simpl; [|discriminate].
  intros Hrun. injection Hrun as _ <-. exists u. split; reflexivity.
Qed.

Lemma reset_code_rejected (w : World) (email_ code : string) :
  find (resetFilter email_ code (clock w)) (users w) = None ->
  (forall newPassword,
     resetPassword email_ code newPassword w
     = (Raised (ThrownApp (mkAppError "Invalid or expired reset code" 400)), w))
  /\ verifyResetCode email_ code w
     = (Raised (ThrownApp (mkAppError "Invalid or expired reset code" 400)), w).
Proof.
  intros Hfind. split; [intros newPassword; unfold resetPassword
                       | unfold verifyResetCode]; run_call; now rewrite Hfind.
Qed.

Lemma resetFilter_email (email_ code : string) (t : Date) (u : User) :
  resetFilter email_ code t u = true -> email u = email_.
Proof.
  unfold resetFilter. intros H.
  apply andb_prop in H as [H _]. apply andb_prop in H as [H _].
  now apply has_email_true.
Qed.

(** *** The code and its expiry go together *)

Lemma resendVerificationCode_returned_inv (w w' : World) (i : ObjectId) (msg : string) :
  resendVerificationCode i w = (Returned msg, w') ->
  exists u,
    find (has_id i) (users w) = Some u
    /\ isEmailVerified u = false
    /\ users w' = updateOne (code_resent w u) (users w).
Proof.
  unfold resendVerificationCode, generateVerificationCode. run_call.
  destruct (find (has_id i) (users w)) as [u|] eqn:Hfind; [|discriminate].
  destruct (isEmailVerified u) eqn:Hver; [discriminate|].
  unfold sendEmail. simpl. intros Hrun. exists u.
  split; [reflexivity|]. split; [assumption|].
  destruct (transporter w) as [sendMail|]; simpl in Hrun;
    [destruct (sendMail _); simpl in Hrun|];
    injection Hrun as _ <-; reflexivity.
Qed.

Lemma forgotPassword_returned_inv (w w' : World) (email_ msg : string) :
  forgotPassword email_ w = (Returned msg, w') ->
  (find (has_email email_) (users w) = None /\ w' = w)
  \/ (exists u,
        find (has_email email_) (users w) = Some u
        /\ isEmailVerified u = true
        /\ users w' = updateOne (reset_requested w u) (users w)).
Proof.
  unfold forgotPassword, generateVerificationCode. run_call.
  destruct (find (has_email email_) (users w)) as [u|] eqn:Hfind.
  - destruct (isEmailVerified u) eqn:Hver; simpl; [|discriminate].
    unfold sendEmail. simpl. intros Hrun. right. exists u.
    split; [reflexivity|]. split; [assumption|].
    destruct (transporter w) as [sendMail|]; simpl in Hrun;
      [destruct (sendMail _); simpl in Hrun|];
      injection Hrun as _ <-; reflexivity.
  - intros Hrun. injection Hrun as _ <-. now left.
Qed.

(** C9. A code and its expiry are written and cleared together. Serving
    a request keeps the pairing invariant: if in every stored record
    the verification code and its expiry are both present or both
    absent, and likewise the reset code and its expiry, then the same
    holds after any call of the service, whatever it answers. And the
    calls that touch a pair write both of its members, whatever the
    record held before: after a successful [register] or
    [resendVerificationCode] the record holds the code just generated
    and the expiry ten minutes after the call; after a successful
    [forgotPassword] on a held address the record holds the reset code
    just generated and its expiry ten minutes after the call; after a
    successful [verifyEmail] its verification code and expiry are both
    absent, and after a successful [resetPassword] its reset code and
    expiry are both absent. *)
Theorem serve_preserves_pairing (w : World) :
  (forall r, pairing_invariant w -> pairing_invariant (serve r w))
  /\ (forall name_ email_ password_ msg newId w',
        wf_world w ->
        register name_ email_ password_ w = (Returned (msg, newId), w') ->
        exists v,
          find (has_id newId) (users w') = Some v
          /\ emailVerificationCode v = Some (nextCode w)
          /\ emailVerificationExpires v = Some (clock w + codeWindow))
  /\ (forall i msg w',
        resendVerificationCode i w = (Returned msg, w') ->
        exists v,
          find (has_id i) (users w') = Some v
          /\ emailVerificationCode v = Some (nextCode w)
          /\ emailVerificationExpires v = Some (clock w + codeWindow))
  /\ (forall email_ u msg w',
        find (has_email email_) (users w) = Some u ->
        forgotPassword email_ w = (Returned msg, w') ->
        exists v,
          find (has_id (_id u)) (users w') = Some v
          /\ passwordResetCode v = Some (nextCode w)
          /\ passwordResetExpires v = Some (clock w + codeWindow))
  /\ (forall i code resp w',
        verifyEmail i code w = (Returned resp, w') ->
        exists v,
          find (has_id i) (users w') = Some v
          /\ emailVerificationCode v = None
          /\ emailVerificationExpires v = None)
  /\ (forall email_ code newPassword resp w',
        resetPassword email_ code newPassword w = (Returned resp, w') ->
        exists u v,
          find (resetFilter email_ code (clock w)) (users w) = Some u
          /\ find (has_id (_id u)) (users w') = Some v
          /\ passwordResetCode v = None
          /\ passwordResetExpires v = None).
Proof.
  split; [|split; [|split; [|split; [|split]]]].
  - intros r. unfold pairing_invariant. intros Hall.
    destruct r; simpl; open_call; split_call; pairing_after_call.
  - intros name_ email_ password_ msg newId w' Hwf Hrun.
    destruct (register_leaves_pending _ _ _ _ _ _ _ Hwf Hrun)
      as (v & Hfind & _ & _ & _ & Hcode & Hexp).
    eauto.
  - intros i msg w' Hrun.
    destruct (resendVerificationCode_returned_inv _ _ _ _ Hrun)
      as (u & Hfind & _ & Husers).
    exists (code_resent w u). rewrite Husers. split; [|split; reflexivity].
    apply (find_updateOne_id _ u); [assumption|].
    apply find_some in Hfind as [_ Hid]. now apply has_id_true in Hid.
  - intros email_ u msg w' Hfind Hrun.
    destruct (forgotPassword_returned_inv _ _ _ _ Hrun)
      as [[Hnone _] | (u' & Hfind' & _ & Husers)]; [congruence|].
    rewrite Hfind in Hfind'. injection Hfind' as <-.
    apply find_some in Hfind as [Hin _].
    destruct (find_id_of_member _ _ Hin) as (x & Hx).
    exists (reset_requested w u). rewrite Husers. split; [|split; reflexivity].
    now apply (find_updateOne_id _ x).
  - intros i code resp w' Hrun.
    destruct (verifyEmail_returned_inv _ _ _ _ _ Hrun)
      as (u & expires & Hfind & Hver & Hcode & Hne & Hexp & Hle).
    destruct (verifyEmail_success w i u code expires Hfind Hver Hcode Hne Hexp Hle)
      as (w1 & Hrun1 & Husers & _).
    rewrite Hrun in Hrun1. injection Hrun1 as _ ->.
    exists (verified_user (clock w) u). rewrite Husers.
    split; [|split; reflexivity].
    apply (find_updateOne_id _ u); [assumption|].
    apply find_some in Hfind as [_ Hid]. now apply has_id_true in Hid.
  - intros email_ code newPassword resp w' Hrun.
    destruct (resetPassword_returned_inv _ _ _ _ _ _ Hrun) as (u & Hfind & Husers).
    exists u, (reset_user w newPassword u). split; [exact Hfind|].
    rewrite Husers. split; [|split; reflexivity].
    apply find_some in Hfind as [Hin _].
    destruct (find_id_of_member _ _ Hin) as (x & Hx).
    now apply (find_updateOne_id _ x).
Qed.

(** C2, as the code has it. A code is consumed once. When [verifyEmail]
    succeeds, the record's verification code and expiry are both absent
    afterwards and the same call is then refused with "Email already
    verified", status 400. When [resetPassword] succeeds, the record's
    reset code and expiry are both absent afterwards and [resetPassword]
    and [verifyResetCode] with the same address and code are then
    refused with "Invalid or expired reset code", status 400. Refused
    calls write nothing. *)
Theorem codes_are_single_use :
  (forall (w w' : World) (i : ObjectId) (code : string) (resp : AuthResponse),
     verifyEmail i code w = (Returned resp, w') ->
     exists v,
       find (has_id i) (users w') = Some v
       /\ emailVerificationCode v = None
       /\ emailVerificationExpires v = None
       /\ forall w'',
            users w'' = users w' ->
            verifyEmail i code w''
            = (Raised (ThrownApp (mkAppError "Email already verified" 400)), w''))
  /\ (forall (w w' : World) (email_ code newPassword : string) (resp : AuthResponse),
        wf_world w ->
        resetPassword email_ code newPassword w = (Returned resp, w') ->
        exists v,
          find (has_email email_) (users w') = Some v
          /\ passwordResetCode v = None
          /\ passwordResetExpires v = None
          /\ forall w'',
               users w'' = users w' ->
               (forall again,
                  resetPassword email_ code again w''
                  = (Raised (ThrownApp
                       (mkAppError "Invalid or expired reset code" 400)), w''))
               /\ verifyResetCode email_ code w''
                  = (Raised (ThrownApp
                       (mkAppError "Invalid or expired reset code" 400)), w'')).
Proof.
  split.
  - intros w w' i code resp Hrun.
    destruct (verifyEmail_returned_inv _ _ _ _ _ Hrun)
      as (u & expires & Hfind & Hver & Hcode & Hne & Hexp & Hle).
    destruct (verifyEmail_success w i u code expires Hfind Hver Hcode Hne Hexp Hle)
      as (w1 & Hrun1 & Husers & _).
    rewrite Hrun in Hrun1. injection Hrun1 as _ ->.
    assert (find (has_id i) (users w1) = Some (verified_user (clock w) u)) as Hfind1.
    { rewrite Husers. apply (find_updateOne_id _ u); [assumption|].
      apply find_some in Hfind as [_ Hid]. now apply has_id_true in Hid. }
    exists (verified_user (clock w) u). repeat (split; [first [assumption|reflexivity]|]).
    intros w'' Husers''.
    apply (verifyEmail_already_verified w'' i (verified_user (clock w) u));
      [now rewrite Husers''|reflexivity].
  - intros w w' email_ code newPassword resp (Hids & Hemails & _) Hrun.
    destruct (resetPassword_returned_inv _ _ _ _ _ _ Hrun) as (u & Hfind & Husers).
    apply find_some in Hfind as [Hin Hfilter].
    pose proof (resetFilter_email _ _ _ _ Hfilter) as Hmail.
    set (v := reset_user w newPassword u) in *.
    assert (map email (users w') = map email (users w)) as Hcol.
    { rewrite Husers. now apply (map_email_updateOne u). }
    assert (In v (users w')) as Hinv.
    { rewrite Husers. now apply (in_updateOne_self v u). }
    exists v. split; [|split; [reflexivity|split; [reflexivity|]]].
    + rewrite <- Hmail. change (email u) with (email v).
      apply find_by_email_unique; [now rewrite Hcol|assumption].
    + intros w'' Husers''. apply reset_code_rejected.
      destruct (find (resetFilter email_ code (clock w'')) (users w''))
        as [x|] eqn:Hx; [exfalso|reflexivity].
      apply find_some in Hx as [Hinx Hfx]. rewrite Husers'', Husers in Hinx.
      apply (in_updateOne v x _ Hids) in Hinx as [->|[Hinx Hneq]].
      * unfold resetFilter in Hfx. simpl in Hfx.
        rewrite andb_false_r in Hfx. discriminate.
      * apply Hneq.
        assert (x = u) as ->; [|reflexivity].
        apply (NoDup_map_eq email (users w)); auto.
        rewrite Hmail. now apply (resetFilter_email _ code (clock w'')).
Qed.


(** *** Forgotten passwords and the gateway *)

(** C7, as the code has it. [forgotPassword] answers with one and the
    same message when no record holds the address and when a verified
    record holds it; when an unverified record holds it the call throws
    "Please verify your email first before resetting password" with
    status 400 and writes nothing. *)
Theorem forgotPassword_uniform_unless_unverified (w : World) (email_ : string) :
  (find (has_email email_) (users w) = None ->
   forgotPassword email_ w = (Returned forgotPasswordMessage, w))
  /\ (forall u,
        find (has_email email_) (users w) = Some u ->
        isEmailVerified u = true ->
        fst (forgotPassword email_ w) = Returned forgotPasswordMessage)
  /\ (forall u,
        find (has_email email_) (users w) = Some u ->
        isEmailVerified u = false ->
        forgotPassword email_ w
        = (Raised (ThrownApp (mkAppError
             "Please verify your email first before resetting password" 400)), w)).
Proof.
  split; [|split].
  - intros Hfind. unfold forgotPassword. run_call. now rewrite Hfind.
  - intros u Hfind Hver. unfold forgotPassword, generateVerificationCode. run_call.
    rewrite Hfind, Hver. unfold sendEmail. simpl.
    destruct (transporter w) as [sendMail|]; simpl; [|reflexivity].
    now destruct (sendMail _).
  - intros u Hfind Hver. unfold forgotPassword. run_call. now rewrite Hfind, Hver.
Qed.

(** A delivery failure never surfaces: [sendEmail] catches it and
    returns [false], and the service does not look at that value. With
    a transport on which every delivery fails, [forgotPassword] for a
    verified account still returns its usual message and the reset code
    and expiry it has just written stay in the record;
    [resendVerificationCode] likewise. Nothing reaches the outbox. *)
Lemma delivery_failure_keeps_codes (w : World) (sendMail : Mail -> bool) :
  transporter w = Some sendMail ->
  (forall m, sendMail m = false) ->
  (forall m, sendEmail m w = (Returned false, w))
  /\ (forall email_ u,
        find (has_email email_) (users w) = Some u ->
        isEmailVerified u = true ->
        exists w',
          forgotPassword email_ w = (Returned forgotPasswordMessage, w')
          /\ users w' = updateOne (reset_requested w u) (users w)
          /\ outbox w' = outbox w)
  /\ (forall i u,
        find (has_id i) (users w) = Some u ->
        isEmailVerified u = false ->
        exists w',
          resendVerificationCode i w = (Returned registerMessage, w')
          /\ users w' = updateOne (code_resent w u) (users w)
          /\ outbox w' = outbox w).
Proof.
  intros Htr Hdown. repeat split.
  - intros m. unfold sendEmail. now rewrite Htr, Hdown.
  - intros email_ u Hfind Hver. unfold forgotPassword, generateVerificationCode.
    run_call. rewrite Hfind, Hver. unfold sendEmail. simpl.
    rewrite Htr, Hdown. simpl. eexists. repeat split.
  - intros i u Hfind Hver. unfold resendVerificationCode, generateVerificationCode.
    run_call. rewrite Hfind, Hver. unfold sendEmail. simpl.
    rewrite Htr, Hdown. simpl. eexists. repeat split.
Qed.


(** *** Reachable worlds *)

(** Serving a request keeps ids distinct and below the next id, and
    addresses distinct. *)
Lemma serve_preserves_wf (r : Request) (w : World) :
  wf_world w -> wf_world (serve r w).
Proof.
  intros Hwf. change (wf_store (users w) (nextId w)) in Hwf.
  destruct r; simpl; open_call; split_call;
    match goal with
    | |- wf_world ?w' => change (wf_store (users w') (nextId w')); simpl
    end;
    try assumption;
    try (apply wf_store_delete; assumption);
    try (eapply wf_store_update; [eassumption|eassumption|reflexivity|reflexivity]).
  all: apply wf_store_append; [assumption|simpl; assumption|reflexivity].
Qed.

(** Serving a request keeps stored codes non-empty. *)
Lemma serve_preserves_codes (r : Request) (w : World) :
  Forall codes_nonempty (users w) -> Forall codes_nonempty (users (serve r w)).
Proof.
  intros Hall.
  assert (forall f u, find f (users w) = Some u -> codes_nonempty u) as Hfound.
  { intros f u Hf. exact (find_Forall _ _ _ _ Hf Hall). }
  pose proof (nextCode_nonempty w) as Hgen.
  destruct r; simpl; open_call; split_call; try assumption;
    try (apply Forall_deleteOne; assumption);
    try (apply Forall_updateOne; [assumption|];
         match goal with
         | Hf : find _ _ = Some ?u |- _ =>
             destruct (Hfound _ _ Hf) as [? ?]
         end;
         split; simpl; congruence).
  all: apply Forall_app; split; [assumption|];
    constructor; [|constructor]; split; simpl; congruence.
Qed.

(** The three invariants hold in every world reached from an empty
    collection by calls, passing time and changes of the transport. *)
Lemma step_preserves (ev : Event) (w : World) :
  wf_world w /\ pairing_invariant w /\ Forall codes_nonempty (users w) ->
  wf_world (step ev w) /\ pairing_invariant (step ev w)
  /\ Forall codes_nonempty (users (step ev w)).
Proof.
  intros (Hwf & Hpair & Hcodes). destruct ev as [r|t|tr]; simpl.
  - split; [now apply serve_preserves_wf|].
    split; [|now apply serve_preserves_codes].
    unfold pairing_invariant in *. clear Hwf Hcodes. rename Hpair into Hall.
    destruct r; simpl; open_call; split_call; pairing_after_call.
  - split; [exact Hwf|]. split; [exact Hpair|exact Hcodes].
  - split; [exact Hwf|]. split; [exact Hpair|exact Hcodes].
Qed.

Lemma reachable_invariants (evs : list Event) (t : Date) (rnd : nat -> N)
    (tr : option (Mail -> bool)) :
  let w := run evs (emptyWorld t rnd tr) in
  wf_world w /\ pairing_invariant w /\ Forall codes_nonempty (users w).
Proof.
  unfold run.
  assert (wf_world (emptyWorld t rnd tr)
          /\ pairing_invariant (emptyWorld t rnd tr)
          /\ Forall codes_nonempty (users (emptyWorld t rnd tr))) as Hinit.
  { repeat split; simpl; constructor. }
  revert Hinit. generalize (emptyWorld t rnd tr). 
  induction evs as [|ev evs IH]; intros w Hw; simpl; [exact Hw|].
  apply IH. now apply step_preserves.
Qed.


(** *** When a presented code is accepted *)

(** [verifyEmail] accepts a code exactly when it equals the stored one
    and the clock has not passed the expiry: the expiry instant itself
    is still inside the window. *)
Lemma verifyEmail_accepts_iff (w : World) (i : ObjectId) (u : User)
    (stored code : string) (expires : Date) :
  find (has_id i) (users w) = Some u ->
  isEmailVerified u = false ->
  emailVerificationCode u = Some stored ->
  stored <> "" ->
  emailVerificationExpires u = Some expires ->
  (exists resp w', verifyEmail i code w = (Returned resp, w'))
  <-> (clock w <= expires /\ code = stored).
Proof.
  intros Hfind Hver Hcode Hne Hexp. split.
  - intros (resp & w' & Hrun).
    destruct (verifyEmail_returned_inv _ _ _ _ _ Hrun)
      as (u' & expires' & Hfind' & _ & Hcode' & _ & Hexp' & Hle).
    rewrite Hfind in Hfind'. injection Hfind' as <-.
    rewrite Hcode in Hcode'. rewrite Hexp in Hexp'.
    injection Hcode' as ->. injection Hexp' as ->. now split.
  - intros (Hle & ->).
    destruct (verifyEmail_success w i u stored expires Hfind Hver Hcode Hne Hexp Hle)
      as (w' & Hrun & _).
    eauto.
Qed.

(** [verifyResetCode] accepts a code exactly when it equals the stored
    one and the clock is strictly before the expiry. *)
Lemma verifyResetCode_accepts_iff (w : World) (u : User)
    (stored code : string) (expires : Date) :
  NoDup (map email (users w)) ->
  In u (users w) ->
  passwordResetCode u = Some stored ->
  passwordResetExpires u = Some expires ->
  verifyResetCode (email u) code w = (Returned "Reset code verified successfully", w)
  <-> (clock w < expires /\ code = stored).
Proof.
  intros Hnd Hin Hcode Hexp.
  assert (resetFilter (email u) code (clock w) u
          = String.eqb stored code && (clock w <? expires)) as Hfilter.
  { unfold resetFilter. rewrite Hcode, Hexp.
    assert (has_email (email u) u = true) as -> by (now apply has_email_true).
    reflexivity. }
  unfold verifyResetCode. run_call.
  destruct (find (resetFilter (email u) code (clock w)) (users w)) as [x|] eqn:Hx.
  - apply find_some in Hx as [Hinx Hfx].
    assert (x = u) as ->.
    { apply (NoDup_map_eq email (users w)); auto.
      now apply (resetFilter_email _ code (clock w)). }
    rewrite Hfilter in Hfx. apply andb_prop in Hfx as [Heq Hlt].
    apply String.eqb_eq in Heq. apply Z.ltb_lt in Hlt.
    split; [now split|reflexivity].
  - split; [discriminate|]. intros (Hlt & ->). exfalso.
    apply (find_none _ _ Hx) in Hin. rewrite Hfilter in Hin.
    rewrite String.eqb_refl in Hin. apply Z.ltb_lt in Hlt.
    rewrite Hlt in Hin. discriminate.
Qed.

End Properties.

(** ** Runs of the service on sample worlds *)

#[local] Existing Instance demoBcrypt.
#[local] Existing Instance demoJwt.

(** C3. At the very instant of the expiry [verifyEmail] still accepts
    the stored code and verifies the account, while [verifyResetCode]
    and [resetPassword] at the instant of their expiry refuse it. *)
Theorem verifyEmail_accepts_at_expiry_instant :
  emailVerificationExpires annPending = Some 600000
  /\ verifyEmail 1%N "123456" (demoWorld [annPending] 600000 None)
     = (Returned (mkAuthResponse
                    (mkUserView 1%N "Ann" "ann@x.com" free false [] 0%N)
                    "access.ann@x.com" "refresh.ann@x.com"),
        demoWorld
          [mkUser 1%N "Ann" "ann@x.com" "$2a$10$Passw0rd" free false true
             None None None None [] 0%N (Some 600000) 0]
          600000 None)
  /\ passwordResetExpires annResetting = Some 700000
  /\ verifyResetCode "ann@x.com" "654321" (demoWorld [annResetting] 700000 None)
     = (Raised (ThrownApp (mkAppError "Invalid or expired reset code" 400)),
        demoWorld [annResetting] 700000 None)
  /\ resetPassword "ann@x.com" "654321" "N3wPassw0rd"
       (demoWorld [annResetting] 700000 None)
     = (Raised (ThrownApp (mkAppError "Invalid or expired reset code" 400)),
        demoWorld [annResetting] 700000 None).
Proof. repeat split. Qed.

(** *** Sample runs behind the general statements *)

Lemma demoWorld_wf_empty (t : Date) (tr : option (Mail -> bool)) :
  wf_world (demoWorld [] t tr).
Proof. repeat split; simpl; constructor. Qed.

Lemma demoWorld_wf_single (u : User) (t : Date) (tr : option (Mail -> bool)) :
  _id u = 1%N -> wf_world (demoWorld [u] t tr).
Proof.
  intros Hid. repeat split; simpl.
  - repeat constructor. intros [].
  - repeat constructor. intros [].
  - repeat constructor. rewrite Hid. reflexivity.
Qed.

(** Deciding what the schema accepts on given strings. *)
Lemma schemaAcceptsName_of (name_ : string) :
  negb (String.eqb (stringTrim name_) "")
  && (String.length (stringTrim name_) <=? 50)%nat = true ->
  schemaAcceptsName name_.
Proof.
  intros H. apply andb_prop in H as [Hne Hlen]. split.
  - intros Hempty. rewrite Hempty in Hne. discriminate.
  - now apply Nat.leb_le.
Qed.

Lemma schemaAcceptsPassword_of (password_ : string) :
  (6 <=? String.length password_)%nat = true -> schemaAcceptsPassword password_.
Proof. apply Nat.leb_le. Qed.

(** Ann registers in an empty collection at instant 0, is given id 2
    and code 123456, and C1 applies to that run. *)
Lemma register_then_verifyEmail_witness :
  wf_world (demoWorld [] 0 None)
  /\ register "Ann" "ann@x.com" "Passw0rd" (demoWorld [] 0 None)
     = (Returned (registerMessage, 2%N),
        snd (register "Ann" "ann@x.com" "Passw0rd" (demoWorld [] 0 None)))
  /\ exists u code,
       find (has_id 2%N)
         (users (snd (register "Ann" "ann@x.com" "Passw0rd" (demoWorld [] 0 None))))
       = Some u
       /\ isEmailVerified u = false
       /\ emailVerificationCode u = Some code
       /\ emailVerificationExpires u = Some (0 + codeWindow)
       /\ forall w2,
            users w2
            = users (snd (register "Ann" "ann@x.com" "Passw0rd" (demoWorld [] 0 None))) ->
            clock w2 < 0 + codeWindow ->
            exists resp w3 v,
              verifyEmail 2%N code w2 = (Returned resp, w3)
              /\ token resp = sign_access (createJWTPayload u) (clock w2)
              /\ refreshToken_ resp = sign_refresh (createJWTPayload u) (clock w2)
              /\ view_email (user resp) = "ann@x.com"
              /\ find (has_id 2%N) (users w3) = Some v
              /\ isEmailVerified v = true
              /\ lastLogin v = Some (clock w2)
              /\ emailVerificationCode v = None
              /\ emailVerificationExpires v = None
              /\ forall w4,
                   users w4 = users w3 ->
                   verifyEmail 2%N code w4
                   = (Raised (ThrownApp (mkAppError "Email already verified" 400)), w4).
Proof.
  split; [apply demoWorld_wf_empty|]. split; [reflexivity|].
  apply (register_then_verifyEmail (demoWorld [] 0 None) _
           "Ann" "ann@x.com" "Passw0rd" registerMessage 2%N).
  - apply demoWorld_wf_empty.
  - reflexivity.
Defined.

(** Ann's pending code is consumed at instant 1000 and her reset code
    at instant 5000; C2 applies to both runs. *)
Lemma codes_are_single_use_witness :
  (exists v,
     find (has_id 1%N)
       (users (snd (verifyEmail 1%N "123456" (demoWorld [annPending] 1000 None))))
     = Some v
     /\ emailVerificationCode v = None
     /\ emailVerificationExpires v = None
     /\ forall w'',
          users w''
          = users (snd (verifyEmail 1%N "123456" (demoWorld [annPending] 1000 None))) ->
          verifyEmail 1%N "123456" w''
          = (Raised (ThrownApp (mkAppError "Email already verified" 400)), w''))
  /\ (exists v,
        find (has_email "ann@x.com")
          (users (snd (resetPassword "ann@x.com" "654321" "N3wPassw0rd"
                         (demoWorld [annResetting] 5000 None))))
        = Some v
        /\ passwordResetCode v = None
        /\ passwordResetExpires v = None
        /\ forall w'',
             users w''
             = users (snd (resetPassword "ann@x.com" "654321" "N3wPassw0rd"
                             (demoWorld [annResetting] 5000 None))) ->
             (forall again,
                resetPassword "ann@x.com" "654321" again w''
                = (Raised (ThrownApp
                     (mkAppError "Invalid or expired reset code" 400)), w''))
             /\ verifyResetCode "ann@x.com" "654321" w''
                = (Raised (ThrownApp
                     (mkAppError "Invalid or expired reset code" 400)), w'')).
Proof.
  split.
  - apply (proj1 codes_are_single_use (demoWorld [annPending] 1000 None) _
             1%N "123456"
             (mkAuthResponse (mkUserView 1%N "Ann" "ann@x.com" free false [] 0%N)
                "access.ann@x.com" "refresh.ann@x.com")).
    reflexivity.
  - apply (proj2 codes_are_single_use (demoWorld [annResetting] 5000 None) _
             "ann@x.com" "654321" "N3wPassw0rd"
             (mkAuthResponse (mkUserView 1%N "Ann" "ann@x.com" free false [] 0%N)
                "access.ann@x.com" "refresh.ann@x.com")).
    + apply demoWorld_wf_single. reflexivity.
    + reflexivity.
Defined.

(** Ann, still unverified, logs in with her own password and is turned
    away. *)
Lemma login_unverified_rejected_witness :
  comparePassword annPending "Passw0rd" = true
  /\ isEmailVerified annPending = false
  /\ login "ann@x.com" "Passw0rd" (demoWorld [annPending] 1000 None)
     = (Raised (ThrownApp (mkAppError
          "Please verify your email before logging in. Check your email for verification code."
          401)), demoWorld [annPending] 1000 None).
Proof.
  split; [reflexivity|]. split; [reflexivity|].
  apply (login_unverified_rejected (demoWorld [annPending] 1000 None)
           annPending "Passw0rd").
  - simpl. repeat constructor. intros [].
  - simpl. left. reflexivity.
  - reflexivity.
Defined.

(** The cases of [register] on sample collections: a verified holder,
    an unverified holder with a name given with blanks around it, an
    unknown address, and a password of three characters. *)
Lemma register_by_holder_witness :
  register "Ann B" "ann@x.com" "0therPass" (demoWorld [annVerified] 5000 None)
  = (Raised (ThrownApp (mkAppError "User with this email already exists" 400)),
     demoWorld [annVerified] 5000 None)
  /\ (exists w',
        register " Ann B " "ann@x.com" "0therPass" (demoWorld [annPending] 5000 None)
        = (Returned (registerMessage, 1%N), w')
        /\ users w'
           = [mkUser 1%N "Ann B" "ann@x.com" "$2a$10$0therPass" free false false
                (Some "123456") (Some 605000) None None [] 0%N (Some 0) 0])
  /\ (exists w',
        register "Ann" "ann@x.com" "Passw0rd" (demoWorld [] 0 None)
        = (Returned (registerMessage, 2%N), w')
        /\ users w'
           = [mkUser 2%N "Ann" "ann@x.com" "$2a$10$Passw0rd" free false false
                (Some "123456") (Some 600000) None None [] 0%N (Some 0) 0])
  /\ (exists errors w',
        register "Ann" "ann@x.com" "abc" (demoWorld [annPending] 5000 None)
        = (Raised (ThrownValidation errors), w')
        /\ users w' = [annPending]).
Proof.
  split; [|split; [|split]].
  - exact (proj1 (register_by_holder (demoWorld [annVerified] 5000 None)
                    "Ann B" "ann@x.com" "0therPass") annVerified eq_refl eq_refl).
  - exact (proj1 (proj2 (register_by_holder (demoWorld [annPending] 5000 None)
                           " Ann B " "ann@x.com" "0therPass"))
             annPending eq_refl eq_refl
             (schemaAcceptsName_of " Ann B " eq_refl)
             (schemaAcceptsPassword_of "0therPass" eq_refl)).
  - exact (proj1 (proj2 (proj2 (register_by_holder (demoWorld [] 0 None)
                                  "Ann" "ann@x.com" "Passw0rd")))
             eq_refl (schemaAcceptsName_of "Ann" eq_refl) eq_refl
             (schemaAcceptsPassword_of "Passw0rd" eq_refl)).
  - apply (proj2 (proj2 (proj2 (register_by_holder (demoWorld [annPending] 5000 None)
                                  "Ann" "ann@x.com" "abc")))).
    + intros u Hfind. injection Hfind as <-. reflexivity.
    + right. unfold schemaAcceptsPassword. simpl. lia.
Defined.

(** [forgotPassword] on an unknown, a verified and an unverified
    address. *)
Lemma forgotPassword_uniform_unless_unverified_witness :
  forgotPassword "ann@x.com" (demoWorld [] 5000 None)
  = (Returned forgotPasswordMessage, demoWorld [] 5000 None)
  /\ fst (forgotPassword "ann@x.com" (demoWorld [annVerified] 5000 None))
     = Returned forgotPasswordMessage
  /\ forgotPassword "ann@x.com" (demoWorld [annPending] 5000 None)
     = (Raised (ThrownApp (mkAppError
          "Please verify your email first before resetting password" 400)),
        demoWorld [annPending] 5000 None).
Proof.
  split; [|split].
  - exact (proj1 (forgotPassword_uniform_unless_unverified
                    (demoWorld [] 5000 None) "ann@x.com") eq_refl).
  - exact (proj1 (proj2 (forgotPassword_uniform_unless_unverified
                           (demoWorld [annVerified] 5000 None) "ann@x.com"))
             annVerified eq_refl eq_refl).
  - exact (proj2 (proj2 (forgotPassword_uniform_unless_unverified
                           (demoWorld [annPending] 5000 None) "ann@x.com"))
             annPending eq_refl eq_refl).
Defined.

(** Ann gives a wrong current password. *)
Lemma changePassword_wrong_current_unchanged_witness :
  comparePassword annVerified "wrong" = false
  /\ changePassword 1%N "wrong" "N3wPassw0rd" (demoWorld [annVerified] 5000 None)
     = (Raised (ThrownApp (mkAppError "Current password is incorrect" 400)),
        demoWorld [annVerified] 5000 None)
  /\ forall email_ password_,
       login email_ password_
         (snd (changePassword 1%N "wrong" "N3wPassw0rd"
                 (demoWorld [annVerified] 5000 None)))
       = login email_ password_ (demoWorld [annVerified] 5000 None).
Proof.
  split; [reflexivity|].
  exact (changePassword_wrong_current_unchanged
           (demoWorld [annVerified] 5000 None) 1%N annVerified
           "wrong" "N3wPassw0rd" eq_refl eq_refl).
Defined.

Lemma annResetting_paired : paired annResetting.
Proof. unfold paired; simpl; repeat split; intros; discriminate. Qed.

(** A request for a reset code keeps the pairs of a sample collection,
    and writes Ann's reset code together with its expiry. *)
Lemma serve_preserves_pairing_witness :
  pairing_invariant (demoWorld [annResetting] 5000 None)
  /\ pairing_invariant
       (serve (ForgotPassword "ann@x.com") (demoWorld [annResetting] 5000 None))
  /\ exists v,
       find (has_id 1%N)
         (users (snd (forgotPassword "ann@x.com" (demoWorld [annVerified] 5000 None))))
       = Some v
       /\ passwordResetCode v = Some "123456"
       /\ passwordResetExpires v = Some 605000.
Proof.
  assert (pairing_invariant (demoWorld [annResetting] 5000 None)) as Hinit.
  { constructor; [exact annResetting_paired|constructor]. }
  split; [exact Hinit|]. split.
  - exact (proj1 (serve_preserves_pairing (demoWorld [annResetting] 5000 None))
             (ForgotPassword "ann@x.com") Hinit).
  - apply (proj1 (proj2 (proj2 (proj2 (serve_preserves_pairing
                                         (demoWorld [annVerified] 5000 None)))))
             "ann@x.com" annVerified forgotPasswordMessage
             (snd (forgotPassword "ann@x.com" (demoWorld [annVerified] 5000 None))));
      reflexivity.
Defined.


(** *** Where the code departs from the stated claims *)

(** C2, as stated, fails: the second presentation of a consumed code is
    answered with status 400, not 401, on both paths. *)
Lemma reused_code_is_answered_400 :
  fst (verifyEmail 1%N "123456" (demoWorld [annPending] 1000 None))
  = Returned (mkAuthResponse (mkUserView 1%N "Ann" "ann@x.com" free false [] 0%N)
                "access.ann@x.com" "refresh.ann@x.com")
  /\ fst (verifyEmail 1%N "123456"
            (snd (verifyEmail 1%N "123456" (demoWorld [annPending] 1000 None))))
     = Raised (ThrownApp (mkAppError "Email already verified" 400))
  /\ status_of
       (fst (verifyEmail 1%N "123456"
               (snd (verifyEmail 1%N "123456" (demoWorld [annPending] 1000 None)))))
     <> Some 401
  /\ fst (resetPassword "ann@x.com" "654321" "N3wPassw0rd"
            (demoWorld [annResetting] 5000 None))
     = Returned (mkAuthResponse (mkUserView 1%N "Ann" "ann@x.com" free false [] 0%N)
                   "access.ann@x.com" "refresh.ann@x.com")
  /\ fst (resetPassword "ann@x.com" "654321" "N3wPassw0rd"
            (snd (resetPassword "ann@x.com" "654321" "N3wPassw0rd"
                    (demoWorld [annResetting] 5000 None))))
     = Raised (ThrownApp (mkAppError "Invalid or expired reset code" 400))
  /\ status_of
       (fst (resetPassword "ann@x.com" "654321" "N3wPassw0rd"
               (snd (resetPassword "ann@x.com" "654321" "N3wPassw0rd"
                       (demoWorld [annResetting] 5000 None)))))
     <> Some 401.
Proof. repeat split; discriminate. Qed.

(** C5, as stated, fails: [register] on a verified address throws with
    status 400, not 409. *)
Lemma register_conflict_is_answered_400 :
  isEmailVerified annVerified = true
  /\ fst (register "Ann B" "ann@x.com" "0therPass" (demoWorld [annVerified] 5000 None))
     = Raised (ThrownApp (mkAppError "User with this email already exists" 400))
  /\ status_of
       (fst (register "Ann B" "ann@x.com" "0therPass"
               (demoWorld [annVerified] 5000 None)))
     <> Some 409.
Proof. repeat split; discriminate. Qed.

(** C6. Where the claim asks for a status 500 and a rollback, the code
    does neither: with a transport on which every delivery fails,
    [sendPasswordResetCode] returns [false], [forgotPassword] for Ann's
    verified account at instant 5000 returns its usual message, and the
    reset code 123456 and its expiry 605000 that it wrote are still in
    her record afterwards, with nothing in the outbox; [register] and
    [resendVerificationCode] return normally in the same way. *)
Theorem failed_delivery_is_not_surfaced :
  sendPasswordResetCode "ann@x.com" "Ann" "123456"
    (demoWorld [annVerified] 5000 smtpDown)
  = (Returned false, demoWorld [annVerified] 5000 smtpDown)
  /\ fst (forgotPassword "ann@x.com" (demoWorld [annVerified] 5000 smtpDown))
     = Returned forgotPasswordMessage
  /\ status_of (fst (forgotPassword "ann@x.com" (demoWorld [annVerified] 5000 smtpDown)))
     <> Some 500
  /\ map passwordResetCode
       (users (snd (forgotPassword "ann@x.com" (demoWorld [annVerified] 5000 smtpDown))))
     = [Some "123456"]
  /\ map passwordResetExpires
       (users (snd (forgotPassword "ann@x.com" (demoWorld [annVerified] 5000 smtpDown))))
     = [Some 605000]
  /\ outbox (snd (forgotPassword "ann@x.com" (demoWorld [annVerified] 5000 smtpDown)))
     = []
  /\ fst (register "Bob" "bob@x.com" "hunter22" (demoWorld [annVerified] 5000 smtpDown))
     = Returned (registerMessage, 2%N)
  /\ fst (resendVerificationCode 1%N (demoWorld [annPending] 5000 smtpDown))
     = Returned registerMessage.
Proof. repeat split; discriminate. Qed.

(** C7, as stated, fails: the answer of [forgotPassword] differs between
    an unknown address and the address of an unverified account. *)
Lemma forgotPassword_tells_unverified_apart :
  fst (forgotPassword "ann@x.com" (demoWorld [] 5000 None))
  = Returned forgotPasswordMessage
  /\ fst (forgotPassword "ann@x.com" (demoWorld [annPending] 5000 None))
     = Raised (ThrownApp (mkAppError
         "Please verify your email first before resetting password" 400))
  /\ fst (forgotPassword "ann@x.com" (demoWorld [] 5000 None))
     <> fst (forgotPassword "ann@x.com" (demoWorld [annPending] 5000 None)).
Proof. repeat split; discriminate. Qed.

(** C8, as stated, fails: a wrong current password is answered with
    status 400, not 401. *)
Lemma wrong_current_password_is_answered_400 :
  comparePassword annVerified "wrong" = false
  /\ fst (changePassword 1%N "wrong" "N3wPassw0rd" (demoWorld [annVerified] 5000 None))
     = Raised (ThrownApp (mkAppError "Current password is incorrect" 400))
  /\ status_of
       (fst (changePassword 1%N "wrong" "N3wPassw0rd"
               (demoWorld [annVerified] 5000 None)))
     <> Some 401.
Proof. repeat split; discriminate. Qed.

(** ** Further properties of the service *)

(** Unfolding of whichever call the goal is about. *)
Ltac open_service :=
  unfold register, verifyEmail, resendVerificationCode, login, getProfile,
    refreshToken, forgotPassword, verifyResetCode, resetPassword,
    updateProfile, changePassword, deleteAccount,
    sendVerificationCode, sendPasswordResetCode, sendWelcomeEmail, sendEmail,
    generateVerificationCode;
  run_call.

(** Case analysis on every test a call makes. *)
Ltac case_tests :=
  repeat match goal with
         | |- context [match find ?f ?l with _ => _ end] =>
             let E := fresh "Efind" in destruct (find f l) eqn:E; simpl
         | |- context [validatePath ?p ?u] =>
             let E := fresh "Evalid" in destruct (validatePath p u) eqn:E; simpl
         | |- context [match transporter ?w with _ => _ end] =>
             destruct (transporter w); simpl
         | |- context [match verify_refresh ?t ?c with _ => _ end] =>
             destruct (verify_refresh t c); simpl
         | |- context [if ?b then _ else _] =>
             let E := fresh "Etest" in destruct b eqn:E; simpl
         end.

Lemma same_identity_refl (u : User) : same_identity u u.
Proof. unfold same_identity. repeat split; auto. Qed.

Section FurtherProperties.

Context {hasher : Bcrypt} {signer : Jwt}.

(** *** Calls that throw *)

(** X1. A call of the service that throws an [AppError] or a plain
    [Error] has written nothing: the collection, the id counter, the
    clock, the random draws and the outbox are exactly as before the
    call. A call that throws the [ValidationError] of a save has not
    touched the collection, the id counter, the clock, the transport
    or the outbox either. *)
Theorem failed_call_changes_nothing (r : Request) (w : World) (e : Thrown) :
  failure r w = Some e ->
  ((forall errors, e <> ThrownValidation errors) -> serve r w = w)
  /\ users (serve r w) = users w
  /\ nextId (serve r w) = nextId w
  /\ clock (serve r w) = clock w
  /\ transporter (serve r w) = transporter w
  /\ outbox (serve r w) = outbox w.
Proof.
  destruct r; unfold failure, thrown; simpl; open_service; case_tests;
    intros Hthrown;
    first
      [ discriminate Hthrown
      | split;
        [ intros Hkind;
          first [ reflexivity
                | exfalso; injection Hthrown as <-; eapply Hkind; reflexivity ]
        | repeat split; reflexivity ] ].
Qed.

(** *** How the collection evolves *)

Lemma serve_change (r : Request) (w : World) :
  StoreChange w (users (serve r w)) (nextId (serve r w)).
Proof.
  destruct r; simpl; open_service; case_tests;
    first
      [ apply Unchanged; reflexivity
      | eapply Deleted; reflexivity
      | eapply Saved; [eassumption | | reflexivity | reflexivity];
        unfold same_identity; simpl; repeat split; auto
      | match goal with
        | |- StoreChange _ (_ ++ [?x]) _ =>
            apply (Inserted _ _ _ x); [simpl; assumption | reflexivity..]
        end ].
Qed.

(** X2. Under distinct ids, a record that is still in the collection
    after a call has the id, address, plan, admin flag, connected
    platforms, video counter and creation date it had before, and if
    it was verified it still is: no call of the service changes these
    or undoes a verification. *)
Theorem surviving_record_keeps_identity (r : Request) (w : World) (u v : User) :
  wf_world w ->
  In u (users w) ->
  In v (users (serve r w)) ->
  _id v = _id u ->
  same_identity u v.
Proof.
  intros (Hids & _ & Hbelow) Hu Hv Hid.
  assert (forall x, In x (users w) -> _id x = _id u -> x = u) as Huniq.
  { intros x Hx Hxid. now apply (NoDup_map_eq _id (users w)). }
  destruct (serve_change r w) as [Hl _ | f u0 u' Hfind Hsame Hl _
                                 | x _ Hxid _ Hl _ | i Hl _];
    rewrite Hl in Hv.
  - rewrite (Huniq v Hv Hid). apply same_identity_refl.
  - apply (in_updateOne u' v _ Hids) in Hv as [-> | [Hv _]].
    + apply find_some in Hfind as [Hin0 _].
      assert (u0 = u) as <-; [|exact Hsame].
      apply Huniq; [assumption|].
      destruct Hsame as (Hid' & _). congruence.
    + rewrite (Huniq v Hv Hid). apply same_identity_refl.
  - apply in_app_or in Hv as [Hv | [<- | []]].
    + rewrite (Huniq v Hv Hid). apply same_identity_refl.
    + exfalso. rewrite Forall_forall in Hbelow. apply Hbelow in Hu.
      rewrite <- Hid, Hxid in Hu. lia.
  - apply deleteOne_incl in Hv. rewrite (Huniq v Hv Hid).
    apply same_identity_refl.
Qed.

Ltac lifecycle_after_save :=
  match goal with
  | Hf : find _ _ = Some ?u, Hall : Forall lifecycle_ok _ |- _ =>
      let Hu := fresh "Hu" in
      pose proof (find_Forall _ _ _ _ Hf Hall) as Hu;
      destruct Hu as [Hver Hunver];
      repeat match goal with
             | H : negb ?b = _ |- _ =>
                 destruct b eqn:?; simpl in H; try discriminate H; clear H
             end;
      unfold lifecycle_ok; simpl; split; intro Hx;
      first [ now apply Hver | now apply Hunver
            | split; reflexivity | congruence ]
  end.

(** The collection after a call is the old one, the old one with a
    record saved or deleted, or the old one with a record appended. *)
Ltac lifecycle_after_call :=
  first
    [ assumption
    | apply Forall_deleteOne; assumption
    | apply Forall_updateOne; [assumption | lifecycle_after_save]
    | apply Forall_app; split; [assumption|];
      constructor; [|constructor];
      unfold lifecycle_ok; simpl; split; intro;
      first [discriminate | split; reflexivity] ].

(** X3. Serving a request keeps the code pairs in step with the state
    of the account: if before the call no verified record holds a
    verification code or expiry and no unverified record holds a reset
    code or expiry, the same is true after it. *)
Theorem serve_preserves_lifecycle (r : Request) (w : World) :
  Forall lifecycle_ok (users w) -> Forall lifecycle_ok (users (serve r w)).
Proof.
  intros Hall.
  destruct r; simpl; open_service; case_tests; lifecycle_after_call.
Qed.

(** X4. In every world reached from an empty collection by calls of the
    service, passing time and changes of the transport, ids are
    distinct and below the id counter, no two records share an
    address, no verified record holds a verification code, no
    unverified record holds a reset code, and no stored code is the
    empty string. *)
Theorem reachable_worlds_are_consistent (evs : list Event) (t : Date)
    (rnd : nat -> N) (tr : option (Mail -> bool)) :
  wf_world (run evs (emptyWorld t rnd tr))
  /\ Forall lifecycle_ok (users (run evs (emptyWorld t rnd tr)))
  /\ Forall codes_nonempty (users (run evs (emptyWorld t rnd tr))).
Proof.
  unfold run.
  assert (wf_world (emptyWorld t rnd tr)
          /\ Forall lifecycle_ok (users (emptyWorld t rnd tr))
          /\ Forall codes_nonempty (users (emptyWorld t rnd tr))) as Hinit.
  { repeat split; simpl; constructor. }
  revert Hinit. generalize (emptyWorld t rnd tr).
  induction evs as [|ev evs IH]; intros w Hw; simpl; [exact Hw|].
  apply IH. destruct Hw as (Hwf & Hall & Hcodes).
  destruct ev as [r|t'|tr']; simpl.
  - split; [now apply serve_preserves_wf|].
    split; [|now apply serve_preserves_codes].
    clear Hwf Hcodes.
    destruct r; simpl; open_service; case_tests; lifecycle_after_call.
  - split; [exact Hwf|]. split; [exact Hall|exact Hcodes].
  - split; [exact Hwf|]. split; [exact Hall|exact Hcodes].
Qed.

(** *** Lemmas for sequences of calls *)

Lemma find_unique_by_email (f : User -> bool) (x : User) (l : list User) :
  NoDup (map email l) -> In x l -> f x = true ->
  (forall y, f y = true -> email y = email x) ->
  find f l = Some x.
Proof.
  intros Hnd Hin Hfx Hmail.
  destruct (find f l) as [y|] eqn:Hy.
  - apply find_some in Hy as [Hiny Hfy]. f_equal.
    apply (NoDup_map_eq email l); auto.
  - apply (find_none _ _ Hy) in Hin. congruence.
Qed.

(** After the save of a successor of [u], the query by the address of
    [u] finds the successor. *)
Lemma find_by_email_after_save (u u' : User) (l : list User) :
  NoDup (map _id l) -> NoDup (map email l) -> In u l ->
  _id u' = _id u -> email u' = email u ->
  find (has_email (email u)) (updateOne u' l) = Some u'.
Proof.
  intros Hids Hemails Hin Hid Hmail. rewrite <- Hmail.
  apply find_by_email_unique.
  - now rewrite (map_email_updateOne u).
  - now apply (in_updateOne_self u' u).
Qed.

Lemma wf_store_users (l : list User) (n m : ObjectId) :
  wf_store l n -> NoDup (map _id l) /\ NoDup (map email l).
Proof. intros (Hids & Hemails & _). now split. Qed.

Lemma login_success (w : World) (email_ password_ : string) (u : User) :
  find (has_email email_) (users w) = Some u ->
  isEmailVerified u = true ->
  comparePassword u password_ = true ->
  login email_ password_ w
  = (Returned (authResponse (with_lastLogin (Some (clock w)) u)
                 (sign_access (createJWTPayload u) (clock w),
                  sign_refresh (createJWTPayload u) (clock w))),
     with_users (updateOne (with_lastLogin (Some (clock w)) u) (users w)) w).
Proof.
  intros Hfind Hver Hcmp. unfold login. run_call. rewrite Hfind, Hver. simpl.
  unfold comparePassword in Hcmp. now rewrite Hcmp.
Qed.

Lemma register_stores_hash (w w1 : World) (name_ email_ password_ msg : string)
    (newId : ObjectId) :
  wf_world w ->
  register name_ email_ password_ w = (Returned (msg, newId), w1) ->
  exists u,
    find (has_id newId) (users w1) = Some u
    /\ _id u = newId
    /\ email u = email_
    /\ password u = bcrypt_hash password_
    /\ isEmailVerified u = false
    /\ emailVerificationCode u = Some (nextCode w)
    /\ emailVerificationExpires u = Some (clock w + codeWindow).
Proof.
  intros (Hids & Hemails & Hbelow) Hreg.
  destruct (register_returned_inv _ _ _ _ _ _ _ Hreg)
    as (_ & _ & _ & [(existing & Hfind & Hver & -> & Husers)
                    | (Hfind & _ & -> & Husers)]).
  - apply find_some in Hfind as [Hin Hmail]. apply has_email_true in Hmail.
    destruct (find_id_of_member _ _ Hin) as (v & Hv).
    exists (reregistered w name_ password_ existing). rewrite Husers.
    split; [|repeat split; simpl; auto].
    now apply (find_updateOne_id _ v).
  - exists (registered w name_ email_ password_). rewrite Husers.
    split; [|repeat split; reflexivity].
    apply (find_id_appended (registered w name_ email_ password_)). exact Hbelow.
Qed.

Lemma login_unknown_address (w : World) (email_ password_ : string) :
  find (has_email email_) (users w) = None ->
  login email_ password_ w
  = (Raised (ThrownApp (mkAppError "Invalid email or password" 401)), w).
Proof. intros Hnone. unfold login. run_call. now rewrite Hnone. Qed.

(** *** Logging in *)

(** X5. [login] gives one and the same answer, "Invalid email or
    password" with status 401, when no record holds the address and
    when a verified record holds it but the password does not match;
    in both cases nothing is written. *)
Theorem login_rejections_indistinguishable (w : World) (email_ password_ : string) :
  find (has_email email_) (users w) = None
  \/ (exists u,
        find (has_email email_) (users w) = Some u
        /\ isEmailVerified u = true
        /\ comparePassword u password_ = false) ->
  login email_ password_ w
  = (Raised (ThrownApp (mkAppError "Invalid email or password" 401)), w).
Proof.
  intros [Hnone | (u & Hfind & Hver & Hcmp)]; unfold login; run_call.
  - now rewrite Hnone.
  - rewrite Hfind, Hver. simpl. unfold comparePassword in Hcmp. now rewrite Hcmp.
Qed.

(** X6. Register, verify, log in. If bcrypt accepts every password
    against its own hash, then after a successful [register] and a
    [verifyEmail] with the issued code before its expiry, [login] with
    the registered address and password succeeds: it returns the id
    that [register] returned and tokens signed over a payload carrying
    that id and that address. *)
Theorem register_verify_login (w w1 : World)
    (name_ email_ password_ msg : string) (newId : ObjectId) :
  (forall p, bcrypt_compare p (bcrypt_hash p) = true) ->
  wf_world w ->
  register name_ email_ password_ w = (Returned (msg, newId), w1) ->
  forall w2,
    users w2 = users w1 ->
    clock w2 < clock w + codeWindow ->
    exists resp w3,
      verifyEmail newId (nextCode w) w2 = (Returned resp, w3)
      /\ forall w4,
           users w4 = users w3 ->
           exists resp' w5 payload,
             login email_ password_ w4 = (Returned resp', w5)
             /\ view_id (user resp') = newId
             /\ view_email (user resp') = email_
             /\ token resp' = sign_access payload (clock w4)
             /\ refreshToken_ resp' = sign_refresh payload (clock w4)
             /\ userId payload = newId
             /\ payload_email payload = email_.
Proof.
  intros Hlaw Hwf Hreg w2 Husers2 Hbefore.
  assert (wf_world w1) as Hwf1.
  { pose proof (serve_preserves_wf (Register name_ email_ password_) w Hwf) as H.
    simpl in H. now rewrite Hreg in H. }
  destruct (wf_store_users _ _ 0%N Hwf1) as (Hids1 & Hemails1).
  destruct (register_stores_hash _ _ _ _ _ _ _ Hwf Hreg)
    as (u & Hfind & Hid & Hmail & Hpw & Hver & Hcode & Hexp).
  assert (find (has_id newId) (users w2) = Some u) as Hfind2 by (now rewrite Husers2).
  destruct (verifyEmail_success w2 newId u (nextCode w) (clock w + codeWindow)
              Hfind2 Hver Hcode (nextCode_nonempty w) Hexp ltac:(lia))
    as (w3 & Hrun & Husers3 & _).
  eexists _, w3. split; [exact Hrun|].
  intros w4 Husers4.
  set (v := verified_user (clock w2) u) in *.
  assert (find (has_email email_) (users w4) = Some v) as Hfind4.
  { rewrite Husers4, Husers3, Husers2, <- Hmail.
    apply find_some in Hfind as [Hin _].
    now apply find_by_email_after_save. }
  assert (comparePassword v password_ = true) as Hcmp.
  { unfold comparePassword. simpl. rewrite Hpw. apply Hlaw. }
  rewrite (login_success w4 email_ password_ v Hfind4 eq_refl Hcmp).
  eexists _, _, (createJWTPayload v). split; [reflexivity|].
  repeat split; simpl; auto.
Qed.

(** *** Replacing a verification code *)


(** *** Resetting and changing the password *)

Lemma resetPassword_success (w : World) (email_ code newPassword : string) (u : User) :
  find (resetFilter email_ code (clock w)) (users w) = Some u ->
  schemaAcceptsPassword newPassword ->
  resetPassword email_ code newPassword w
  = (Returned (authResponse (reset_user w newPassword u)
                 (sign_access (createJWTPayload u) (clock w),
                  sign_refresh (createJWTPayload u) (clock w))),
     with_users (updateOne (reset_user w newPassword u) (users w)) w).
Proof.
  intros Hfind Hpassword. unfold schemaAcceptsPassword in Hpassword.
  unfold resetPassword. run_call. rewrite Hfind. simpl. accept_paths.
  reflexivity.
Qed.

(** With an accepted code and a new password that the schema refuses,
    [resetPassword] throws the [ValidationError] of the save. *)
Lemma resetPassword_refused_by_schema (w : World) (email_ code newPassword : string)
    (u : User) :
  find (resetFilter email_ code (clock w)) (users w) = Some u ->
  (String.length newPassword < 6)%nat ->
  exists e,
    resetPassword email_ code newPassword w = (Raised (ThrownValidation [e]), w)
    /\ path e = "password".
Proof.
  intros Hfind Hshort. unfold resetPassword. run_call. rewrite Hfind. simpl.
  match goal with
  | |- context [validatePath path_password ?d] =>
      destruct (validatePath_password_short d) as (e & -> & Hpath);
      [simpl; exact Hshort|]
  end.
  simpl. eauto.
Qed.

(** X8. The pre-check and the reset agree on the code: at one instant
    and on one collection, [resetPassword] succeeds exactly when
    [verifyResetCode] accepts the address and code and the new password
    has the six code units the schema asks for. With an accepted code
    and a shorter password [resetPassword] throws the [ValidationError]
    of the save, and the world, the reset code included, is as before
    the call. *)
Theorem verifyResetCode_predicts_resetPassword
    (w : World) (email_ code newPassword : string) :
  ((exists resp w', resetPassword email_ code newPassword w = (Returned resp, w'))
   <-> verifyResetCode email_ code w = (Returned "Reset code verified successfully", w)
       /\ (6 <= String.length newPassword)%nat)
  /\ (verifyResetCode email_ code w = (Returned "Reset code verified successfully", w) ->
      (String.length newPassword < 6)%nat ->
      exists e,
        resetPassword email_ code newPassword w = (Raised (ThrownValidation [e]), w)
        /\ path e = "password").
Proof.
  assert (forall u, find (resetFilter email_ code (clock w)) (users w) = Some u ->
                    verifyResetCode email_ code w
                    = (Returned "Reset code verified successfully", w)) as Hverify.
  { intros u Hfind. unfold verifyResetCode. run_call. now rewrite Hfind. }
  destruct (find (resetFilter email_ code (clock w)) (users w)) as [u|] eqn:Hfind.
  - split.
    + split.
      * intros (resp & w' & Hrun). split; [now apply (Hverify u)|].
        destruct (Nat.le_gt_cases 6 (String.length newPassword)) as [Hlong|Hshort];
          [exact Hlong|exfalso].
        destruct (resetPassword_refused_by_schema w email_ code newPassword u
                    Hfind Hshort) as (e & Hrefused & _).
        rewrite Hrefused in Hrun. discriminate Hrun.
      * intros [_ Hlong].
        rewrite (resetPassword_success _ _ _ _ _ Hfind Hlong). eauto.
    + intros _ Hshort.
      exact (resetPassword_refused_by_schema w email_ code newPassword u Hfind Hshort).
  - destruct (reset_code_rejected w email_ code Hfind) as (Hreset & Hrejected).
    rewrite Hrejected, Hreset. split.
    + split; [intros (resp & w' & H); discriminate H|intros [H _]; discriminate H].
    + intros H. discriminate H.
Qed.

(** X9. Forgot, reset, log in. If bcrypt accepts every password against
    its own hash, then for a verified account [forgotPassword] stores a
    reset code; before its expiry [verifyResetCode] accepts that code
    and [resetPassword] with it and a new password of at least six
    code units succeeds, clears the pair and stores the hash of the new
    password, after which [login] with the new password succeeds for
    the same account. *)
Theorem forgot_reset_login (w : World) (u : User) (newPassword : string) :
  (forall p, bcrypt_compare p (bcrypt_hash p) = true) ->
  wf_world w ->
  In u (users w) ->
  isEmailVerified u = true ->
  (6 <= String.length newPassword)%nat ->
  exists w1,
    forgotPassword (email u) w = (Returned forgotPasswordMessage, w1)
    /\ forall w2,
         users w2 = users w1 ->
         clock w2 < clock w + codeWindow ->
         verifyResetCode (email u) (nextCode w) w2
         = (Returned "Reset code verified successfully", w2)
         /\ exists resp w3 v,
              resetPassword (email u) (nextCode w) newPassword w2 = (Returned resp, w3)
              /\ find (has_id (_id u)) (users w3) = Some v
              /\ password v = bcrypt_hash newPassword
              /\ passwordResetCode v = None
              /\ passwordResetExpires v = None
              /\ forall w4,
                   users w4 = users w3 ->
                   exists resp' w5,
                     login (email u) newPassword w4 = (Returned resp', w5)
                     /\ view_id (user resp') = _id u.
Proof.
  intros Hlaw (Hids & Hemails & _) Hin Hver Hlong.
  pose proof (find_by_email_unique u _ Hemails Hin) as Hfind.
  assert (exists w1,
            forgotPassword (email u) w = (Returned forgotPasswordMessage, w1)
            /\ users w1 = updateOne (reset_requested w u) (users w))
    as (w1 & Hrun & Husers).
  { unfold forgotPassword, generateVerificationCode. run_call.
    rewrite Hfind, Hver. unfold sendEmail. simpl.
    destruct (transporter w) as [sendMail|]; simpl.
    - destruct (sendMail _); simpl; eexists; split; reflexivity.
    - eexists; split; reflexivity. }
  exists w1. split; [exact Hrun|].
  intros w2 Husers2 Hbefore.
  set (r := reset_requested w u) in *.
  assert (NoDup (map _id (users w2))) as Hids2.
  { rewrite Husers2, Husers. now rewrite map_id_updateOne. }
  assert (NoDup (map email (users w2))) as Hemails2.
  { rewrite Husers2, Husers. now rewrite (map_email_updateOne u). }
  assert (In r (users w2)) as Hinr.
  { rewrite Husers2, Husers. now apply (in_updateOne_self r u). }
  assert (find (resetFilter (email u) (nextCode w) (clock w2)) (users w2) = Some r)
    as Hfind2.
  { apply find_unique_by_email; auto.
    - unfold resetFilter. simpl.
      assert (has_email (email u) r = true) as -> by (now apply has_email_true).
      rewrite String.eqb_refl. simpl. now apply Z.ltb_lt.
    - intros y Hy. now apply (resetFilter_email _ (nextCode w) (clock w2)). }
  split.
  - unfold verifyResetCode. run_call. now rewrite Hfind2.
  - rewrite (resetPassword_success _ _ _ newPassword _ Hfind2 Hlong).
    set (v := reset_user w2 newPassword r).
    eexists _, _, v. split; [reflexivity|]. simpl.
    assert (find (has_id (_id u)) (updateOne v (users w2)) = Some v) as Hfindv.
    { destruct (find_id_of_member _ _ Hinr) as (x & Hx).
      now apply (find_updateOne_id _ x). }
    repeat (split; [first [assumption | reflexivity]|]).
    intros w4 Husers4.
    assert (find (has_email (email u)) (users w4) = Some v) as Hfind4.
    { rewrite Husers4. simpl.
      now apply (find_by_email_after_save r v). }
    assert (comparePassword v newPassword = true) as Hcmp.
    { unfold comparePassword. simpl. apply Hlaw. }
    rewrite (login_success w4 (email u) newPassword v Hfind4 Hver Hcmp).
    eexists _, _. split; reflexivity.
Qed.

(** X10. If bcrypt accepts every password against its own hash, then
    [changePassword] with the right current password and a new
    password of at least six code units (any such string other than
    the stored hash itself) succeeds and stores the hash of the new
    password; the other fields of the record stay, and [login] with the
    new password then succeeds for a verified account. With a new
    password of fewer than six code units the call throws the
    [ValidationError] of the save instead and the world is as before:
    the old password still stands. *)
Theorem changePassword_then_login (w : World) (i : ObjectId) (u : User)
    (currentPassword newPassword : string) :
  (forall p, bcrypt_compare p (bcrypt_hash p) = true) ->
  wf_world w ->
  find (has_id i) (users w) = Some u ->
  isEmailVerified u = true ->
  comparePassword u currentPassword = true ->
  newPassword <> password u ->
  ((6 <= String.length newPassword)%nat ->
   changePassword i currentPassword newPassword w
   = (Returned tt,
      with_users (updateOne (with_password (bcrypt_hash newPassword) u) (users w)) w)
   /\ forall w2,
        users w2 = updateOne (with_password (bcrypt_hash newPassword) u) (users w) ->
        exists resp w3,
          login (email u) newPassword w2 = (Returned resp, w3)
          /\ view_id (user resp) = _id u)
  /\ ((String.length newPassword < 6)%nat ->
      (exists e,
         changePassword i currentPassword newPassword w
         = (Raised (ThrownValidation [e]), w)
         /\ path e = "password")
      /\ exists resp w3,
           login (email u) currentPassword w = (Returned resp, w3)
           /\ view_id (user resp) = _id u).
Proof.
  intros Hlaw (Hids & Hemails & _) Hfind Hver Hcmp Hneq.
  assert (String.eqb (password u) newPassword = false) as Hmodified.
  { apply String.eqb_neq. congruence. }
  split.
  - intros Hlong. split.
    + unfold changePassword. run_call. rewrite Hfind.
      unfold comparePassword in Hcmp. rewrite Hcmp. simpl.
      rewrite Hmodified. simpl. accept_paths. reflexivity.
    + intros w2 Husers2.
      set (v := with_password (bcrypt_hash newPassword) u) in *.
      apply find_some in Hfind as [Hin _].
      assert (find (has_email (email u)) (users w2) = Some v) as Hfind2.
      { rewrite Husers2. now apply find_by_email_after_save. }
      assert (comparePassword v newPassword = true) as Hcmpv.
      { unfold comparePassword. simpl. apply Hlaw. }
      rewrite (login_success w2 (email u) newPassword v Hfind2 Hver Hcmpv).
      eexists _, _. split; reflexivity.
  - intros Hshort. split.
    + unfold changePassword. run_call. rewrite Hfind.
      pose proof Hcmp as Hcmp'. unfold comparePassword in Hcmp'. rewrite Hcmp'. simpl.
      rewrite Hmodified. simpl.
      match goal with
      | |- context [validatePath path_password ?d] =>
          destruct (validatePath_password_short d) as (e & -> & Hpath);
          [simpl; exact Hshort|]
      end.
      simpl. eauto.
    + apply find_some in Hfind as [Hin _].
      pose proof (find_by_email_unique u _ Hemails Hin) as Hfindu.
      rewrite (login_success w (email u) currentPassword u Hfindu Hver Hcmp).
      eexists _, _. split; reflexivity.
Qed.

(** *** Deleting an account *)

Lemma find_id_deleteOne (i : ObjectId) (l : list User) :
  NoDup (map _id l) -> find (has_id i) (deleteOne i l) = None.
Proof.
  intros Hnd. induction l as [|v r IH]; simpl; [reflexivity|].
  inversion Hnd as [|? ? Hnotin Hnd']; subst.
  destruct (has_id i v) eqn:Ev; simpl.
  - apply has_id_true in Ev.
    destruct (find (has_id i) r) as [x|] eqn:Hx; [exfalso|reflexivity].
    apply find_some in Hx as [Hinx Hidx]. apply has_id_true in Hidx.
    apply Hnotin. rewrite Ev, <- Hidx. now apply in_map.
  - rewrite Ev. now apply IH.
Qed.

Lemma in_deleteOne_other (i : ObjectId) (l : list User) (v : User) :
  In v l -> _id v <> i -> In v (deleteOne i l).
Proof.
  intros Hin Hneq. induction l as [|x r IH]; simpl in *; [contradiction|].
  destruct (has_id i x) eqn:Ex.
  - destruct Hin as [->|Hin]; [|assumption].
    apply has_id_true in Ex. contradiction.
  - destruct Hin as [->|Hin]; [now left|right; now apply IH].
Qed.

(** X11. [deleteAccount] with the right password removes the record
    and nothing else: afterwards [getProfile] for that id answers
    404, [login] with the deleted address answers "Invalid email or
    password" for every password, and every other record is still
    there. With a wrong password it answers "Password is incorrect"
    with status 400 and removes nothing. *)
Theorem deleteAccount_removes_only_that_record (w : World) (i : ObjectId) (u : User)
    (password_ : string) :
  wf_world w ->
  find (has_id i) (users w) = Some u ->
  (comparePassword u password_ = false ->
   deleteAccount i password_ w
   = (Raised (ThrownApp (mkAppError "Password is incorrect" 400)), w))
  /\ (comparePassword u password_ = true ->
      deleteAccount i password_ w
      = (Returned tt, with_users (deleteOne i (users w)) w)
      /\ (forall v, In v (users w) -> _id v <> i -> In v (deleteOne i (users w)))
      /\ forall w2,
           users w2 = deleteOne i (users w) ->
           getProfile i w2
           = (Raised (ThrownApp (mkAppError "User not found" 404)), w2)
           /\ forall p,
                login (email u) p w2
                = (Raised (ThrownApp (mkAppError "Invalid email or password" 401)), w2)).
Proof.
  intros (Hids & Hemails & _) Hfind. split; intros Hcmp.
  - unfold deleteAccount. run_call. rewrite Hfind.
    unfold comparePassword in Hcmp. now rewrite Hcmp.
  - split; [|split].
    + unfold deleteAccount. run_call. rewrite Hfind.
      unfold comparePassword in Hcmp. now rewrite Hcmp.
    + intros v Hv Hneq. now apply in_deleteOne_other.
    + intros w2 Husers2. split.
      * unfold getProfile. run_call. rewrite Husers2.
        now rewrite (find_id_deleteOne i _ Hids).
      * intros p. apply login_unknown_address.
        rewrite Husers2.
        destruct (find (has_email (email u)) (deleteOne i (users w))) as [x|] eqn:Hx;
          [exfalso|reflexivity].
        apply find_some in Hx as [Hinx Hmailx]. apply has_email_true in Hmailx.
        pose proof (deleteOne_incl _ _ _ Hinx) as Hinx'.
        apply find_some in Hfind as [Hin Hid]. apply has_id_true in Hid.
        assert (x = u) as -> by (now apply (NoDup_map_eq email (users w))).
        pose proof (find_id_deleteOne i _ Hids) as Hnone.
        apply (find_none _ _ Hnone) in Hinx.
        assert (has_id i u = true) by (now apply has_id_true). congruence.
Qed.

End FurtherProperties.

(** ** Properties of the request authentication *)

Lemma substring_all (s : string) : String.substring 0 (String.length s) s = s.
Proof. induction s as [|c r IH]; simpl; [reflexivity|now rewrite IH]. Qed.

Lemma extractTokenFromHeader_bearer (t : string) :
  extractTokenFromHeader (Some ("Bearer " ++ t)) = Some t.
Proof.
  unfold extractTokenFromHeader.
  change (String.eqb ("Bearer " ++ t) "") with false.
  assert (String.prefix "Bearer " ("Bearer " ++ t) = true) as ->.
  { simpl. now destruct t. }
  cbn. rewrite Nat.sub_0_r. now rewrite substring_all.
Qed.

(** X13. [extractTokenFromHeader] undoes the Bearer scheme: from the
    header ["Bearer " ++ t] it returns [t], for every [t]; a non-empty
    header that does not start with ["Bearer "] is returned as it is;
    a missing or empty header gives nothing. *)
Theorem extractTokenFromHeader_cases :
  (forall t, extractTokenFromHeader (Some ("Bearer " ++ t)) = Some t)
  /\ (forall h,
        h <> "" -> String.prefix "Bearer " h = false ->
        extractTokenFromHeader (Some h) = Some h)
  /\ extractTokenFromHeader None = None
  /\ extractTokenFromHeader (Some "") = None.
Proof.
  repeat split.
  - apply extractTokenFromHeader_bearer.
  - intros h Hne Hprefix. unfold extractTokenFromHeader.
    apply String.eqb_neq in Hne. now rewrite Hne, Hprefix.
Qed.

Section MiddlewareProperties.

Context {hasher : Bcrypt} {signer : Jwt} {verifier : AccessVerifier}.

Lemma protect_pass_inv (authorization : option string) (w : World) (u : User) :
  protect authorization w = Pass (Some u) ->
  exists tok p,
    extractTokenFromHeader authorization = Some tok
    /\ tok <> ""
    /\ verify_access tok (clock w) = JwtValid p
    /\ find (has_id (id p)) (users w) = Some u.
Proof.
  unfold protect, verifyAccessToken.
  destruct (extractTokenFromHeader authorization) as [tok|]; [|discriminate].
  destruct (String.eqb tok "") eqn:Hempty; [discriminate|].
  apply String.eqb_neq in Hempty.
  destruct (verify_access tok (clock w)) as [p| | |] eqn:Hverify; simpl;
    try (intros H; discriminate H).
  destruct (find (has_id (id p)) (users w)) as [x|] eqn:Hfind; [|discriminate].
  intros H. injection H as ->. exists tok, p. auto.
Qed.

(** X14. [protect] lets a request through only with a user attached,
    and then the header carries a non-empty token that verifies at
    that instant to a payload whose id names that stored user; every
    answer it gives itself has status 401. *)
Theorem protect_passes_only_known_users (authorization : option string) (w : World) :
  match protect authorization w with
  | Pass (Some u) =>
      exists tok p,
        extractTokenFromHeader authorization = Some tok
        /\ tok <> ""
        /\ verify_access tok (clock w) = JwtValid p
        /\ find (has_id (id p)) (users w) = Some u
  | Pass None => False
  | Reject status _ _ => status = 401
  end.
Proof.
  unfold protect, verifyAccessToken.
  destruct (extractTokenFromHeader authorization) as [tok|]; [|reflexivity].
  destruct (String.eqb tok "") eqn:Hempty; [reflexivity|].
  apply String.eqb_neq in Hempty.
  destruct (verify_access tok (clock w)) as [p| | |] eqn:Hverify; simpl;
    try reflexivity.
  destruct (find (has_id (id p)) (users w)) as [u|] eqn:Hfind; [|reflexivity].
  exists tok, p. auto.
Qed.

(** X15. [optionalAuth] never answers a request itself, and it attaches
    a user exactly when [protect] would let the same request through,
    the same user. *)
Theorem optionalAuth_attaches_what_protect_passes
    (authorization : option string) (w : World) :
  optionalAuth authorization w
  = Pass match protect authorization w with
         | Pass attached => attached
         | Reject _ _ _ => None
         end.
Proof.
  unfold optionalAuth, protect, verifyAccessToken.
  destruct (extractTokenFromHeader authorization) as [tok|]; [|reflexivity].
  destruct (String.eqb tok ""); [reflexivity|].
  destruct (verify_access tok (clock w)) as [p| | |]; simpl; try reflexivity.
  now destruct (find (has_id (id p)) (users w)).
Qed.

Lemma keeps_ids_refl (l : list User) : keeps_ids l l.
Proof. intros i u H. eauto. Qed.

Lemma keeps_ids_updateOne (u' : User) (l : list User) : keeps_ids l (updateOne u' l).
Proof.
  intros i u Hfind. induction l as [|v r IH]; simpl in *; [discriminate|].
  destruct (has_id (_id u') v) eqn:Ev; simpl.
  - destruct (has_id i v) eqn:Eiv.
    + apply has_id_true in Ev. apply has_id_true in Eiv.
      assert (has_id i u' = true) as -> by (apply has_id_true; congruence).
      eauto.
    + destruct (has_id i u'); eauto.
  - destruct (has_id i v); eauto.
Qed.

Lemma keeps_ids_append (x : User) (l : list User) : keeps_ids l (l ++ [x]).
Proof.
  intros i u Hfind. exists u.
  induction l as [|v r IH]; simpl in *; [discriminate|].
  destruct (has_id i v); auto.
Qed.

Lemma serve_keeps_ids (r : Request) (w : World) :
  (forall i p, r <> DeleteAccount i p) ->
  keeps_ids (users w) (users (serve r w)) /\ clock (serve r w) = clock w.
Proof.
  intros Hnot.
  destruct r; simpl;
    try (exfalso; eapply Hnot; reflexivity);
    open_service; case_tests; split;
    first [ reflexivity
          | apply keeps_ids_refl
          | apply keeps_ids_updateOne
          | apply keeps_ids_append ].
Qed.

(** X16. No call of the service other than the deletion of the account
    takes an access token out of use: if [protect] lets a request
    through before the call, it lets the same request through right
    after it, for the same account. In particular a change or a reset
    of the password leaves the tokens issued before it usable. *)
Theorem tokens_survive_every_call_but_deletion
    (authorization : option string) (w : World) (u : User) (r : Request) :
  (forall i p, r <> DeleteAccount i p) ->
  protect authorization w = Pass (Some u) ->
  exists u',
    protect authorization (serve r w) = Pass (Some u') /\ _id u' = _id u.
Proof.
  intros Hnot Hpass.
  destruct (serve_keeps_ids r w Hnot) as [Hkeeps Hclock].
  destruct (protect_pass_inv _ _ _ Hpass) as (tok & p & Htok & Hne & Hverify & Hfind).
  destruct (Hkeeps _ _ Hfind) as (u' & Hfind').
  exists u'. split.
  - unfold protect, verifyAccessToken. rewrite Htok.
    apply String.eqb_neq in Hne. rewrite Hne, Hclock, Hverify. simpl.
    now rewrite Hfind'.
  - apply find_some in Hfind as [_ Hid]. apply find_some in Hfind' as [_ Hid'].
    apply has_id_true in Hid. apply has_id_true in Hid'. congruence.
Qed.

(** X17. After [deleteAccount] has succeeded, [protect] answers every
    request whose token names the deleted id with 401, "Access denied.
    User not found.", however valid the token still is. *)
Theorem protect_rejects_deleted_account
    (w : World) (i : ObjectId) (u : User) (password_ tok : string) (p : JWTPayload) :
  wf_world w ->
  find (has_id i) (users w) = Some u ->
  comparePassword u password_ = true ->
  tok <> "" ->
  verify_access tok (clock w) = JwtValid p ->
  id p = i ->
  protect (Some ("Bearer " ++ tok)) (snd (deleteAccount i password_ w))
  = Reject 401 "Access denied. User not found." None.
Proof.
  intros (Hids & _) Hfind Hcmp Hne Hverify Hid.
  assert (deleteAccount i password_ w
          = (Returned tt, with_users (deleteOne i (users w)) w)) as ->.
  { unfold deleteAccount. run_call. rewrite Hfind.
    unfold comparePassword in Hcmp. now rewrite Hcmp. }
  unfold protect, verifyAccessToken.
  rewrite (extractTokenFromHeader_bearer tok).
  apply String.eqb_neq in Hne. rewrite Hne. simpl. rewrite Hverify, Hid.
  now rewrite (find_id_deleteOne i _ Hids).
Qed.

End MiddlewareProperties.

(** X18. [requirePlan] follows the hierarchy free < pro < premium: an
    authenticated user passes the gate of a plan exactly when the
    user's plan is that plan or a higher one, and is answered 403
    otherwise; so whoever passes a gate passes every lower gate, a
    premium user passes every gate and everyone passes the free gate. *)
Theorem requirePlan_follows_hierarchy (u : User) (requiredPlan : Plan) :
  (requirePlan requiredPlan (Some u) = Pass (Some u)
   <-> planHierarchy requiredPlan <= planHierarchy (plan u))
  /\ (planHierarchy (plan u) < planHierarchy requiredPlan ->
      exists msg, requirePlan requiredPlan (Some u) = Reject 403 msg None)
  /\ (forall lower,
        requirePlan requiredPlan (Some u) = Pass (Some u) ->
        planHierarchy lower <= planHierarchy requiredPlan ->
        requirePlan lower (Some u) = Pass (Some u))
  /\ (plan u = premium -> requirePlan requiredPlan (Some u) = Pass (Some u))
  /\ requirePlan free (Some u) = Pass (Some u).
Proof.
  assert (forall q,
            requirePlan q (Some u) = Pass (Some u)
            <-> planHierarchy q <= planHierarchy (plan u)) as Hiff.
  { intros q. unfold requirePlan.
    destruct (planHierarchy (plan u) <? planHierarchy q) eqn:Hlt.
    - apply Z.ltb_lt in Hlt. split; [discriminate|lia].
    - apply Z.ltb_ge in Hlt. split; [auto|reflexivity]. }
  split; [apply Hiff|]. split; [|split; [|split]].
  - intros Hlt. unfold requirePlan. apply Z.ltb_lt in Hlt. rewrite Hlt. eauto.
  - intros lower Hpass Hle. apply Hiff. apply Hiff in Hpass. lia.
  - intros Hprem. apply Hiff. rewrite Hprem. destruct requiredPlan; simpl; lia.
  - apply Hiff. destruct (plan u); simpl; lia.
Qed.

(** ** Properties of the controllers and the error handler *)

Section ControllerProperties.

Context {hasher : Bcrypt} {signer : Jwt}.

(** X19. Whatever the route, the input and the mode, the answer has
    status 200, 201, 400, 401, 404 or 500 (never 403 or 409); its
    [success] flag is true exactly for 200 and 201; and 201 is only
    ever the answer of [register]. *)
Theorem respond_statuses (development : bool) (rt : Route) (w : World) :
  let r := fst (respond development rt w) in
  In (http_status r) [200; 201; 400; 401; 404; 500]
  /\ (http_success r = true <-> http_status r = 200 \/ http_status r = 201)
  /\ (http_status r = 201 -> exists n e p, rt = Api (Register n e p)).
Proof.
  destruct rt as [r|]; [destruct r|]; unfold respond, controller;
    open_service; case_tests; destruct development; simpl;
    (split; [solve [repeat first [left; reflexivity | right]]|]);
    (split;
     [ split;
       [ intros Hs; first [discriminate Hs | left; reflexivity | right; reflexivity]
       | intros [Hs|Hs]; first [reflexivity | discriminate Hs] ]
     | intros Hs; first [discriminate Hs | eauto] ]).
Qed.

(** X20. An operational error of the service reaches the client as it
    was thrown, in both modes: the status and the message of the
    [AppError], [success] false and no data; and the world is as
    before the call. *)
Theorem operational_errors_are_rendered_verbatim
    (development : bool) (r : Request) (w : World) (e : AppError) :
  failure r w = Some (ThrownApp e) ->
  respond development (Api r) w = (mkHttp (statusCode e) false (message e) None, w).
Proof.
  destruct r; unfold failure, thrown, respond, controller; simpl;
    open_service; case_tests; intros Hthrown;
    first [ discriminate Hthrown
          | injection Hthrown as <-; destruct development; reflexivity ].
Qed.

(** X21. A refresh token that does not verify (expired, malformed or
    otherwise refused) is answered with status 500, not 401: the
    helper throws a plain [Error], which in production becomes
    "Something went wrong!" and in development keeps its message.
    Nothing is written. *)
Theorem refresh_with_bad_token_is_answered_500 (tok : string) (w : World) :
  (forall p, verify_refresh tok (clock w) <> JwtValid p) ->
  respond false (Api (RefreshToken tok)) w
  = (mkHttp 500 false "Something went wrong!" None, w)
  /\ exists msg,
       respond true (Api (RefreshToken tok)) w = (mkHttp 500 false msg None, w)
       /\ In msg ["Refresh token expired"; "Invalid refresh token";
                  "Error verifying refresh token"].
Proof.
  intros Hbad. unfold respond, controller, refreshToken. run_call.
  destruct (verify_refresh tok (clock w)) as [p| | |] eqn:Hverify; simpl.
  - exfalso. now apply (Hbad p).
  - split; [reflexivity|]. eexists. split; [reflexivity|]. simpl. auto.
  - split; [reflexivity|]. eexists. split; [reflexivity|]. simpl. auto.
  - split; [reflexivity|]. eexists. split; [reflexivity|]. simpl. auto.
Qed.

(** X29. A new password that the schema refuses is turned away by the
    save, and the error handler answers for it: with an accepted reset
    code and a new password of one to five code units, the route
    answers 400 "Invalid input data: Password must be at least 6
    characters" in production and status 500 in development; with the
    empty password the message names "Password is required". In each
    case the world, the reset code included, is as before. *)
Theorem schema_refusal_is_answered_by_the_handler
    (w : World) (email_ code newPassword : string) (u : User) :
  find (resetFilter email_ code (clock w)) (users w) = Some u ->
  (String.length newPassword < 6)%nat ->
  respond false (Api (ResetPassword email_ code newPassword)) w
  = (mkHttp 400 false
       (if String.eqb newPassword ""
        then "Invalid input data: Password is required"
        else "Invalid input data: Password must be at least 6 characters")
       None, w)
  /\ http_status (fst (respond true (Api (ResetPassword email_ code newPassword)) w)) = 500
  /\ http_success (fst (respond true (Api (ResetPassword email_ code newPassword)) w))
     = false
  /\ snd (respond true (Api (ResetPassword email_ code newPassword)) w) = w.
Proof.
  intros Hfind Hshort. apply Nat.ltb_lt in Hshort.
  unfold respond, controller, resetPassword. run_call. rewrite Hfind. simpl.
  unfold validatePath. simpl.
  destruct (String.eqb newPassword "") eqn:Hempty; simpl.
  - repeat split.
  - rewrite Hshort. simpl. repeat split.
Qed.

End ControllerProperties.

Section ProtectedRoutes.

Context {hasher : Bcrypt} {signer : Jwt} {verifier : AccessVerifier}.

(** X22. Behind [protect], the protected calls find their user: when
    [protect] has let a request through with user [u], at the same
    instant [getProfile] for the id of [u] returns the profile of [u];
    [updateProfile] with a name that the schema accepts stores the
    trimmed name and returns the profile with it, and with any other
    name throws the [ValidationError] of the save and writes nothing;
    and none of [updateProfile], [changePassword] and [deleteAccount]
    answers "User not found". *)
Theorem protected_calls_find_their_user
    (authorization : option string) (w : World) (u : User) :
  protect authorization w = Pass (Some u) ->
  getProfile (_id u) w = (Returned (userProfile u), w)
  /\ (forall name_,
        schemaAcceptsName name_ ->
        updateProfile (_id u) name_ w
        = (Returned (userProfile (with_name name_ u)),
           with_users (updateOne (with_name name_ u) (users w)) w)
        /\ view_name (profile_user (userProfile (with_name name_ u)))
           = stringTrim name_)
  /\ (forall name_,
        ~ schemaAcceptsName name_ ->
        exists e,
          updateProfile (_id u) name_ w = (Raised (ThrownValidation [e]), w)
          /\ path e = "name")
  /\ (forall name_,
        status_of (fst (updateProfile (_id u) name_ w)) <> Some 404)
  /\ (forall currentPassword newPassword,
        status_of (fst (changePassword (_id u) currentPassword newPassword w))
        <> Some 404)
  /\ (forall password_,
        status_of (fst (deleteAccount (_id u) password_ w)) <> Some 404).
Proof.
  intros Hpass.
  destruct (protect_pass_inv _ _ _ Hpass) as (tok & p & _ & _ & _ & Hfind).
  assert (find (has_id (_id u)) (users w) = Some u) as Hfindu.
  { pose proof Hfind as Hfind'. apply find_some in Hfind' as [_ Hid].
    apply has_id_true in Hid. now rewrite Hid. }
  split; [|split; [|split; [|split; [|split]]]].
  - unfold getProfile. run_call. now rewrite Hfindu.
  - intros name_ Hname. unfold schemaAcceptsName in Hname.
    split; [|reflexivity].
    unfold updateProfile. run_call. rewrite Hfindu. simpl. accept_paths.
    reflexivity.
  - intros name_ Hname. unfold schemaAcceptsName in Hname.
    unfold updateProfile. run_call. rewrite Hfindu. simpl.
    match goal with
    | |- context [validatePath path_name ?d] =>
        destruct (validatePath_name_refused d) as (e & -> & Hpath)
    end.
    + simpl.
      destruct (String.eqb_spec (stringTrim name_) "") as [Hempty|Hfull];
        [now left|right].
      destruct (Nat.le_gt_cases (String.length (stringTrim name_)) 50) as [Hle|Hgt];
        [exfalso; apply Hname; now split|exact Hgt].
    + simpl. eauto.
  - intros name_. unfold updateProfile. run_call. rewrite Hfindu. simpl.
    destruct (validatePath path_name _); simpl; discriminate.
  - intros currentPassword newPassword.
    unfold changePassword. run_call. rewrite Hfindu.
    destruct (bcrypt_compare currentPassword (password u)); simpl; [|discriminate].
    destruct (String.eqb (password u) newPassword); simpl; [discriminate|].
    destruct (validatePath path_password _); simpl; discriminate.
  - intros password_. unfold deleteAccount. run_call. rewrite Hfindu.
    destruct (bcrypt_compare password_ (password u)); simpl; discriminate.
Qed.

End ProtectedRoutes.

(** ** Properties of the request validation *)

(** On a code unit below 256 the white space of [stringTrim] is that of
    [trim]. *)
Lemma isWhiteSpaceChar_isWhiteSpace (c : ascii) :
  isWhiteSpaceChar c = isWhiteSpace (N_of_ascii c).
Proof. destruct c as [[] [] [] [] [] [] [] []]; reflexivity. Qed.

Lemma codeUnits_length (s : string) : List.length (codeUnits s) = String.length s.
Proof.
  unfold codeUnits. rewrite length_map.
  induction s as [|c r IH]; simpl; [reflexivity|now rewrite IH].
Qed.

Lemma stringTrimStart_codeUnits (s : string) :
  codeUnits (stringTrimStart s) = trimStart (codeUnits s).
Proof.
  induction s as [|c r IH]; [reflexivity|].
  change (codeUnits (String c r)) with (N_of_ascii c :: codeUnits r).
  simpl. rewrite <- isWhiteSpaceChar_isWhiteSpace.
  destruct (isWhiteSpaceChar c); [exact IH|reflexivity].
Qed.

Lemma trimStart_snoc (l : JsString) (c : N) :
  trimStart (l ++ [c])%list
  = match trimStart l with
    | [] => if isWhiteSpace c then [] else [c]
    | d :: l' => (d :: l' ++ [c])%list
    end.
Proof.
  induction l as [|a l IH]; simpl.
  - now destruct (isWhiteSpace c).
  - destruct (isWhiteSpace a); [exact IH|reflexivity].
Qed.

Lemma trimEnd_cons (c : N) (l : JsString) :
  trimEnd (c :: l)
  = match trimEnd l with
    | [] => if isWhiteSpace c then [] else [c]
    | d :: l' => c :: d :: l'
    end.
Proof.
  unfold trimEnd. simpl List.rev at 2. rewrite trimStart_snoc.
  destruct (trimStart (List.rev l)) as [|d l'] eqn:Hstart.
  - simpl. now destruct (isWhiteSpace c).
  - change (d :: l' ++ [c])%list with ((d :: l') ++ [c])%list.
    rewrite rev_app_distr.
    change (List.rev [c] ++ List.rev (d :: l'))%list with (c :: List.rev (d :: l')).
    destruct (List.rev (d :: l')) as [|e t] eqn:Hrev; [|reflexivity].
    apply (f_equal (@List.length N)) in Hrev. rewrite length_rev in Hrev.
    discriminate Hrev.
Qed.

Lemma stringTrimEnd_codeUnits (s : string) :
  codeUnits (stringTrimEnd s) = trimEnd (codeUnits s).
Proof.
  induction s as [|c r IH]; [reflexivity|].
  change (codeUnits (String c r)) with (N_of_ascii c :: codeUnits r).
  rewrite trimEnd_cons, <- IH. simpl.
  destruct (stringTrimEnd r) as [|d r']; simpl.
  - rewrite <- isWhiteSpaceChar_isWhiteSpace. now destruct (isWhiteSpaceChar c).
  - reflexivity.
Qed.

(** The [trim] of the schema's setter is the [trim] of the request
    validation, read on code units. *)
Lemma stringTrim_codeUnits (s : string) :
  codeUnits (stringTrim s) = trim (codeUnits s).
Proof.
  unfold stringTrim, trim.
  now rewrite stringTrimEnd_codeUnits, stringTrimStart_codeUnits.
Qed.

(** X23. [validatePassword] reports no error exactly for a password of
    6 to 128 code units that holds at least one ASCII letter and at
    least one ASCII digit; for the empty password it reports the one
    error "Password is required". *)
Theorem validatePassword_accepts_iff (password_ : JsString) :
  (validatePassword password_ = []
   <-> (6 <= List.length password_ <= 128)%nat
       /\ existsb isLetter password_ = true
       /\ existsb isDigit password_ = true)
  /\ validatePassword []
     = [ValidationError.make "password" "Password is required"].
Proof.
  split; [|reflexivity].
  destruct password_ as [|c r].
  - simpl. split; [discriminate|]. intros [[H _] _]. lia.
  - unfold validatePassword.
    set (p := c :: r).
    destruct (Nat.ltb_spec (List.length p) 6) as [Hshort|Hlong];
      destruct (Nat.ltb_spec 128 (List.length p)) as [Hbig|Hsmall];
      destruct (existsb isLetter p) eqn:Hletter;
      destruct (existsb isDigit p) eqn:Hdigit; simpl;
      (split;
       [ intros H; first [discriminate H | subst p; simpl in *; repeat split; auto; lia]
       | intros H; first [reflexivity | exfalso; subst p; simpl in *; intuition (lia || discriminate)] ]).
Qed.

(** X24. [validateName] reports no error exactly for a name whose
    trimmed form has 2 to 50 code units, each of them an ASCII letter,
    a white space, an apostrophe or a hyphen. *)
Theorem validateName_accepts_iff (name_ : JsString) :
  validateName name_ = []
  <-> (2 <= List.length (trim name_) <= 50)%nat
      /\ forallb isNameChar (trim name_) = true.
Proof.
  destruct name_ as [|c r].
  - simpl. split; [discriminate|]. intros [[H _] _]. cbn in H. lia.
  - unfold validateName.
    set (t := trim (c :: r)).
    destruct (Nat.eqb_spec (List.length t) 0) as [Hzero|Hpos].
    + split; [discriminate|]. intros [[H _] _]. lia.
    + destruct (Nat.ltb_spec (List.length t) 2) as [Hshort|Hlong];
        destruct (Nat.ltb_spec 50 (List.length t)) as [Hbig|Hsmall];
        destruct (forallb isNameChar t) eqn:Hchars; simpl;
        (split;
         [ intros H; first [discriminate H | repeat split; auto; lia]
         | intros H; first [reflexivity | exfalso; intuition (lia || discriminate)] ]).
Qed.

(** X25. Whatever the input, the result of [sanitizeString] holds
    neither [<] nor [>] and has at most 1000 code units; and an input
    that is already trimmed, free of both characters and no longer
    than 1000 code units comes back unchanged. *)
Theorem sanitizeString_output (input : JsString) :
  Forall (fun c => c <> 60%N /\ c <> 62%N) (sanitizeString input)
  /\ (List.length (sanitizeString input) <= 1000)%nat
  /\ (trim input = input ->
      Forall (fun c => c <> 60%N /\ c <> 62%N) input ->
      (List.length input <= 1000)%nat ->
      sanitizeString input = input).
Proof.
  destruct input as [|c r].
  { simpl. split; [constructor|]. split; [lia|reflexivity]. }
  unfold sanitizeString. set (s := c :: r). repeat split.
  - apply Forall_forall. intros x Hx.
    assert (In x (filter (fun c0 => negb ((c0 =? 60) || (c0 =? 62))%N) (trim s)))
      as Hin.
    { revert Hx. generalize 1000%nat.
      generalize (filter (fun c0 => negb ((c0 =? 60) || (c0 =? 62))%N) (trim s)).
      intros l n. revert l. induction n as [|n IH]; intros [|y l] Hx; simpl in *;
        try contradiction.
      destruct Hx as [->|Hx]; [now left|right; now apply IH]. }
    apply filter_In in Hin as [_ Hkeep].
    apply negb_true_iff, orb_false_iff in Hkeep as [H60 H62].
    apply N.eqb_neq in H60. apply N.eqb_neq in H62. now split.
  - apply firstn_le_length.
  - intros Htrim Hclean Hlen. rewrite Htrim.
    assert (filter (fun c0 => negb ((c0 =? 60) || (c0 =? 62))%N) s = s) as ->.
    { clear Htrim Hlen. induction Hclean as [|y l [H60 H62] Hl IH]; simpl;
        [reflexivity|].
      apply N.eqb_neq in H60. apply N.eqb_neq in H62.
      rewrite H60, H62. simpl. now rewrite IH. }
    now apply firstn_all2.
Qed.

Lemma validateName_bounds (name_ : JsString) :
  validateName name_ = [] -> (2 <= List.length (trim name_) <= 50)%nat.
Proof.
  destruct name_ as [|c r]; [discriminate|].
  unfold validateName. set (t := trim (c :: r)).
  destruct (Nat.eqb_spec (List.length t) 0) as [Hzero|Hpos]; [discriminate|].
  destruct (Nat.ltb_spec (List.length t) 2) as [Hshort|Hlong];
    destruct (Nat.ltb_spec 50 (List.length t)) as [Hbig|Hsmall];
    destruct (forallb isNameChar t); simpl;
    intros H; first [discriminate H | lia].
Qed.

Lemma validatePassword_bounds (password_ : JsString) :
  validatePassword password_ = [] -> (6 <= List.length password_)%nat.
Proof.
  destruct password_ as [|c r]; [discriminate|].
  unfold validatePassword. set (p := c :: r).
  destruct (Nat.ltb_spec (List.length p) 6) as [Hshort|Hlong];
    [intros H; discriminate H|intros _; exact Hlong].
Qed.

(** X30. What the request validators let through, the schema accepts: a
    name without errors from [validateName] passes the [required] and
    [maxlength] validators of the schema once trimmed, a password
    without errors from [validatePassword] passes [minlength], and an
    address that [isValidEmail] accepts passes [match]. So a
    registration that went through [validateRegistration] is never
    turned away by the save. *)
Theorem request_validation_implies_schema (name_ email_ password_ : string) :
  (validateName (codeUnits name_) = [] -> schemaAcceptsName name_)
  /\ (isValidEmail email_ = true -> schemaAcceptsEmail email_)
  /\ (validatePassword (codeUnits password_) = [] -> schemaAcceptsPassword password_).
Proof.
  split; [|split].
  - intros Hvalid. apply validateName_bounds in Hvalid.
    rewrite <- stringTrim_codeUnits, codeUnits_length in Hvalid.
    split; [|lia]. intros Hempty. rewrite Hempty in Hvalid. simpl in Hvalid. lia.
  - intros Hvalid. exact Hvalid.
  - intros Hvalid. apply validatePassword_bounds in Hvalid.
    rewrite codeUnits_length in Hvalid. exact Hvalid.
Qed.

(** X26. The names [isValidPlan] accepts are exactly the three plans of
    the schema, and those [isValidPlatform] accepts exactly its four
    platforms. *)
Theorem valid_names_are_the_schema_enums (s : string) :
  (isValidPlan s = true <-> exists p, planName p = s)
  /\ (isValidPlatform s = true <-> exists p, platformName p = s).
Proof.
  unfold isValidPlan, isValidPlatform. simpl. split; split.
  - intros H. repeat (apply orb_prop in H as [H|H]); try discriminate;
      apply String.eqb_eq in H; subst;
      [exists free | exists pro | exists premium]; reflexivity.
  - intros [[| |] <-]; reflexivity.
  - intros H. repeat (apply orb_prop in H as [H|H]); try discriminate;
      apply String.eqb_eq in H; subst;
      [exists youtube | exists instagram | exists tiktok | exists facebook];
      reflexivity.
  - intros [[| | |] <-]; reflexivity.
Qed.

(** ** Properties of the mails sent *)

Section MailProperties.

Context {hasher : Bcrypt} {signer : Jwt}.

(** X27. With a transport that delivers, the code that is mailed is the
    code that is stored: [forgotPassword] mails the reset code it has
    written to the address and name of the record,
    [resendVerificationCode] does so with the verification code, and
    [register] mails the verification code of the record whose id it
    returns to the address and name it was given. *)
Theorem delivered_code_is_stored_code (w : World) (sendMail : Mail -> bool) :
  transporter w = Some sendMail ->
  (forall m, sendMail m = true) ->
  (forall email_ u,
     find (has_email email_) (users w) = Some u ->
     isEmailVerified u = true ->
     exists w' v,
       forgotPassword email_ w = (Returned forgotPasswordMessage, w')
       /\ outbox w'
          = (outbox w ++ [PasswordResetCodeMail (email u) (name u) (nextCode w)])%list
       /\ find (has_id (_id u)) (users w') = Some v
       /\ passwordResetCode v = Some (nextCode w))
  /\ (forall i u,
        find (has_id i) (users w) = Some u ->
        isEmailVerified u = false ->
        exists w' v,
          resendVerificationCode i w = (Returned registerMessage, w')
          /\ outbox w'
             = (outbox w ++ [VerificationCodeMail (email u) (name u) (nextCode w)])%list
          /\ find (has_id i) (users w') = Some v
          /\ emailVerificationCode v = Some (nextCode w))
  /\ (forall name_ email_ password_ msg newId w',
        wf_world w ->
        register name_ email_ password_ w = (Returned (msg, newId), w') ->
        outbox w'
        = (outbox w ++ [VerificationCodeMail email_ name_ (nextCode w)])%list
        /\ exists v,
             find (has_id newId) (users w') = Some v
             /\ emailVerificationCode v = Some (nextCode w)).
Proof.
  intros Htr Hup. split; [|split].
  - intros email_ u Hfind Hver.
    destruct (find_id_of_member u (users w)) as (x & Hx).
    { now apply find_some in Hfind as [Hin _]. }
    unfold forgotPassword, generateVerificationCode. run_call.
    rewrite Hfind, Hver. unfold sendEmail. simpl. rewrite Htr, Hup. simpl.
    eexists _, _. split; [reflexivity|]. split; [reflexivity|]. simpl.
    split; [now apply (find_updateOne_id _ x)|reflexivity].
  - intros i u Hfind Hver.
    unfold resendVerificationCode, generateVerificationCode. run_call.
    rewrite Hfind, Hver. unfold sendEmail. simpl. rewrite Htr, Hup. simpl.
    eexists _, (code_resent w u).
    split; [reflexivity|]. split; [reflexivity|]. simpl.
    split; [|reflexivity].
    apply (find_updateOne_id _ u); [assumption|].
    apply find_some in Hfind as [_ Hid]. now apply has_id_true in Hid.
  - intros name_ email_ password_ msg newId w' Hwf Hreg.
    split.
    + revert Hreg. unfold register, generateVerificationCode. run_call.
      destruct (find (has_email email_) (users w)) as [existing|]; simpl;
        [destruct (isEmailVerified existing); simpl; [discriminate|]|];
        repeat match goal with
               | |- context [validatePath ?p ?d] =>
                   destruct (validatePath p d); simpl; [|discriminate]
               end;
        unfold sendEmail; simpl; rewrite Htr, Hup; simpl;
        intros H; now injection H as _ _ <-.
    + destruct (register_leaves_pending _ _ _ _ _ _ _ Hwf Hreg)
        as (u & Hfind & _ & _ & _ & Hcode & _).
      eauto.
Qed.

(** X28. A call of the service never takes a mail out of the outbox and
    never adds more than one. *)
Theorem outbox_grows_by_at_most_one (r : Request) (w : World) :
  exists sent,
    outbox (serve r w) = (outbox w ++ sent)%list /\ (List.length sent <= 1)%nat.
Proof.
  destruct r; simpl; open_service; case_tests;
    first [ exists []; split; [now rewrite app_nil_r | simpl; lia]
          | eexists [_]; split; [reflexivity | simpl; lia] ].
Qed.

End MailProperties.

(** ** Sample runs behind the further properties *)

#[local] Existing Instance demoAccess.

Lemma demoBcrypt_accepts_own_hash (p : string) :
  bcrypt_compare p (bcrypt_hash p) = true.
Proof. simpl. apply String.eqb_refl. Qed.

Lemma annPending_lifecycle : Forall lifecycle_ok [annPending].
Proof.
  constructor; [|constructor]. split; simpl; intro H;
    first [discriminate H | split; reflexivity].
Qed.

(** A login with a wrong password throws and leaves the world alone. *)
Lemma failed_call_changes_nothing_witness :
  failure (Login "ann@x.com" "wrong") (demoWorld [annVerified] 5000 None)
  = Some (ThrownApp (mkAppError "Invalid email or password" 401))
  /\ serve (Login "ann@x.com" "wrong") (demoWorld [annVerified] 5000 None)
     = demoWorld [annVerified] 5000 None.
Proof.
  split; [reflexivity|].
  apply (proj1 (failed_call_changes_nothing (hasher := demoBcrypt) (signer := demoJwt)
                  (Login "ann@x.com" "wrong") (demoWorld [annVerified] 5000 None)
                  (ThrownApp (mkAppError "Invalid email or password" 401))
                  eq_refl)).
  intros errors H. discriminate H.
Defined.

(** Ann's record before and after her verification at instant 1000. *)
Lemma surviving_record_keeps_identity_witness :
  In annVerified
    (users (serve (VerifyEmail 1%N "123456") (demoWorld [annPending] 1000 None)))
  /\ same_identity annPending annVerified.
Proof.
  assert (In annVerified
            (users (serve (VerifyEmail 1%N "123456")
                      (demoWorld [annPending] 1000 None)))) as Hin.
  { left. reflexivity. }
  split; [exact Hin|].
  exact (surviving_record_keeps_identity (VerifyEmail 1%N "123456")
           (demoWorld [annPending] 1000 None) annPending annVerified
           (demoWorld_wf_single annPending 1000 None eq_refl)
           (or_introl eq_refl) Hin eq_refl).
Defined.

Lemma serve_preserves_lifecycle_witness :
  Forall lifecycle_ok (users (demoWorld [annPending] 1000 None))
  /\ Forall lifecycle_ok
       (users (serve (VerifyEmail 1%N "123456") (demoWorld [annPending] 1000 None))).
Proof.
  split; [exact annPending_lifecycle|].
  exact (serve_preserves_lifecycle (VerifyEmail 1%N "123456")
           (demoWorld [annPending] 1000 None) annPending_lifecycle).
Defined.

(** An unknown address and a wrong password get the same answer. *)
Lemma login_rejections_indistinguishable_witness :
  login "bob@x.com" "hunter22" (demoWorld [annVerified] 5000 None)
  = (Raised (ThrownApp (mkAppError "Invalid email or password" 401)),
     demoWorld [annVerified] 5000 None)
  /\ login "ann@x.com" "wrong" (demoWorld [annVerified] 5000 None)
     = (Raised (ThrownApp (mkAppError "Invalid email or password" 401)),
        demoWorld [annVerified] 5000 None).
Proof.
  split.
  - exact (login_rejections_indistinguishable (demoWorld [annVerified] 5000 None)
             "bob@x.com" "hunter22" (or_introl eq_refl)).
  - exact (login_rejections_indistinguishable (demoWorld [annVerified] 5000 None)
             "ann@x.com" "wrong"
             (or_intror (ex_intro _ annVerified
                           (conj eq_refl (conj eq_refl eq_refl))))).
Defined.

(** Ann registers at instant 0, verifies at instant 1000 and logs in. *)
Lemma register_verify_login_witness :
  exists resp w3,
    verifyEmail 2%N "123456"
      (with_clock 1000 (snd (register "Ann" "ann@x.com" "Passw0rd" (demoWorld [] 0 None))))
    = (Returned resp, w3)
    /\ forall w4,
         users w4 = users w3 ->
         exists resp' w5 payload,
           login "ann@x.com" "Passw0rd" w4 = (Returned resp', w5)
           /\ view_id (user resp') = 2%N
           /\ view_email (user resp') = "ann@x.com"
           /\ token resp' = sign_access payload (clock w4)
           /\ refreshToken_ resp' = sign_refresh payload (clock w4)
           /\ userId payload = 2%N
           /\ payload_email payload = "ann@x.com".
Proof.
  exact (register_verify_login (demoWorld [] 0 None)
           (snd (register "Ann" "ann@x.com" "Passw0rd" (demoWorld [] 0 None)))
           "Ann" "ann@x.com" "Passw0rd" registerMessage 2%N
           demoBcrypt_accepts_own_hash (demoWorld_wf_empty 0 None) eq_refl
           (with_clock 1000
              (snd (register "Ann" "ann@x.com" "Passw0rd" (demoWorld [] 0 None))))
           eq_refl eq_refl).
Defined.


(** Ann's reset code 654321 with a new password of eleven characters
    and with one of three. *)
Lemma verifyResetCode_predicts_resetPassword_witness :
  verifyResetCode "ann@x.com" "654321" (demoWorld [annResetting] 5000 None)
  = (Returned "Reset code verified successfully", demoWorld [annResetting] 5000 None)
  /\ (exists resp w',
        resetPassword "ann@x.com" "654321" "N3wPassw0rd"
          (demoWorld [annResetting] 5000 None)
        = (Returned resp, w'))
  /\ exists e,
       resetPassword "ann@x.com" "654321" "abc" (demoWorld [annResetting] 5000 None)
       = (Raised (ThrownValidation [e]), demoWorld [annResetting] 5000 None)
       /\ path e = "password".
Proof.
  split; [reflexivity|]. split.
  - apply (proj1 (verifyResetCode_predicts_resetPassword
                    (demoWorld [annResetting] 5000 None)
                    "ann@x.com" "654321" "N3wPassw0rd")).
    split; [reflexivity|simpl; lia].
  - apply (proj2 (verifyResetCode_predicts_resetPassword
                    (demoWorld [annResetting] 5000 None)
                    "ann@x.com" "654321" "abc")).
    + reflexivity.
    + simpl. lia.
Defined.

(** Ann forgets her password at instant 5000. *)
Lemma forgot_reset_login_witness :
  exists w1,
    forgotPassword "ann@x.com" (demoWorld [annVerified] 5000 None)
    = (Returned forgotPasswordMessage, w1)
    /\ forall w2,
         users w2 = users w1 ->
         clock w2 < 5000 + codeWindow ->
         verifyResetCode "ann@x.com" "123456" w2
         = (Returned "Reset code verified successfully", w2)
         /\ exists resp w3 v,
              resetPassword "ann@x.com" "123456" "N3wPassw0rd" w2 = (Returned resp, w3)
              /\ find (has_id 1%N) (users w3) = Some v
              /\ password v = bcrypt_hash "N3wPassw0rd"
              /\ passwordResetCode v = None
              /\ passwordResetExpires v = None
              /\ forall w4,
                   users w4 = users w3 ->
                   exists resp' w5,
                     login "ann@x.com" "N3wPassw0rd" w4 = (Returned resp', w5)
                     /\ view_id (user resp') = 1%N.
Proof.
  exact (forgot_reset_login (demoWorld [annVerified] 5000 None) annVerified
           "N3wPassw0rd" demoBcrypt_accepts_own_hash
           (demoWorld_wf_single annVerified 5000 None eq_refl)
           (or_introl eq_refl) eq_refl
           (schemaAcceptsPassword_of "N3wPassw0rd" eq_refl)).
Defined.

(** Ann changes her password at instant 5000 and logs in with the new
    one at instant 6000; the three characters "abc" are refused. *)
Lemma changePassword_then_login_witness :
  changePassword 1%N "Passw0rd" "N3wPassw0rd" (demoWorld [annVerified] 5000 None)
  = (Returned tt,
     demoWorld [with_password "$2a$10$N3wPassw0rd" annVerified] 5000 None)
  /\ (exists resp w3,
        login "ann@x.com" "N3wPassw0rd"
          (demoWorld [with_password "$2a$10$N3wPassw0rd" annVerified] 6000 None)
        = (Returned resp, w3)
        /\ view_id (user resp) = 1%N)
  /\ exists e,
       changePassword 1%N "Passw0rd" "abc" (demoWorld [annVerified] 5000 None)
       = (Raised (ThrownValidation [e]), demoWorld [annVerified] 5000 None)
       /\ path e = "password".
Proof.
  assert ("N3wPassw0rd" <> password annVerified) as Hneq by discriminate.
  assert ("abc" <> password annVerified) as Hneq' by discriminate.
  pose proof (changePassword_then_login (demoWorld [annVerified] 5000 None) 1%N
                annVerified "Passw0rd" "N3wPassw0rd" demoBcrypt_accepts_own_hash
                (demoWorld_wf_single annVerified 5000 None eq_refl)
                eq_refl eq_refl eq_refl Hneq) as [Hlong _].
  pose proof (changePassword_then_login (demoWorld [annVerified] 5000 None) 1%N
                annVerified "Passw0rd" "abc" demoBcrypt_accepts_own_hash
                (demoWorld_wf_single annVerified 5000 None eq_refl)
                eq_refl eq_refl eq_refl Hneq') as [_ Hshort].
  destruct (Hlong (schemaAcceptsPassword_of "N3wPassw0rd" eq_refl)) as [Hrun Hlogin].
  split; [exact Hrun|]. split.
  - exact (Hlogin (demoWorld [with_password "$2a$10$N3wPassw0rd" annVerified] 6000 None)
             eq_refl).
  - apply Hshort. simpl. lia.
Defined.

Lemma deleteAccount_removes_only_that_record_witness :
  deleteAccount 1%N "wrong" (demoWorld [annVerified] 5000 None)
  = (Raised (ThrownApp (mkAppError "Password is incorrect" 400)),
     demoWorld [annVerified] 5000 None)
  /\ deleteAccount 1%N "Passw0rd" (demoWorld [annVerified] 5000 None)
     = (Returned tt, demoWorld [] 5000 None)
  /\ login "ann@x.com" "Passw0rd" (demoWorld [] 6000 None)
     = (Raised (ThrownApp (mkAppError "Invalid email or password" 401)),
        demoWorld [] 6000 None).
Proof.
  pose proof (deleteAccount_removes_only_that_record
                (demoWorld [annVerified] 5000 None) 1%N annVerified "wrong"
                (demoWorld_wf_single annVerified 5000 None eq_refl) eq_refl)
    as [Hwrong _].
  pose proof (deleteAccount_removes_only_that_record
                (demoWorld [annVerified] 5000 None) 1%N annVerified "Passw0rd"
                (demoWorld_wf_single annVerified 5000 None eq_refl) eq_refl)
    as [_ Hright].
  destruct (Hright eq_refl) as (Hrun & _ & Hafter).
  split; [exact (Hwrong eq_refl)|]. split; [exact Hrun|].
  exact (proj2 (Hafter (demoWorld [] 6000 None) eq_refl) "Passw0rd").
Defined.

Lemma extractTokenFromHeader_cases_witness :
  extractTokenFromHeader (Some "Bearer access.ann@x.com") = Some "access.ann@x.com"
  /\ extractTokenFromHeader (Some "access.ann@x.com") = Some "access.ann@x.com"
  /\ extractTokenFromHeader (Some "Bearer ") = Some "".
Proof.
  destruct extractTokenFromHeader_cases as (Hbearer & Hraw & _).
  assert ("access.ann@x.com" <> "") as Hne by discriminate.
  split; [exact (Hbearer "access.ann@x.com")|].
  split; [exact (Hraw "access.ann@x.com" Hne eq_refl)|exact (Hbearer "")].
Defined.

(** Ann's token before and after she changes her password. *)
Lemma tokens_survive_every_call_but_deletion_witness :
  protect (Some "Bearer access.ann@x.com") (demoWorld [annVerified] 5000 None)
  = Pass (Some annVerified)
  /\ exists u',
       protect (Some "Bearer access.ann@x.com")
         (serve (ChangePassword 1%N "Passw0rd" "N3wPassw0rd")
            (demoWorld [annVerified] 5000 None))
       = Pass (Some u')
       /\ _id u' = 1%N.
Proof.
  split; [reflexivity|].
  apply (tokens_survive_every_call_but_deletion (Some "Bearer access.ann@x.com")
           (demoWorld [annVerified] 5000 None) annVerified
           (ChangePassword 1%N "Passw0rd" "N3wPassw0rd")).
  - intros i p H. discriminate H.
  - reflexivity.
Defined.

Lemma protect_rejects_deleted_account_witness :
  protect (Some "Bearer access.ann@x.com")
    (snd (deleteAccount 1%N "Passw0rd" (demoWorld [annVerified] 5000 None)))
  = Reject 401 "Access denied. User not found." None.
Proof.
  assert ("access.ann@x.com" <> "") as Hne by discriminate.
  exact (protect_rejects_deleted_account (demoWorld [annVerified] 5000 None) 1%N
           annVerified "Passw0rd" "access.ann@x.com"
           (mkPayload 1%N 1%N "ann@x.com" free false)
           (demoWorld_wf_single annVerified 5000 None eq_refl)
           eq_refl eq_refl Hne eq_refl eq_refl).
Defined.

(** Ann is on the free plan. *)
Lemma requirePlan_follows_hierarchy_witness :
  requirePlan free (Some annVerified) = Pass (Some annVerified)
  /\ exists msg, requirePlan pro (Some annVerified) = Reject 403 msg None.
Proof.
  destruct (requirePlan_follows_hierarchy annVerified pro)
    as (_ & Hreject & _ & _ & Hfree).
  split; [exact Hfree|]. apply Hreject. reflexivity.
Defined.

Lemma operational_errors_are_rendered_verbatim_witness :
  respond false (Api (Login "ann@x.com" "Passw0rd")) (demoWorld [annPending] 1000 None)
  = (mkHttp 401 false
       "Please verify your email before logging in. Check your email for verification code."
       None,
     demoWorld [annPending] 1000 None).
Proof.
  exact (operational_errors_are_rendered_verbatim false
           (Login "ann@x.com" "Passw0rd") (demoWorld [annPending] 1000 None)
           _ eq_refl).
Defined.

Lemma refresh_with_bad_token_is_answered_500_witness :
  respond false (Api (RefreshToken "garbage")) (demoWorld [annVerified] 5000 None)
  = (mkHttp 500 false "Something went wrong!" None, demoWorld [annVerified] 5000 None).
Proof.
  apply (refresh_with_bad_token_is_answered_500 "garbage"
           (demoWorld [annVerified] 5000 None)).
  intros p H. discriminate H.
Defined.

(** Ann reads her profile, renames herself with blanks around the
    name, and tries a name of blanks only. *)
Lemma protected_calls_find_their_user_witness :
  protect (Some "Bearer access.ann@x.com") (demoWorld [annVerified] 5000 None)
  = Pass (Some annVerified)
  /\ getProfile 1%N (demoWorld [annVerified] 5000 None)
     = (Returned (userProfile annVerified), demoWorld [annVerified] 5000 None)
  /\ updateProfile 1%N " Ann B " (demoWorld [annVerified] 5000 None)
     = (Returned (mkProfile (mkUserView 1%N "Ann B" "ann@x.com" free false [] 0%N)
                    (Some 1000) 0),
        demoWorld
          [mkUser 1%N "Ann B" "ann@x.com" "$2a$10$Passw0rd" free false true
             None None None None [] 0%N (Some 1000) 0]
          5000 None)
  /\ exists e,
       updateProfile 1%N "   " (demoWorld [annVerified] 5000 None)
       = (Raised (ThrownValidation [e]), demoWorld [annVerified] 5000 None)
       /\ path e = "name".
Proof.
  split; [reflexivity|].
  destruct (protected_calls_find_their_user
              (hasher := demoBcrypt) (verifier := demoAccess)
              (Some "Bearer access.ann@x.com")
              (demoWorld [annVerified] 5000 None) annVerified eq_refl)
    as (Hget & Hupdate & Hrefused & _).
  split; [exact Hget|]. split.
  - exact (proj1 (Hupdate " Ann B " (schemaAcceptsName_of " Ann B " eq_refl))).
  - apply (Hrefused "   "). intros [Hne _]. apply Hne. reflexivity.
Defined.

(** "Ann B" comes back as it is. *)
Lemma sanitizeString_output_witness :
  sanitizeString [65; 110; 110; 32; 66]%N = [65; 110; 110; 32; 66]%N.
Proof.
  apply (proj2 (proj2 (sanitizeString_output [65; 110; 110; 32; 66]%N))).
  - reflexivity.
  - repeat constructor; discriminate.
  - simpl. lia.
Defined.

(** The name "Ann B", Ann's address and the password "Passw0rd". *)
Lemma request_validation_implies_schema_witness :
  schemaAcceptsName "Ann B"
  /\ schemaAcceptsEmail "ann@x.com"
  /\ schemaAcceptsPassword "Passw0rd".
Proof.
  destruct (request_validation_implies_schema "Ann B" "ann@x.com" "Passw0rd")
    as (Hname & Hemail & Hpassword).
  split; [apply Hname; reflexivity|].
  split; [apply Hemail; reflexivity|apply Hpassword; reflexivity].
Defined.

(** Ann's reset code with the new password "abc". *)
Lemma schema_refusal_is_answered_by_the_handler_witness :
  respond false (Api (ResetPassword "ann@x.com" "654321" "abc"))
    (demoWorld [annResetting] 5000 None)
  = (mkHttp 400 false "Invalid input data: Password must be at least 6 characters" None,
     demoWorld [annResetting] 5000 None).
Proof.
  apply (schema_refusal_is_answered_by_the_handler
           (demoWorld [annResetting] 5000 None) "ann@x.com" "654321" "abc"
           annResetting).
  - reflexivity.
  - simpl. lia.
Defined.

(** A transport that delivers everything. *)
Lemma delivered_code_is_stored_code_witness :
  exists w' v,
    forgotPassword "ann@x.com" (demoWorld [annVerified] 5000 (Some (fun _ => true)))
    = (Returned forgotPasswordMessage, w')
    /\ outbox w' = [PasswordResetCodeMail "ann@x.com" "Ann" "123456"]
    /\ find (has_id 1%N) (users w') = Some v
    /\ passwordResetCode v = Some "123456".
Proof.
  exact (proj1 (delivered_code_is_stored_code
                  (demoWorld [annVerified] 5000 (Some (fun _ => true)))
                  (fun _ => true) eq_refl (fun _ => eq_refl))
           "ann@x.com" annVerified eq_refl eq_refl).
Defined.
